(** * The single-shard gateway client of hikari

    A shallow embedding of [hikari/net/gateway.py] (class [Gateway]), of
    the supervisor loop and the lifecycle methods of
    [hikari/clients/shards.py] ([ShardClientImpl]) and of the token handling
    of [hikari/rest/client.py], with the properties of the handshake, the
    heartbeat, the poll loop, the presence payload, the reconnect logic and
    the shutdown.

    Python objects are modelled as the code uses them: the gateway object is
    a record of its attributes, passed explicitly; the websocket, the clock
    and the event loop are a [World] the methods read from and write a trace
    of calls to; exceptions are the [Raise] outcomes of a small state and
    error monad.  Timestamps are IEEE binary64 floats, as in Python, with
    [nan] for an absent time. *)

From Stdlib Require Import ZArith List String Bool Floats Lia DecimalString DecimalZ.
From Stdlib.Strings Require Import Byte.
Import ListNotations.
Open Scope string_scope.
Open Scope Z_scope.

Set Implicit Arguments.
Set Warnings "-register-all,-inexact-float".

(** ** Python values *)

Definition bytes := list byte.

(** [float(n)] for a Python int: correctly rounded to binary64. *)
Definition float_of_int (n : Z) : float :=
  SF2Prim (binary_normalize prec emax n 0 false).

(** What [json.loads] returns and [json.dumps] accepts.  [JNull] is [None];
    an object keeps its keys in insertion order, as a [dict] does. *)
Inductive json : Type :=
| JNull
| JBool (b : bool)
| JInt (n : Z)
| JFloat (x : float)
| JStr (s : string)
| JArr (items : list json)
| JObj (fields : list (string * json)).

Definition is_None (v : json) : bool :=
  match v with JNull => true | _ => false end.

(** Python truth value of a decoded JSON value. *)
Definition truthy (v : json) : bool :=
  match v with
  | JNull => false
  | JBool b => b
  | JInt n => negb (n =? 0)
  | JFloat x => negb (PrimFloat.eqb x 0%float)
  | JStr s => negb (String.eqb s "")
  | JArr l => match l with [] => false | _ => true end
  | JObj l => match l with [] => false | _ => true end
  end.

(** [v == k] for an [int] enumeration member [k]: a bool is the int 0 or 1
    and a float compares by value. *)
Definition eq_int (v : json) (k : Z) : bool :=
  match v with
  | JInt n => n =? k
  | JBool b => (if b then 1 else 0) =? k
  | JFloat x => PrimFloat.eqb x (float_of_int k)
  | _ => false
  end.

(** [v == s] for a string literal [s]. *)
Definition eq_str (v : json) (s : string) : bool :=
  match v with JStr t => String.eqb t s | _ => false end.

Fixpoint assoc (k : string) (fields : list (string * json)) : option json :=
  match fields with
  | [] => None
  | (k', v) :: rest => if String.eqb k k' then Some v else assoc k rest
  end.

(** The text of a websocket payload.  [json.loads] and [json.dumps] are
    library code: a payload is represented by the document it denotes, or
    is [Malformed] when [json.loads] would reject it. *)
Inductive Text : Type :=
| Doc (j : json)
| Malformed (raw : string).

(** ** Enumerations *)

Inductive _GatewayCloseCode : Type :=
| RFC_6455_NORMAL_CLOSURE | RFC_6455_GOING_AWAY | RFC_6455_PROTOCOL_ERROR
| RFC_6455_TYPE_ERROR | RFC_6455_ENCODING_ERROR | RFC_6455_POLICY_VIOLATION
| RFC_6455_TOO_BIG | RFC_6455_UNEXPECTED_CONDITION
| DO_NOT_INVALIDATE_SESSION
| UNKNOWN_ERROR | UNKNOWN_OPCODE | DECODE_ERROR | NOT_AUTHENTICATED
| AUTHENTICATION_FAILED | ALREADY_AUTHENTICATED | INVALID_SEQ | RATE_LIMITED
| SESSION_TIMEOUT | INVALID_SHARD | SHARDING_REQUIRED | INVALID_VERSION
| INVALID_INTENT | DISALLOWED_INTENT.

Definition close_code_value (c : _GatewayCloseCode) : Z :=
  match c with
  | RFC_6455_NORMAL_CLOSURE => 1000
  | RFC_6455_GOING_AWAY => 1001
  | RFC_6455_PROTOCOL_ERROR => 1002
  | RFC_6455_TYPE_ERROR => 1003
  | RFC_6455_ENCODING_ERROR => 1007
  | RFC_6455_POLICY_VIOLATION => 1008
  | RFC_6455_TOO_BIG => 1009
  | RFC_6455_UNEXPECTED_CONDITION => 1011
  | DO_NOT_INVALIDATE_SESSION => 3000
  | UNKNOWN_ERROR => 4000
  | UNKNOWN_OPCODE => 4001
  | DECODE_ERROR => 4002
  | NOT_AUTHENTICATED => 4003
  | AUTHENTICATION_FAILED => 4004
  | ALREADY_AUTHENTICATED => 4005
  | INVALID_SEQ => 4007
  | RATE_LIMITED => 4008
  | SESSION_TIMEOUT => 4009
  | INVALID_SHARD => 4010
  | SHARDING_REQUIRED => 4011
  | INVALID_VERSION => 4012
  | INVALID_INTENT => 4013
  | DISALLOWED_INTENT => 4014
  end.

(** [_GatewayCloseCode.__members__.values()], in declaration order. *)
Definition close_code_members : list _GatewayCloseCode :=
  [ RFC_6455_NORMAL_CLOSURE; RFC_6455_GOING_AWAY; RFC_6455_PROTOCOL_ERROR;
    RFC_6455_TYPE_ERROR; RFC_6455_ENCODING_ERROR; RFC_6455_POLICY_VIOLATION;
    RFC_6455_TOO_BIG; RFC_6455_UNEXPECTED_CONDITION;
    DO_NOT_INVALIDATE_SESSION;
    UNKNOWN_ERROR; UNKNOWN_OPCODE; DECODE_ERROR; NOT_AUTHENTICATED;
    AUTHENTICATION_FAILED; ALREADY_AUTHENTICATED; INVALID_SEQ; RATE_LIMITED;
    SESSION_TIMEOUT; INVALID_SHARD; SHARDING_REQUIRED; INVALID_VERSION;
    INVALID_INTENT; DISALLOWED_INTENT ].

(** [close_code in members]: the websocket's close code is an [int] or
    [None], and [None] equals no member. *)
Definition code_in (close_code : option Z) (members : list _GatewayCloseCode) : bool :=
  match close_code with
  | None => false
  | Some c => existsb (fun m => c =? close_code_value m) members
  end.

(** [_GatewayCloseCode(close_code)]: the member with that value. *)
Definition close_code_of (c : Z) : option _GatewayCloseCode :=
  find (fun m => c =? close_code_value m) close_code_members.

Inductive _GatewayOpcode : Type :=
| DISPATCH | HEARTBEAT | IDENTIFY | PRESENCE_UPDATE | VOICE_STATE_UPDATE
| RESUME | RECONNECT | REQUEST_GUILD_MEMBERS | INVALID_SESSION | HELLO
| HEARTBEAT_ACK.

Definition opcode_value (o : _GatewayOpcode) : Z :=
  match o with
  | DISPATCH => 0
  | HEARTBEAT => 1
  | IDENTIFY => 2
  | PRESENCE_UPDATE => 3
  | VOICE_STATE_UPDATE => 4
  | RESUME => 6
  | RECONNECT => 7
  | REQUEST_GUILD_MEMBERS => 8
  | INVALID_SESSION => 9
  | HELLO => 10
  | HEARTBEAT_ACK => 11
  end.

(** An opcode as [json.dumps] writes it. *)
Definition op (o : _GatewayOpcode) : json := JInt (opcode_value o).

(** Modelled from the spec: [hikari.models.guilds.PresenceStatus] is not part
    of the sources; the spec lists the statuses online, idle, dnd and
    invisible, and the payload carries the member's [value]. *)
Inductive PresenceStatus : Type := ONLINE | IDLE | DND | INVISIBLE.

Definition status_value (s : PresenceStatus) : string :=
  match s with
  | ONLINE => "online"
  | IDLE => "idle"
  | DND => "dnd"
  | INVISIBLE => "invisible"
  end.

(** The [name] every enumeration member has. *)
Definition status_name (s : PresenceStatus) : string :=
  match s with
  | ONLINE => "ONLINE"
  | IDLE => "IDLE"
  | DND => "DND"
  | INVISIBLE => "INVISIBLE"
  end.

(** A [datetime.datetime], by what [timestamp()] returns: POSIX seconds. *)
Record datetime : Type := { timestamp : float }.

(** [Activity]: [type] is a [guilds.ActivityType], an [int] enumeration. *)
Record Activity : Type := {
  name : string;
  url : option string;
  type_ : Z
}.

(** An argument that may be left [unset.UNSET]. *)
Inductive Unset (A : Type) : Type :=
| UNSET
| Given (a : A).
Arguments UNSET {A}.

Definition is_unset {A} (v : Unset A) : bool :=
  match v with UNSET => true | Given _ => false end.

Definition or_else {A} (v : Unset A) (stored : A) : A :=
  match v with UNSET => stored | Given a => a end.

(** ** Exceptions *)

Inductive GatewayErrorMessage : Type :=
| Expected_HELLO (received : json)
| Expected_binary_message
| Unexpected_websocket_exception.

(** The [reason] of a server close: the member's name, or
    "unknown close code <code>". *)
Inductive CloseReason : Type :=
| member_name (c : _GatewayCloseCode)
| unknown_close_code (code : option Z).

Inductive Exn : Type :=
| GatewayError (message : GatewayErrorMessage)
| GatewayServerClosedConnectionError
    (reason : CloseReason) (close_code : option Z)
    (can_reconnect can_resume should_backoff : bool)
| GatewayClientClosedError
| ClientConnectorError
| _Reconnect
| _SocketClosed
| _InvalidSession (can_resume : json)
| KeyError (key : string)
| TypeError
| AttributeError
| ValueError
| OverflowError
| ConnectionResetError
| WSServerHandshakeError
| zlib_error
| CancelledError.

(** [except Exception] catches everything but a cancellation, which derives
    from [BaseException]. *)
Definition is_Exception (e : Exn) : bool :=
  match e with CancelledError => false | _ => true end.

(** A pure computation that may raise. *)
Inductive Result (A : Type) : Type :=
| Ok (a : A)
| Err (e : Exn).
Arguments Err {A}.

(** [o[k]] on a decoded value: only a dict can be indexed by a string. *)
Definition getitem (o : json) (k : string) : Result json :=
  match o with
  | JObj fields =>
      match assoc k fields with
      | Some v => Ok v
      | None => Err (KeyError k)
      end
  | _ => Err TypeError
  end.

(** [x / 1_000.0]: true division of a decoded value by a float. *)
Definition truediv (x : json) (y : float) : Result float :=
  match x with
  | JInt n =>
      let f := float_of_int n in
      if PrimFloat.is_infinity f then Err OverflowError else Ok (PrimFloat.div f y)
  | JBool b => Ok (PrimFloat.div (if b then 1%float else 0%float) y)
  | JFloat f => Ok (PrimFloat.div f y)
  | _ => Err TypeError
  end.

(** ** The websocket *)

(** Messages of [aiohttp]'s [ws.receive()].  A [CLOSE] message carries the
    peer's close code, which the websocket also keeps as [close_code]. *)
Inductive WSMessage : Type :=
| TEXT (data : Text)
| BINARY (data : bytes)
| CLOSE (code : option Z)
| CLOSING
| CLOSED
| PING
| PONG
| ERROR.

(** [bytearray.append] takes one integer in [range(256)]; [buff.append] of a
    [bytes] object raises [TypeError]. *)
Inductive Item : Type :=
| an_int (n : Z)
| a_bytes (data : bytes).

Definition bytearray_append (buff : bytes) (item : Item) : Result bytes :=
  match item with
  | an_int n =>
      if (0 <=? n) && (n <? 256)
      then match Byte.of_N (Z.to_N n) with
           | Some b => Ok (buff ++ [b])%list
           | None => Err ValueError
           end
      else Err ValueError
  | a_bytes _ => Err TypeError
  end.

Definition bytes_eqb (a b : bytes) : bool :=
  (Nat.eqb (List.length a) (List.length b)) && forallb (fun p => Byte.eqb (fst p) (snd p)) (combine a b).

(** [buff.endswith(suffix)] *)
Definition endswith (buff suffix : bytes) : bool :=
  (Nat.leb (List.length suffix) (List.length buff))
  && bytes_eqb (skipn (List.length buff - List.length suffix) buff) suffix.

Definition ZLIB_SUFFIX : bytes := [x00; x00; xff; xff].

(** ** Library code outside the sources

    [hikari.internal.ratelimits.ExponentialBackOff], the [zlib] inflater
    and [user_agents.UserAgent] are not part of the sources; the gateway is
    generic in them. *)
Class Platform : Type := {
  (** the state of an [ExponentialBackOff] iterator *)
  BackOff : Type;
  (** [ExponentialBackOff(base=1.85, maximum=600, initial_increment=2)] *)
  new_backoff : BackOff;
  (** [next(backoff)]: a delay, and the advanced iterator *)
  backoff_next : BackOff -> float * BackOff;
  (** [backoff.reset()] *)
  backoff_reset : BackOff -> BackOff;
  (** a [zlib.decompressobj()] *)
  Inflater : Type;
  decompressobj : Inflater;
  (** [inflater.decompress(buff).decode("utf-8")]; [Err] for a [zlib.error]
      or a decoding error *)
  decompress : Inflater -> bytes -> Result Text * Inflater;
  (** [user_agents.UserAgent().websocket_triplet] *)
  websocket_triplet : json
}.

Section Gateway.

Context {platform : Platform}.

(** ** The gateway object

    The attributes [__init__] sets, less those no method below reads (the
    logger, the rate limiter, the URL and the settings of the HTTP
    client).  [_ws] tells whether the attribute holds a websocket or
    [None]; the websocket itself lives in the [World]. *)
Record Gateway : Type := {
  _activity : option Activity;
  _backoff : BackOff;
  _handshake_event : bool;
  _idle_since : option datetime;
  _intents : option Z;
  _is_afk : option bool;
  _last_run_started_at : float;
  _request_close_event : bool;
  _seq : json;
  _session_id : json;
  _shard_id : Z;
  _shard_count : Z;
  _status : option PresenceStatus;
  _token : string;
  _ws : bool;
  _zlib : option Inflater;
  _zombied : bool;
  connected_at : float;
  heartbeat_interval : float;
  heartbeat_latency : float;
  last_heartbeat_sent : float;
  last_message_received : float;
  large_threshold : Z
}.

Definition set_activity (v : option Activity) (g : Gateway) : Gateway :=
  {| _activity := v; _backoff := _backoff g;
     _handshake_event := _handshake_event g; _idle_since := _idle_since g;
     _intents := _intents g; _is_afk := _is_afk g;
     _last_run_started_at := _last_run_started_at g;
     _request_close_event := _request_close_event g; _seq := _seq g;
     _session_id := _session_id g; _shard_id := _shard_id g;
     _shard_count := _shard_count g; _status := _status g; _token := _token g;
     _ws := _ws g; _zlib := _zlib g; _zombied := _zombied g;
     connected_at := connected_at g;
     heartbeat_interval := heartbeat_interval g;
     heartbeat_latency := heartbeat_latency g;
     last_heartbeat_sent := last_heartbeat_sent g;
     last_message_received := last_message_received g;
     large_threshold := large_threshold g |}.

Definition set_backoff (v : BackOff) (g : Gateway) : Gateway :=
  {| _activity := _activity g; _backoff := v;
     _handshake_event := _handshake_event g; _idle_since := _idle_since g;
     _intents := _intents g; _is_afk := _is_afk g;
     _last_run_started_at := _last_run_started_at g;
     _request_close_event := _request_close_event g; _seq := _seq g;
     _session_id := _session_id g; _shard_id := _shard_id g;
     _shard_count := _shard_count g; _status := _status g; _token := _token g;
     _ws := _ws g; _zlib := _zlib g; _zombied := _zombied g;
     connected_at := connected_at g;
     heartbeat_interval := heartbeat_interval g;
     heartbeat_latency := heartbeat_latency g;
     last_heartbeat_sent := last_heartbeat_sent g;
     last_message_received := last_message_received g;
     large_threshold := large_threshold g |}.

Definition set_handshake_event (v : bool) (g : Gateway) : Gateway :=
  {| _activity := _activity g; _backoff := _backoff g; _handshake_event := v;
     _idle_since := _idle_since g; _intents := _intents g;
     _is_afk := _is_afk g; _last_run_started_at := _last_run_started_at g;
     _request_close_event := _request_close_event g; _seq := _seq g;
     _session_id := _session_id g; _shard_id := _shard_id g;
     _shard_count := _shard_count g; _status := _status g; _token := _token g;
     _ws := _ws g; _zlib := _zlib g; _zombied := _zombied g;
     connected_at := connected_at g;
     heartbeat_interval := heartbeat_interval g;
     heartbeat_latency := heartbeat_latency g;
     last_heartbeat_sent := last_heartbeat_sent g;
     last_message_received := last_message_received g;
     large_threshold := large_threshold g |}.

Definition set_idle_since (v : option datetime) (g : Gateway) : Gateway :=
  {| _activity := _activity g; _backoff := _backoff g;
     _handshake_event := _handshake_event g; _idle_since := v;
     _intents := _intents g; _is_afk := _is_afk g;
     _last_run_started_at := _last_run_started_at g;
     _request_close_event := _request_close_event g; _seq := _seq g;
     _session_id := _session_id g; _shard_id := _shard_id g;
     _shard_count := _shard_count g; _status := _status g; _token := _token g;
     _ws := _ws g; _zlib := _zlib g; _zombied := _zombied g;
     connected_at := connected_at g;
     heartbeat_interval := heartbeat_interval g;
     heartbeat_latency := heartbeat_latency g;
     last_heartbeat_sent := last_heartbeat_sent g;
     last_message_received := last_message_received g;
     large_threshold := large_threshold g |}.

Definition set_is_afk (v : option bool) (g : Gateway) : Gateway :=
  {| _activity := _activity g; _backoff := _backoff g;
     _handshake_event := _handshake_event g; _idle_since := _idle_since g;
     _intents := _intents g; _is_afk := v;
     _last_run_started_at := _last_run_started_at g;
     _request_close_event := _request_close_event g; _seq := _seq g;
     _session_id := _session_id g; _shard_id := _shard_id g;
     _shard_count := _shard_count g; _status := _status g; _token := _token g;
     _ws := _ws g; _zlib := _zlib g; _zombied := _zombied g;
     connected_at := connected_at g;
     heartbeat_interval := heartbeat_interval g;
     heartbeat_latency := heartbeat_latency g;
     last_heartbeat_sent := last_heartbeat_sent g;
     last_message_received := last_message_received g;
     large_threshold := large_threshold g |}.

Definition set_last_run_started_at (v : float) (g : Gateway) : Gateway :=
  {| _activity := _activity g; _backoff := _backoff g;
     _handshake_event := _handshake_event g; _idle_since := _idle_since g;
     _intents := _intents g; _is_afk := _is_afk g; _last_run_started_at := v;
     _request_close_event := _request_close_event g; _seq := _seq g;
     _session_id := _session_id g; _shard_id := _shard_id g;
     _shard_count := _shard_count g; _status := _status g; _token := _token g;
     _ws := _ws g; _zlib := _zlib g; _zombied := _zombied g;
     connected_at := connected_at g;
     heartbeat_interval := heartbeat_interval g;
     heartbeat_latency := heartbeat_latency g;
     last_heartbeat_sent := last_heartbeat_sent g;
     last_message_received := last_message_received g;
     large_threshold := large_threshold g |}.

Definition set_request_close_event (v : bool) (g : Gateway) : Gateway :=
  {| _activity := _activity g; _backoff := _backoff g;
     _handshake_event := _handshake_event g; _idle_since := _idle_since g;
     _intents := _intents g; _is_afk := _is_afk g;
     _last_run_started_at := _last_run_started_at g;
     _request_close_event := v; _seq := _seq g; _session_id := _session_id g;
     _shard_id := _shard_id g; _shard_count := _shard_count g;
     _status := _status g; _token := _token g; _ws := _ws g; _zlib := _zlib g;
     _zombied := _zombied g; connected_at := connected_at g;
     heartbeat_interval := heartbeat_interval g;
     heartbeat_latency := heartbeat_latency g;
     last_heartbeat_sent := last_heartbeat_sent g;
     last_message_received := last_message_received g;
     large_threshold := large_threshold g |}.

Definition set_seq (v : json) (g : Gateway) : Gateway :=
  {| _activity := _activity g; _backoff := _backoff g;
     _handshake_event := _handshake_event g; _idle_since := _idle_since g;
     _intents := _intents g; _is_afk := _is_afk g;
     _last_run_started_at := _last_run_started_at g;
     _request_close_event := _request_close_event g; _seq := v;
     _session_id := _session_id g; _shard_id := _shard_id g;
     _shard_count := _shard_count g; _status := _status g; _token := _token g;
     _ws := _ws g; _zlib := _zlib g; _zombied := _zombied g;
     connected_at := connected_at g;
     heartbeat_interval := heartbeat_interval g;
     heartbeat_latency := heartbeat_latency g;
     last_heartbeat_sent := last_heartbeat_sent g;
     last_message_received := last_message_received g;
     large_threshold := large_threshold g |}.

Definition set_session_id (v : json) (g : Gateway) : Gateway :=
  {| _activity := _activity g; _backoff := _backoff g;
     _handshake_event := _handshake_event g; _idle_since := _idle_since g;
     _intents := _intents g; _is_afk := _is_afk g;
     _last_run_started_at := _last_run_started_at g;
     _request_close_event := _request_close_event g; _seq := _seq g;
     _session_id := v; _shard_id := _shard_id g;
     _shard_count := _shard_count g; _status := _status g; _token := _token g;
     _ws := _ws g; _zlib := _zlib g; _zombied := _zombied g;
     connected_at := connected_at g;
     heartbeat_interval := heartbeat_interval g;
     heartbeat_latency := heartbeat_latency g;
     last_heartbeat_sent := last_heartbeat_sent g;
     last_message_received := last_message_received g;
     large_threshold := large_threshold g |}.

Definition set_status (v : option PresenceStatus) (g : Gateway) : Gateway :=
  {| _activity := _activity g; _backoff := _backoff g;
     _handshake_event := _handshake_event g; _idle_since := _idle_since g;
     _intents := _intents g; _is_afk := _is_afk g;
     _last_run_started_at := _last_run_started_at g;
     _request_close_event := _request_close_event g; _seq := _seq g;
     _session_id := _session_id g; _shard_id := _shard_id g;
     _shard_count := _shard_count g; _status := v; _token := _token g;
     _ws := _ws g; _zlib := _zlib g; _zombied := _zombied g;
     connected_at := connected_at g;
     heartbeat_interval := heartbeat_interval g;
     heartbeat_latency := heartbeat_latency g;
     last_heartbeat_sent := last_heartbeat_sent g;
     last_message_received := last_message_received g;
     large_threshold := large_threshold g |}.

Definition set_ws (v : bool) (g : Gateway) : Gateway :=
  {| _activity := _activity g; _backoff := _backoff g;
     _handshake_event := _handshake_event g; _idle_since := _idle_since g;
     _intents := _intents g; _is_afk := _is_afk g;
     _last_run_started_at := _last_run_started_at g;
     _request_close_event := _request_close_event g; _seq := _seq g;
     _session_id := _session_id g; _shard_id := _shard_id g;
     _shard_count := _shard_count g; _status := _status g; _token := _token g;
     _ws := v; _zlib := _zlib g; _zombied := _zombied g;
     connected_at := connected_at g;
     heartbeat_interval := heartbeat_interval g;
     heartbeat_latency := heartbeat_latency g;
     last_heartbeat_sent := last_heartbeat_sent g;
     last_message_received := last_message_received g;
     large_threshold := large_threshold g |}.

Definition set_zlib (v : option Inflater) (g : Gateway) : Gateway :=
  {| _activity := _activity g; _backoff := _backoff g;
     _handshake_event := _handshake_event g; _idle_since := _idle_since g;
     _intents := _intents g; _is_afk := _is_afk g;
     _last_run_started_at := _last_run_started_at g;
     _request_close_event := _request_close_event g; _seq := _seq g;
     _session_id := _session_id g; _shard_id := _shard_id g;
     _shard_count := _shard_count g; _status := _status g; _token := _token g;
     _ws := _ws g; _zlib := v; _zombied := _zombied g;
     connected_at := connected_at g;
     heartbeat_interval := heartbeat_interval g;
     heartbeat_latency := heartbeat_latency g;
     last_heartbeat_sent := last_heartbeat_sent g;
     last_message_received := last_message_received g;
     large_threshold := large_threshold g |}.

Definition set_zombied (v : bool) (g : Gateway) : Gateway :=
  {| _activity := _activity g; _backoff := _backoff g;
     _handshake_event := _handshake_event g; _idle_since := _idle_since g;
     _intents := _intents g; _is_afk := _is_afk g;
     _last_run_started_at := _last_run_started_at g;
     _request_close_event := _request_close_event g; _seq := _seq g;
     _session_id := _session_id g; _shard_id := _shard_id g;
     _shard_count := _shard_count g; _status := _status g; _token := _token g;
     _ws := _ws g; _zlib := _zlib g; _zombied := v;
     connected_at := connected_at g;
     heartbeat_interval := heartbeat_interval g;
     heartbeat_latency := heartbeat_latency g;
     last_heartbeat_sent := last_heartbeat_sent g;
     last_message_received := last_message_received g;
     large_threshold := large_threshold g |}.

Definition set_connected_at (v : float) (g : Gateway) : Gateway :=
  {| _activity := _activity g; _backoff := _backoff g;
     _handshake_event := _handshake_event g; _idle_since := _idle_since g;
     _intents := _intents g; _is_afk := _is_afk g;
     _last_run_started_at := _last_run_started_at g;
     _request_close_event := _request_close_event g; _seq := _seq g;
     _session_id := _session_id g; _shard_id := _shard_id g;
     _shard_count := _shard_count g; _status := _status g; _token := _token g;
     _ws := _ws g; _zlib := _zlib g; _zombied := _zombied g;
     connected_at := v; heartbeat_interval := heartbeat_interval g;
     heartbeat_latency := heartbeat_latency g;
     last_heartbeat_sent := last_heartbeat_sent g;
     last_message_received := last_message_received g;
     large_threshold := large_threshold g |}.

Definition set_heartbeat_interval (v : float) (g : Gateway) : Gateway :=
  {| _activity := _activity g; _backoff := _backoff g;
     _handshake_event := _handshake_event g; _idle_since := _idle_since g;
     _intents := _intents g; _is_afk := _is_afk g;
     _last_run_started_at := _last_run_started_at g;
     _request_close_event := _request_close_event g; _seq := _seq g;
     _session_id := _session_id g; _shard_id := _shard_id g;
     _shard_count := _shard_count g; _status := _status g; _token := _token g;
     _ws := _ws g; _zlib := _zlib g; _zombied := _zombied g;
     connected_at := connected_at g; heartbeat_interval := v;
     heartbeat_latency := heartbeat_latency g;
     last_heartbeat_sent := last_heartbeat_sent g;
     last_message_received := last_message_received g;
     large_threshold := large_threshold g |}.

Definition set_heartbeat_latency (v : float) (g : Gateway) : Gateway :=
  {| _activity := _activity g; _backoff := _backoff g;
     _handshake_event := _handshake_event g; _idle_since := _idle_since g;
     _intents := _intents g; _is_afk := _is_afk g;
     _last_run_started_at := _last_run_started_at g;
     _request_close_event := _request_close_event g; _seq := _seq g;
     _session_id := _session_id g; _shard_id := _shard_id g;
     _shard_count := _shard_count g; _status := _status g; _token := _token g;
     _ws := _ws g; _zlib := _zlib g; _zombied := _zombied g;
     connected_at := connected_at g;
     heartbeat_interval := heartbeat_interval g; heartbeat_latency := v;
     last_heartbeat_sent := last_heartbeat_sent g;
     last_message_received := last_message_received g;
     large_threshold := large_threshold g |}.

Definition set_last_heartbeat_sent (v : float) (g : Gateway) : Gateway :=
  {| _activity := _activity g; _backoff := _backoff g;
     _handshake_event := _handshake_event g; _idle_since := _idle_since g;
     _intents := _intents g; _is_afk := _is_afk g;
     _last_run_started_at := _last_run_started_at g;
     _request_close_event := _request_close_event g; _seq := _seq g;
     _session_id := _session_id g; _shard_id := _shard_id g;
     _shard_count := _shard_count g; _status := _status g; _token := _token g;
     _ws := _ws g; _zlib := _zlib g; _zombied := _zombied g;
     connected_at := connected_at g;
     heartbeat_interval := heartbeat_interval g;
     heartbeat_latency := heartbeat_latency g; last_heartbeat_sent := v;
     last_message_received := last_message_received g;
     large_threshold := large_threshold g |}.

Definition set_last_message_received (v : float) (g : Gateway) : Gateway :=
  {| _activity := _activity g; _backoff := _backoff g;
     _handshake_event := _handshake_event g; _idle_since := _idle_since g;
     _intents := _intents g; _is_afk := _is_afk g;
     _last_run_started_at := _last_run_started_at g;
     _request_close_event := _request_close_event g; _seq := _seq g;
     _session_id := _session_id g; _shard_id := _shard_id g;
     _shard_count := _shard_count g; _status := _status g; _token := _token g;
     _ws := _ws g; _zlib := _zlib g; _zombied := _zombied g;
     connected_at := connected_at g;
     heartbeat_interval := heartbeat_interval g;
     heartbeat_latency := heartbeat_latency g;
     last_heartbeat_sent := last_heartbeat_sent g; last_message_received := v;
     large_threshold := large_threshold g |}.

(** ** The world around the gateway

    What the methods await on.  [perf_counter] is the clock: [reads] counts
    the calls of [time.perf_counter()] so far.  [network] is what each call
    of [_create_ws] meets, [frames] the messages the current websocket
    still delivers, [close_code] its close code, [send_errors] what the next
    calls of [ws.send_str] raise ([None] or no entry: nothing).  [trace]
    lists the calls made on the event loop and the websocket, newest
    first.

    A task made with [asyncio.create_task] runs when the event loop next
    gets control; the model records its creation and does not interleave
    its body.  The heartbeat task's body is [_pulse] below. *)
Inductive Coroutine : Type :=
| dispatch (self : Gateway) (event data : json)
| pulse
| close_event_wait.

Inductive Effect : Type :=
| create_task (coro : Coroutine)
| cancel_heartbeat
| create_ws
| send_str (message : json)
| ws_close (code : Z) (message : string)
| wait_for (timeout : float).

(** What the connector and the transport raise. *)
Inductive TransportError : Type :=
| connector_error
| server_handshake_error
| connection_reset
| cancelled.

Definition transport_exn (e : TransportError) : Exn :=
  match e with
  | connector_error => ClientConnectorError
  | server_handshake_error => WSServerHandshakeError
  | connection_reset => ConnectionResetError
  | cancelled => CancelledError
  end.

Inductive Connect : Type :=
| refused (e : TransportError)
| accepted (delivers : list WSMessage).

Record World : Type := {
  perf_counter : nat -> float;
  reads : nat;
  network : list Connect;
  frames : list WSMessage;
  close_code : option Z;
  send_errors : list (option TransportError);
  trace : list Effect
}.

Definition set_reads (v : nat) (w : World) : World :=
  {| perf_counter := perf_counter w; reads := v; network := network w;
     frames := frames w; close_code := close_code w;
     send_errors := send_errors w; trace := trace w |}.

Definition set_network (v : list Connect) (w : World) : World :=
  {| perf_counter := perf_counter w; reads := reads w; network := v;
     frames := frames w; close_code := close_code w;
     send_errors := send_errors w; trace := trace w |}.

Definition set_frames (v : list WSMessage) (w : World) : World :=
  {| perf_counter := perf_counter w; reads := reads w; network := network w;
     frames := v; close_code := close_code w;
     send_errors := send_errors w; trace := trace w |}.

Definition set_close_code (v : option Z) (w : World) : World :=
  {| perf_counter := perf_counter w; reads := reads w; network := network w;
     frames := frames w; close_code := v;
     send_errors := send_errors w; trace := trace w |}.

Definition set_send_errors (v : list (option TransportError)) (w : World) : World :=
  {| perf_counter := perf_counter w; reads := reads w; network := network w;
     frames := frames w; close_code := close_code w;
     send_errors := v; trace := trace w |}.

Definition set_trace (v : list Effect) (w : World) : World :=
  {| perf_counter := perf_counter w; reads := reads w; network := network w;
     frames := frames w; close_code := close_code w;
     send_errors := send_errors w; trace := v |}.

(** ** The monad of the methods

    A method takes the gateway object and the world and ends in a value, in
    an exception, or out of the fuel a loop was given. *)
Inductive Outcome (A : Type) : Type :=
| Return (a : A)
| Raise (e : Exn)
| OutOfFuel.
Arguments Raise {A}.
Arguments OutOfFuel {A}.

Definition M (A : Type) : Type := Gateway -> World -> Outcome A * Gateway * World.

Definition ret {A} (a : A) : M A := fun g w => (Return a, g, w).

Definition raise {A} (e : Exn) : M A := fun g w => (Raise e, g, w).

Definition bind {A B} (m : M A) (k : A -> M B) : M B :=
  fun g w =>
    match m g w with
    | (Return a, g', w') => k a g' w'
    | (Raise e, g', w') => (Raise e, g', w')
    | (OutOfFuel, g', w') => (OutOfFuel, g', w')
    end.

Notation "x <- m ;; k" := (bind m (fun x => k))
  (at level 61, m at next level, right associativity).
Notation "m ;; k" := (bind m (fun _ => k))
  (at level 61, right associativity).

Definition lift {A} (r : Result A) : M A :=
  match r with Ok a => ret a | Err e => raise e end.

(** [self] *)
Definition get : M Gateway := fun g w => (Return g, g, w).

(** an attribute assignment *)
Definition modify (f : Gateway -> Gateway) : M unit := fun g w => (Return tt, f g, w).

(** a call that is recorded in the trace *)
Definition effect (e : Effect) : M unit :=
  fun g w => (Return tt, g, set_trace (e :: trace w) w).

(** [try: body / except ...: handler]: [handlers e] is the body of the first
    clause that matches [e], if one does. *)
Definition try_except {A} (body : M A) (handlers : Exn -> option (M A)) : M A :=
  fun g w =>
    match body g w with
    | (Raise e, g', w') =>
        match handlers e with
        | Some handler => handler g' w'
        | None => (Raise e, g', w')
        end
    | r => r
    end.

(** [try: body / finally: final] *)
Definition try_finally {A} (body : M A) (final : M unit) : M A :=
  fun g w =>
    match body g w with
    | (OutOfFuel, g', w') => (OutOfFuel, g', w')
    | (r, g', w') =>
        match final g' w' with
        | (Return _, g'', w'') => (r, g'', w'')
        | (Raise e, g'', w'') => (Raise e, g'', w'')
        | (OutOfFuel, g'', w'') => (OutOfFuel, g'', w'')
        end
    end.

(** ** The websocket and the clock *)

(** [time.perf_counter()] *)
Definition _now : M float :=
  fun g w => (Return (perf_counter w (reads w)), g, set_reads (S (reads w)) w).

(** [self._ws.receive()]: the next frame; a websocket with nothing left to
    deliver reports [CLOSED].  Receiving a close frame sets [close_code]. *)
Definition ws_receive : M WSMessage :=
  fun g w =>
    if negb (_ws g) then (Raise AttributeError, g, w) else
    match frames w with
    | [] => (Return CLOSED, g, w)
    | CLOSE code :: rest => (Return (CLOSE code), g, set_close_code code (set_frames rest w))
    | m :: rest => (Return m, g, set_frames rest w)
    end.

(** [self._ws.close_code] *)
Definition ws_close_code : M (option Z) :=
  fun g w => if negb (_ws g) then (Raise AttributeError, g, w) else (Return (close_code w), g, w).

(** [self._create_ws(url)]: a new websocket, or the connector's error. *)
Definition _create_ws : M unit :=
  fun g w =>
    let w1 := set_trace (create_ws :: trace w) w in
    match network w with
    | [] => (Raise ClientConnectorError, g, w1)
    | refused e :: rest => (Raise (transport_exn e), g, set_network rest w1)
    | accepted delivers :: rest =>
        (Return tt, g, set_close_code None (set_frames delivers (set_network rest w1)))
    end.

Definition _close_ws (code : _GatewayCloseCode) (message : string) : M unit :=
  g <- get ;;
  if negb (_ws g) then raise AttributeError
  else effect (ws_close (close_code_value code) message).

(** The rate limiter's [acquire] only waits; [json.dumps] cannot fail on the
    payloads built below. *)
Definition _send_json (payload : json) : M unit :=
  g <- get ;;
  if negb (_ws g) then raise AttributeError else
  effect (send_str payload) ;;
  fun g w =>
    match send_errors w with
    | [] => (Return tt, g, w)
    | None :: rest => (Return tt, g, set_send_errors rest w)
    | Some e :: rest => (Raise (transport_exn e), g, set_send_errors rest w)
    end.

Definition _receive_raw : M WSMessage :=
  packet <- ws_receive ;;
  t <- _now ;;
  modify (set_last_message_received t) ;;
  ret packet.

(** ** Receiving a payload *)

(** The [while] loop of [_receive_zlib_message]; each turn takes a frame. *)
Fixpoint _receive_zlib_loop (fuel : nat) (buff : bytes) (packets : Z) : M (bytes * Z) :=
  if endswith buff ZLIB_SUFFIX then ret (buff, packets) else
  match fuel with
  | O => fun g w => (OutOfFuel, g, w)
  | S fuel' =>
      message <- _receive_raw ;;
      match message with
      | BINARY data =>
          buff' <- lift (bytearray_append buff (a_bytes data)) ;;
          _receive_zlib_loop fuel' buff' (packets + 1)
      | _ => raise (GatewayError Expected_binary_message)
      end
  end.

Definition _receive_zlib_message (first_packet : bytes) : M (Z * Text) :=
  r <- (fun g w => _receive_zlib_loop (S (List.length (frames w))) first_packet 1 g w) ;;
  g <- get ;;
  match _zlib g with
  | None => raise AttributeError
  | Some z =>
      let (string, z') := decompress z (fst r) in
      modify (set_zlib (Some z')) ;;
      string <- lift string ;;
      ret (snd r, string)
  end.

Definition json_loads (string : Text) : Result json :=
  match string with
  | Doc j => Ok j
  | Malformed _ => Err ValueError
  end.

(** The codes [_receive_json_payload] lets the caller reconnect after. *)
Definition can_reconnect_codes : list _GatewayCloseCode :=
  [DECODE_ERROR; INVALID_SEQ; UNKNOWN_ERROR; SESSION_TIMEOUT; RATE_LIMITED].

Definition close_reason (close_code : option Z) : CloseReason :=
  match close_code with
  | Some c =>
      match close_code_of c with
      | Some m => member_name m
      | None => unknown_close_code close_code
      end
  | None => unknown_close_code close_code
  end.

Definition _receive_json_payload : M json :=
  message <- _receive_raw ;;
  string <-
    match message with
    | BINARY data =>
        r <- _receive_zlib_message data ;;
        ret (snd r)
    | TEXT data => ret data
    | CLOSE _ =>
        close_code <- ws_close_code ;;
        let reason := close_reason close_code in
        let can_reconnect := code_in close_code can_reconnect_codes in
        raise (GatewayServerClosedConnectionError reason close_code can_reconnect false true)
    | CLOSING | CLOSED => raise _SocketClosed
    | _ => raise (GatewayError Unexpected_websocket_exception)
    end ;;
  lift (json_loads string).

(** ** The presence payload *)

(** The objects [update_presence] hands to the [status] and [activity]
    parameters of [_build_presence_payload].  It passes them by position,
    its [activity] third and its [status] fourth, while the builder takes
    [status] third and [activity] fourth: either parameter can hold either
    kind of object. *)
Inductive PyObject : Type :=
| py_UNSET
| py_None
| py_status (s : PresenceStatus)
| py_activity (a : Activity).

Definition status_object (v : Unset (option PresenceStatus)) : PyObject :=
  match v with
  | UNSET => py_UNSET
  | Given None => py_None
  | Given (Some s) => py_status s
  end.

Definition activity_object (v : Unset (option Activity)) : PyObject :=
  match v with
  | UNSET => py_UNSET
  | Given None => py_None
  | Given (Some a) => py_activity a
  end.

(** Attribute access: an [Activity] has [name], [url] and [type]; a
    [PresenceStatus] member has [name] and [value]. *)
Definition getattr_name (o : PyObject) : Result json :=
  match o with
  | py_activity a => Ok (JStr (name a))
  | py_status s => Ok (JStr (status_name s))
  | _ => Err AttributeError
  end.

Definition getattr_url (o : PyObject) : Result json :=
  match o with
  | py_activity a => Ok (match url a with Some u => JStr u | None => JNull end)
  | _ => Err AttributeError
  end.

Definition getattr_type (o : PyObject) : Result json :=
  match o with
  | py_activity a => Ok (JInt (type_ a))
  | _ => Err AttributeError
  end.

Definition getattr_value (o : PyObject) : Result json :=
  match o with
  | py_status s => Ok (JStr (status_value s))
  | _ => Err AttributeError
  end.

Definition result_bind {A B} (r : Result A) (k : A -> Result B) : Result B :=
  match r with Ok a => k a | Err e => Err e end.

Definition _build_presence_payload (g : Gateway)
    (idle_since : Unset (option datetime)) (is_afk : Unset (option bool))
    (status activity : PyObject) : Result json :=
  let idle_since := or_else idle_since (_idle_since g) in
  let is_afk := or_else is_afk (_is_afk g) in
  let status :=
    match status with
    | py_UNSET => status_object (Given (_status g))
    | _ => status
    end in
  let activity :=
    match activity with
    | py_UNSET => activity_object (Given (_activity g))
    | _ => activity
    end in
  result_bind
    (match activity with
     | py_None => Ok JNull
     | _ =>
         result_bind (getattr_name activity) (fun name =>
         result_bind (getattr_url activity) (fun url =>
         result_bind (getattr_type activity) (fun type =>
         Ok (JObj [("name", name); ("url", url); ("type", type)]))))
     end)
    (fun game =>
  let since :=
    match idle_since with
    | Some d => JFloat (timestamp d)
    | None => JNull
    end in
  let afk :=
    match is_afk with
    | Some b => JBool b
    | None => JBool false
    end in
  result_bind
    (match status with
     | py_None => Ok (JStr (status_value ONLINE))
     | _ => getattr_value status
     end)
    (fun status_value =>
  Ok (JObj [("since", since); ("afk", afk); ("status", status_value); ("game", game)]))).

Definition given_some {A} (v : Unset A) : Unset (option A) :=
  match v with UNSET => UNSET | Given a => Given (Some a) end.

Definition update_presence
    (idle_since : Unset (option datetime)) (is_afk : Unset bool)
    (activity : Unset (option Activity)) (status : Unset PresenceStatus) : M unit :=
  g <- get ;;
  payload <- lift (_build_presence_payload g idle_since (given_some is_afk)
                     (activity_object activity) (status_object (given_some status))) ;;
  _send_json (JObj [("op", op PRESENCE_UPDATE); ("d", payload)]) ;;
  modify (fun g => set_idle_since (or_else idle_since (_idle_since g)) g) ;;
  modify (fun g => set_is_afk (or_else (given_some is_afk) (_is_afk g)) g) ;;
  modify (fun g => set_activity (or_else activity (_activity g)) g) ;;
  modify (fun g => set_status (or_else (given_some status) (_status g)) g).

(** ** The handshake *)

Definition resume_payload (g : Gateway) : json :=
  JObj [("op", op RESUME);
        ("d", JObj [("token", JStr (_token g)); ("seq", _seq g);
                    ("session_id", _session_id g)])].

Definition any_presence (g : Gateway) : bool :=
  match _activity g, _idle_since g, _is_afk g, _status g with
  | None, None, None, None => false
  | _, _, _, _ => true
  end.

Definition identify_payload (g : Gateway) : Result json :=
  let d :=
    [("token", JStr (_token g)); ("compress", JBool false);
     ("large_threshold", JInt (large_threshold g));
     ("properties", websocket_triplet);
     ("shard", JArr [JInt (_shard_id g); JInt (_shard_count g)])]%list in
  let d :=
    match _intents g with
    | Some intents => (d ++ [("intents", JInt intents)])%list
    | None => d
    end in
  result_bind
    (if any_presence g
     then result_bind (_build_presence_payload g UNSET UNSET py_UNSET py_UNSET)
            (fun presence => Ok (d ++ [("presence", presence)])%list)
     else Ok d)
    (fun d => Ok (JObj [("op", op IDENTIFY); ("d", JObj d)])).

Definition _handshake : M unit :=
  message <- _receive_json_payload ;;
  op_ <- lift (getitem message "op") ;;
  if negb (eq_int op_ (opcode_value HELLO))
  then raise (GatewayError (Expected_HELLO op_))
  else
    d <- lift (getitem message "d") ;;
    interval <- lift (getitem d "heartbeat_interval") ;;
    interval <- lift (truediv interval 1000%float) ;;
    modify (set_heartbeat_interval interval) ;;
    g <- get ;;
    if negb (is_None (_session_id g))
    then _send_json (resume_payload g)
    else
      payload <- lift (identify_payload g) ;;
      _send_json payload.

(** ** The heartbeat *)

(** One turn of the [while] loop of [_pulse]: [false] when the turn ends in
    [return].  Nothing else sets the close event while the turn waits, so
    the wait runs into its timeout. *)
Definition _pulse_iteration : M bool :=
  now <- _now ;;
  g <- get ;;
  let time_since_message := PrimFloat.sub now (last_message_received g) in
  if PrimFloat.ltb (heartbeat_interval g) time_since_message
  then
    modify (set_zombied true) ;;
    _close_ws DO_NOT_INVALIDATE_SESSION "zombie connection" ;;
    ret false
  else
    _send_json (JObj [("op", op HEARTBEAT); ("d", _seq g)]) ;;
    t <- _now ;;
    modify (set_last_heartbeat_sent t) ;;
    effect (wait_for (heartbeat_interval g)) ;;
    ret true.

Fixpoint _pulse_loop (fuel : nat) : M unit :=
  fun g w =>
    if _request_close_event g then (Return tt, g, w) else
    match fuel with
    | O => (OutOfFuel, g, w)
    | S fuel' =>
        (continue <- _pulse_iteration ;;
         if continue : bool then _pulse_loop fuel' else ret tt) g w
    end.

Definition _pulse (fuel : nat) : M unit :=
  try_except (_pulse_loop fuel)
    (fun e => match e with CancelledError => Some (ret tt) | _ => None end).

(** ** The poll loop *)

Definition _poll_events_iteration : M unit :=
  message <- _receive_json_payload ;;
  op_ <- lift (getitem message "op") ;;
  data <- lift (getitem message "d") ;;
  if eq_int op_ (opcode_value DISPATCH) then
    event <- lift (getitem message "t") ;;
    s <- lift (getitem message "s") ;;
    modify (set_seq s) ;;
    (if eq_str event "READY" then
       session_id <- lift (getitem data "session_id") ;;
       modify (set_session_id session_id) ;;
       modify (set_handshake_event true)
     else if eq_str event "RESUME" then
       modify (set_handshake_event true)
     else ret tt) ;;
    g <- get ;;
    effect (create_task (dispatch g event data))
  else if eq_int op_ (opcode_value HEARTBEAT) then
    _send_json (JObj [("op", op HEARTBEAT_ACK)])
  else if eq_int op_ (opcode_value HEARTBEAT_ACK) then
    now <- _now ;;
    modify (fun g => set_heartbeat_latency (PrimFloat.sub now (last_heartbeat_sent g)) g)
  else if eq_int op_ (opcode_value RECONNECT) then
    raise _Reconnect
  else if eq_int op_ (opcode_value INVALID_SESSION) then
    raise (_InvalidSession data)
  else ret tt.

Fixpoint _poll_loop (fuel : nat) : M unit :=
  fun g w =>
    if _request_close_event g then (Return tt, g, w) else
    match fuel with
    | O => (OutOfFuel, g, w)
    | S fuel' => (_poll_events_iteration ;; _poll_loop fuel') g w
    end.

(** Every turn takes a frame or raises, so the frames left bound the
    turns. *)
Definition _poll_events : M unit :=
  fun g w => _poll_loop (S (List.length (frames w))) g w.

(** ** One connection attempt *)

(** The statements before the [try]: the throttle, and the note of the
    start.  Nothing sets the close event while the throttle waits, so the
    wait runs into its timeout. *)
Definition _run_once_throttle : M unit :=
  modify (set_request_close_event false) ;;
  now <- _now ;;
  g <- get ;;
  (if PrimFloat.ltb (PrimFloat.sub now (_last_run_started_at g)) 30%float
   then
     effect (create_task close_event_wait) ;;
     let (backoff, b) := backoff_next (_backoff g) in
     modify (set_backoff b) ;;
     effect (wait_for backoff)
   else ret tt) ;;
  now <- _now ;;
  modify (set_last_run_started_at now).

(** The [try] block; [Some b] stands for [return b]. *)
Definition _run_once_try : M (option bool) :=
  _create_ws ;;
  modify (set_ws true) ;;
  now <- _now ;;
  modify (set_connected_at now) ;;
  modify (set_zlib (Some decompressobj)) ;;
  modify (set_handshake_event false) ;;
  modify (set_request_close_event false) ;;
  _handshake ;;
  g <- get ;;
  effect (create_task (dispatch g (JStr "CONNECTED") (JObj []))) ;;
  effect (create_task pulse) ;;
  try_finally _poll_events (effect cancel_heartbeat) ;;
  ret (Some false).

(** The [except] clauses; [None] in the result stands for falling through
    to the [return True] after the statement. *)
Definition _run_once_except (ex : Exn) : option (M (option bool)) :=
  match ex with
  | ClientConnectorError => Some (ret None)
  | _InvalidSession can_resume =>
      Some (if truthy can_resume
            then
              _close_ws DO_NOT_INVALIDATE_SESSION "invalid session (resume)" ;;
              ret None
            else
              _close_ws RFC_6455_NORMAL_CLOSURE "invalid session (no resume)" ;;
              modify (set_seq JNull) ;;
              modify (set_session_id JNull) ;;
              ret None)
  | _Reconnect =>
      Some (modify (fun g => set_backoff (backoff_reset (_backoff g)) g) ;;
            _close_ws DO_NOT_INVALIDATE_SESSION "reconnecting" ;;
            ret None)
  | _SocketClosed =>
      Some (g <- get ;;
            (if negb (_zombied g) && negb (_request_close_event g)
             then ret tt
             else modify (fun g => set_backoff (backoff_reset (_backoff g)) g)) ;;
            ret (Some (negb (_request_close_event g))))
  | _ =>
      if is_Exception ex
      then Some (_close_ws RFC_6455_UNEXPECTED_CONDITION "unexpected error occurred" ;;
                 raise ex)
      else None
  end.

(** The [finally] clause. *)
Definition _run_once_finally : M unit :=
  g <- get ;;
  (if negb (PrimFloat.is_nan (connected_at g))
   then effect (create_task (dispatch g (JStr "DISCONNECTED") (JObj [])))
   else ret tt) ;;
  modify (set_connected_at nan).

Definition _run_once : M bool :=
  _run_once_throttle ;;
  r <- try_finally (try_except _run_once_try _run_once_except) _run_once_finally ;;
  match r with
  | Some b => ret b
  | None => ret true
  end.

End Gateway.

Arguments Gateway {platform}.
Arguments M {platform} A.
Arguments World {platform}.
Arguments Raise {A}.
Arguments OutOfFuel {A}.

Notation "x <- m ;; k" := (bind m (fun x => k))
  (at level 61, m at next level, right associativity).
Notation "m ;; k" := (bind m (fun _ => k))
  (at level 61, right associativity).

(** The object [Gateway(...)] builds. *)
Definition __init__ {platform : Platform}
    (initial_activity : option Activity) (initial_idle_since : option datetime)
    (initial_is_afk : option bool) (initial_status : option PresenceStatus)
    (intents : option Z) (large_threshold shard_id shard_count : Z)
    (token : string) : Gateway :=
  {| _activity := initial_activity;
     _backoff := new_backoff;
     _handshake_event := false;
     _idle_since := initial_idle_since;
     _intents := intents;
     _is_afk := initial_is_afk;
     _last_run_started_at := nan;
     _request_close_event := false;
     _seq := JNull;
     _session_id := JNull;
     _shard_id := shard_id;
     _shard_count := shard_count;
     _status := initial_status;
     _token := token;
     _ws := false;
     _zlib := None;
     _zombied := false;
     connected_at := nan;
     heartbeat_interval := nan;
     heartbeat_latency := nan;
     last_heartbeat_sent := nan;
     last_message_received := nan;
     large_threshold := large_threshold |}.

(** * The supervisor: [ShardClientImpl] of [hikari/clients/shards.py] *)

Module Shards.

(** What a connection attempt can end in: the exceptions [_keep_alive]
    tells apart.  A server close carries its close code. *)
Inductive Exn : Type :=
| ClientConnectorError
| GatewayZombiedError
| GatewayInvalidSessionError (can_resume : bool)
| GatewayMustReconnectError
| GatewayServerClosedConnectionError (close_code : option Z)
| GatewayClientDisconnectedError
| GatewayClientClosedError
| Exception.

(** The connection [hikari.net.shards.Shard] is not part of the sources.  An
    attempt is what [_spin_up] and the connect task it returns do: the first
    raises, or it returns with the connection's [reconnect_count] and the
    task then raises or, against its contract, returns.  While it runs the
    connection assigns its own [seq] and [session_id]: an attempt names the
    values it leaves them at. *)
Inductive Attempt : Type :=
| spin_up_raises (seq session_id : json) (ex : Exn)
| connected (reconnect_count : Z) (seq session_id : json) (ending : option Exn).

Inductive LifecycleEvent : Type := StartingEvent | StartedEvent.

Inductive Effect : Type :=
| sleep (seconds : float)
| spin_up
| dispatch_event (event : LifecycleEvent).

Section KeepAlive.

Context {platform : Platform}.

(** The locals of [_keep_alive], the attributes of [self._connection] it
    assigns, the clock and the trace of the calls it makes. *)
Record State : Type := {
  back_off : BackOff;
  last_start : float;
  do_not_back_off : bool;
  seq : json;
  session_id : json;
  perf_counter : nat -> float;
  reads : nat;
  trace : list Effect
}.

(** [codes.GatewayCloseCode] is not part of the sources either; its members
    are taken to have the values [_GatewayCloseCode] gives them. *)
Definition fatal_codes : list _GatewayCloseCode :=
  [NOT_AUTHENTICATED; AUTHENTICATION_FAILED; ALREADY_AUTHENTICATED;
   SHARDING_REQUIRED; INVALID_VERSION; INVALID_INTENT; DISALLOWED_INTENT].

(** The head of the loop body: back off or reset, then note the start. *)
Definition _keep_alive_backoff (s : State) : State :=
  let s :=
    if do_not_back_off s
    then
      {| back_off := backoff_reset (back_off s); last_start := last_start s;
         do_not_back_off := do_not_back_off s; seq := seq s;
         session_id := session_id s; perf_counter := perf_counter s;
         reads := reads s; trace := trace s |}
    else
      let now := perf_counter s (reads s) in
      if PrimFloat.ltb (PrimFloat.sub now (last_start s)) 30%float
      then
        let (next_backoff, b) := backoff_next (back_off s) in
        {| back_off := b; last_start := last_start s;
           do_not_back_off := do_not_back_off s; seq := seq s;
           session_id := session_id s; perf_counter := perf_counter s;
           reads := S (reads s); trace := sleep next_backoff :: trace s |}
      else
        {| back_off := backoff_reset (back_off s); last_start := last_start s;
           do_not_back_off := do_not_back_off s; seq := seq s;
           session_id := session_id s; perf_counter := perf_counter s;
           reads := S (reads s); trace := trace s |} in
  {| back_off := back_off s; last_start := perf_counter s (reads s);
     do_not_back_off := false; seq := seq s; session_id := session_id s;
     perf_counter := perf_counter s; reads := S (reads s); trace := trace s |}.

Definition log (e : Effect) (s : State) : State :=
  {| back_off := back_off s; last_start := last_start s;
     do_not_back_off := do_not_back_off s; seq := seq s;
     session_id := session_id s; perf_counter := perf_counter s;
     reads := reads s; trace := e :: trace s |}.

Definition set_do_not_back_off (v : bool) (s : State) : State :=
  {| back_off := back_off s; last_start := last_start s;
     do_not_back_off := v; seq := seq s;
     session_id := session_id s; perf_counter := perf_counter s;
     reads := reads s; trace := trace s |}.

(** What the connection does to its own [seq] and [session_id]. *)
Definition set_session (seq session_id : json) (s : State) : State :=
  {| back_off := back_off s; last_start := last_start s;
     do_not_back_off := do_not_back_off s; seq := seq;
     session_id := session_id; perf_counter := perf_counter s;
     reads := reads s; trace := trace s |}.

Definition clear_session (s : State) : State :=
  {| back_off := back_off s; last_start := last_start s;
     do_not_back_off := do_not_back_off s; seq := JNull;
     session_id := JNull; perf_counter := perf_counter s;
     reads := reads s; trace := trace s |}.

(** How a turn of the [while True] loop ends. *)
Inductive Step : Type :=
| continue (s : State)
| returned (s : State)
| raised (ex : Exn) (s : State).

(** The [except] clauses. *)
Definition _keep_alive_except (ex : Exn) (s : State) : Step :=
  match ex with
  | ClientConnectorError => continue s
  | GatewayZombiedError => continue s
  | GatewayInvalidSessionError can_resume =>
      let s := if can_resume then s else clear_session s in
      continue (log (sleep 5%float) (set_do_not_back_off true s))
  | GatewayMustReconnectError =>
      continue (log (sleep 5%float) (set_do_not_back_off true s))
  | GatewayServerClosedConnectionError close_code =>
      if code_in close_code fatal_codes then raised ex s else continue s
  | GatewayClientDisconnectedError => continue s
  | GatewayClientClosedError => returned s
  | Exception => raised ex s
  end.

(** One turn of the loop. *)
Definition _keep_alive_iteration (dispatcher : bool) (attempt : Attempt) (s : State) : Step :=
  let s := log spin_up (_keep_alive_backoff s) in
  match attempt with
  | spin_up_raises seq session_id ex =>
      _keep_alive_except ex (set_session seq session_id s)
  | connected reconnect_count seq session_id ending =>
      let s :=
        if dispatcher && (reconnect_count =? 0)
        then log (dispatch_event StartedEvent) s
        else s in
      let s := set_session seq session_id s in
      match ending with
      | Some ex => _keep_alive_except ex s
      | None => continue s
      end
  end.

Fixpoint _keep_alive_loop (dispatcher : bool) (attempts : list Attempt) (s : State) : Step :=
  match attempts with
  | [] => continue s
  | attempt :: rest =>
      match _keep_alive_iteration dispatcher attempt s with
      | continue s' => _keep_alive_loop dispatcher rest s'
      | end_ => end_
      end
  end.

(** [_keep_alive], run against the attempts the connection goes through; it
    is still in its loop when they are used up.  [_keep_alive_start] is the
    state in which it enters the loop. *)
Definition _keep_alive_start (dispatcher : bool)
    (seq session_id : json) (perf_counter : nat -> float) : State :=
  let s :=
    {| back_off := new_backoff; last_start := perf_counter O;
       do_not_back_off := true; seq := seq; session_id := session_id;
       perf_counter := perf_counter; reads := 1%nat; trace := [] |} in
  if dispatcher then log (dispatch_event StartingEvent) s else s.

Definition _keep_alive (dispatcher : bool) (attempts : list Attempt)
    (seq session_id : json) (perf_counter : nat -> float) : Step :=
  _keep_alive_loop dispatcher attempts
    (_keep_alive_start dispatcher seq session_id perf_counter).

End KeepAlive.

(** [_create_presence_pl] *)
Definition _create_presence_pl (status : PresenceStatus) (activity : option json)
    (idle_since : option datetime) (is_afk : bool) : json :=
  JObj [("status", JStr (status_value status));
        ("idle_since",
         match idle_since with
         | Some d => JFloat (PrimFloat.mul (timestamp d) 1000%float)
         | None => JNull
         end);
        ("game", match activity with Some game => game | None => JNull end);
        ("afk", JBool is_afk)].

End Shards.

(** * The rest of the gateway: [close], [_run] and [update_voice_state] *)

Section GatewayControl.

Context {platform : Platform}.

(** [is_alive] *)
Definition is_alive (g : Gateway) : bool :=
  negb (PrimFloat.is_nan (connected_at g)).

(** [close] *)
Definition close : M unit :=
  g <- get ;;
  if negb (_request_close_event g)
  then
    modify (set_request_close_event true) ;;
    g <- get ;;
    if _ws g
    then _close_ws RFC_6455_NORMAL_CLOSURE "user shut down application"
    else ret tt
  else ret tt.

(** The [while] loop of [_run]: attempts follow one another for as long as
    the close event is unset and [_run_once] returns [True]. *)
Fixpoint _run_loop (fuel : nat) : M unit :=
  fun g w =>
    if _request_close_event g then (Return tt, g, w) else
    match fuel with
    | O => (OutOfFuel, g, w)
    | S fuel' =>
        (again <- _run_once ;;
         if again : bool then _run_loop fuel' else ret tt) g w
    end.

(** [_run].  [super_close] is [super().close()], of the HTTP client that is
    not part of the sources. *)
Definition _run (super_close : M unit) (fuel : nat) : M unit :=
  try_finally
    (_run_loop fuel ;; raise GatewayClientClosedError)
    (modify (set_handshake_event true) ;; super_close).

(** [str(n)] of an integer: its decimal digits, with a sign when negative. *)
Definition str (n : Z) : string := NilEmpty.string_of_int (Z.to_int n).

(** [update_voice_state]; [guild] and [channel] stand for the integers
    [int(guild)] and [int(channel)] return. *)
Definition update_voice_state (guild : Z) (channel : option Z)
    (self_mute self_deaf : bool) : M unit :=
  let payload :=
    JObj [("op", op VOICE_STATE_UPDATE);
          ("d", JObj [("guild_id", JStr (str guild));
                      ("channel",
                       match channel with
                       | Some c => JStr (str c)
                       | None => JNull
                       end);
                      ("self_mute", JBool self_mute);
                      ("self_deaf", JBool self_deaf)])] in
  _send_json payload.

End GatewayControl.

(** * The shard client: [start], [join], [close], [_spin_up] and
    [update_presence] of [ShardClientImpl] *)

Module ShardClient.

(** [shard_states.ShardState], by the members the client names. *)
Inductive ShardState : Type :=
| NOT_RUNNING | CONNECTING | WAITING_FOR_READY | READY | RESUMING
| STOPPING | STOPPED.

Inductive Exn : Type :=
| RuntimeError (message : string)
| raised (ex : Shards.Exn).

Inductive LifecycleEvent : Type := StoppingEvent | StoppedEvent.

(** The events of the connection a caller waits on. *)
Inductive ConnectionEvent : Type :=
| hello_event | handshake_event | resumed_event | ready_event.

(** What the client awaits or schedules, in a trace, newest first. *)
Inductive Call : Type :=
| create_keep_alive_task
| create_connect_task
| wait_first_completed (event : ConnectionEvent)
| await_task
| dispatch_event (event : LifecycleEvent)
| connection_close
| connection_update_presence (presence : json).

Inductive Outcome (A : Type) : Type :=
| Return (a : A)
| Raise (e : Exn).
Arguments Raise {A}.

Section Client.

(** [gateway_entities.Activity] and its [serialize] are not part of the
    sources. *)
Variable Activity : Type.
Variable serialize : Activity -> json.

(** The attributes of the client its methods assign or test; [_task] and
    [_dispatcher] tell whether the attribute holds an object or [None]. *)
Record Client : Type := {
  _shard_state : ShardState;
  _task : bool;
  _dispatcher : bool;
  _status : PresenceStatus;
  _activity : option Activity;
  _idle_since : option datetime;
  _is_afk : bool
}.

(** The collaborators are not part of the sources: what each awaited call
    ends in is given, in order ([None] or no entry: it returns; for
    [asyncio.wait], the exception of a task that completed).  [self._task]
    is the client's own [_keep_alive]: [turns] lists the calls of [_spin_up]
    the task still makes before it ends, each with the connection's [seq]
    and [session_id] at the time. *)
Record Env : Type := {
  awaits : list (option Shards.Exn);
  turns : list (json * json);
  trace : list Call
}.

Definition Run (A : Type) : Type := Client -> Env -> Outcome A * Client * Env.

Definition ret {A} (a : A) : Run A := fun c e => (Return a, c, e).

Definition raise {A} (ex : Exn) : Run A := fun c e => (Raise ex, c, e).

Definition bind {A B} (m : Run A) (k : A -> Run B) : Run B :=
  fun c e =>
    match m c e with
    | (Return a, c', e') => k a c' e'
    | (Raise ex, c', e') => (Raise ex, c', e')
    end.

(** a call that is only scheduled *)
Definition schedule (call : Call) : Run unit :=
  fun c e =>
    (Return tt, c,
     {| awaits := awaits e; turns := turns e; trace := call :: trace e |}).

(** an awaited call of a collaborator *)
Definition await (call : Call) : Run unit :=
  fun c e =>
    match awaits e with
    | Some ex :: rest =>
        (Raise (raised ex), c,
         {| awaits := rest; turns := turns e; trace := call :: trace e |})
    | None :: rest =>
        (Return tt, c,
         {| awaits := rest; turns := turns e; trace := call :: trace e |})
    | [] =>
        (Return tt, c,
         {| awaits := []; turns := turns e; trace := call :: trace e |})
    end.

Definition set_shard_state (v : ShardState) : Run unit :=
  fun c e =>
    (Return tt,
     {| _shard_state := v; _task := _task c; _dispatcher := _dispatcher c;
        _status := _status c; _activity := _activity c;
        _idle_since := _idle_since c; _is_afk := _is_afk c |}, e).

Definition set_task : Run unit :=
  fun c e =>
    (Return tt,
     {| _shard_state := _shard_state c; _task := true; _dispatcher := _dispatcher c;
        _status := _status c; _activity := _activity c;
        _idle_since := _idle_since c; _is_afk := _is_afk c |}, e).

Definition set_presence (status : PresenceStatus) (activity : option Activity)
    (idle_since : option datetime) (is_afk : bool) : Run unit :=
  fun c e =>
    (Return tt,
     {| _shard_state := _shard_state c; _task := _task c;
        _dispatcher := _dispatcher c;
        _status := status; _activity := activity;
        _idle_since := idle_since; _is_afk := is_afk |}, e).

Definition self : Run Client := fun c e => (Return c, c, e).

Definition when (b : bool) (m : Run unit) : Run unit := if b then m else ret tt.

(** [_spin_up]; [seq] and [session_id] are the connection's. *)
Definition _spin_up (seq session_id : json) : Run unit :=
  bind (set_shard_state CONNECTING) (fun _ =>
  let is_resume := negb (is_None seq) && negb (is_None session_id) in
  bind (schedule create_connect_task) (fun _ =>
  bind (await (wait_first_completed hello_event)) (fun _ =>
  bind (await (wait_first_completed handshake_event)) (fun _ =>
  bind (if is_resume
        then
          bind (set_shard_state RESUMING) (fun _ =>
          await (wait_first_completed resumed_event))
        else
          bind (set_shard_state WAITING_FOR_READY) (fun _ =>
          await (wait_first_completed ready_event))) (fun _ =>
  set_shard_state READY))))).

(** The turns the keep-alive task has left: each calls [_spin_up], and
    whatever that ends in is dealt with inside [_keep_alive]. *)
Fixpoint _keep_alive_turns (left : list (json * json)) : Run unit :=
  match left with
  | [] => ret tt
  | (seq, session_id) :: rest =>
      fun c e =>
        match _spin_up seq session_id c e with
        | (_, c', e') => _keep_alive_turns rest c' e'
        end
  end.

(** [await self._task]: the task runs to its end, on this same client, and
    the wait ends as the task does. *)
Definition await_own_task : Run unit :=
  fun c e =>
    bind (_keep_alive_turns (turns e)) (fun _ => await await_task) c
      {| awaits := awaits e; turns := []; trace := trace e |}.

(** [start].  How far the task has come by the time the wait for READY is
    over is left open: the client is as it was. *)
Definition start : Run unit :=
  bind self (fun c =>
  match _shard_state c with
  | NOT_RUNNING | STOPPED =>
      bind (schedule create_keep_alive_task) (fun _ =>
      bind set_task (fun _ =>
      await (wait_first_completed ready_event)))
  | _ => raise (RuntimeError "Cannot start a shard twice")
  end).

(** [join] *)
Definition join : Run unit :=
  bind self (fun c => when (_task c) await_own_task).

(** [close] *)
Definition close : Run unit :=
  bind self (fun c =>
  match _shard_state c with
  | STOPPING => ret tt
  | _ =>
      bind (set_shard_state STOPPING) (fun _ =>
      bind (when (_dispatcher c) (await (dispatch_event StoppingEvent))) (fun _ =>
      bind (await connection_close) (fun _ =>
      bind (when (_task c) await_own_task) (fun _ =>
      when (_dispatcher c) (await (dispatch_event StoppedEvent))))))
  end).

(** [update_presence] *)
Definition update_presence (status : Unset PresenceStatus)
    (activity : Unset (option Activity)) (idle_since : Unset (option datetime))
    (is_afk : Unset bool) : Run unit :=
  bind self (fun c =>
  let status := or_else status (_status c) in
  let activity := or_else activity (_activity c) in
  let idle_since := or_else idle_since (_idle_since c) in
  let is_afk := or_else is_afk (_is_afk c) in
  let presence :=
    Shards._create_presence_pl status (option_map serialize activity)
      idle_since is_afk in
  bind (await (connection_update_presence presence)) (fun _ =>
  set_presence status activity idle_since is_afk)).

End Client.

End ShardClient.

(** * The REST client: [RESTClient.__init__] *)

(** [f"{token}"] of an optional string. *)
Definition format_optional (token : option string) : string :=
  match token with
  | Some t => t
  | None => "None"
  end.

(** The token [RESTClient.__init__] hands to the session: prefixed with the
    token type when one is given. *)
Definition RESTClient_token (token token_type : option string) : option string :=
  match token_type with
  | Some token_type => Some (token_type ++ " " ++ format_optional token)
  | None => token
  end.

(** * A platform to run the methods on *)

(** Modelled from the spec: [ExponentialBackOff] is not part of the sources.
    The spec (4.1) gives it the base 1.85, the initial increment 2 and the
    maximum 600, with jitter in [[0, delay]]: [next()] returns a delay that
    is finite, not negative and clamped to the maximum, and right after a
    [reset()] a value between 0 and the initial increment.  Here the delay
    starts at the initial increment and grows by the base with every call,
    up to the maximum, and [next()] returns the share of it that the next
    random draw, a number between 0 and 1, selects. *)
Record ExponentialBackOff : Type := {
  base : float;
  maximum : float;
  initial_increment : float;
  delay : float;
  random : nat -> float;
  drawn : nat
}.

Definition ExponentialBackOff_next (b : ExponentialBackOff) : float * ExponentialBackOff :=
  let value := if PrimFloat.ltb (delay b) (maximum b) then delay b else maximum b in
  (PrimFloat.mul (random b (drawn b)) value,
   {| base := base b; maximum := maximum b;
      initial_increment := initial_increment b;
      delay := PrimFloat.mul (base b) value;
      random := random b; drawn := S (drawn b) |}).

Definition ExponentialBackOff_reset (b : ExponentialBackOff) : ExponentialBackOff :=
  {| base := base b; maximum := maximum b;
     initial_increment := initial_increment b;
     delay := initial_increment b;
     random := random b; drawn := drawn b |}.

(** The zlib stream of a heartbeat acknowledgement, flushed with
    [Z_SYNC_FLUSH]: 34 bytes that end in the suffix 00 00 ff ff. *)
Definition ACK_STREAM : bytes :=
  [x78; x9c; xaa; x56; x2a; x51; xb2; xca; x2b; xcd; xc9; xd1; x51; x2a; x86;
   x31; xf2; x0b; x94; xac; x0c; x0d; x75; x94; x52; x20; x02; xb5; x00; x00;
   x00; x00; xff; xff].

Definition ACK : json :=
  JObj [("t", JNull); ("s", JNull); ("op", op HEARTBEAT_ACK); ("d", JNull)].

(** An inflater for the runs below: it inflates [ACK_STREAM] and rejects
    every other input. *)
Definition sample_decompress (z : unit) (buff : bytes) : Result Text * unit :=
  (if bytes_eqb buff ACK_STREAM then Ok (Doc ACK) else Err zlib_error, z).

Definition sample_platform : Platform := {|
  BackOff := ExponentialBackOff;
  new_backoff :=
    {| base := 1.85%float; maximum := 600%float;
       initial_increment := 2%float; delay := 2%float;
       random := fun _ => 0.5%float; drawn := 0 |};
  backoff_next := ExponentialBackOff_next;
  backoff_reset := ExponentialBackOff_reset;
  Inflater := unit;
  decompressobj := tt;
  decompress := sample_decompress;
  websocket_triplet :=
    JObj [("$os", JStr "linux"); ("$browser", JStr "hikari");
          ("$device", JStr "hikari")]
|}.

(** A clock that advances one second per reading, for half a minute. *)
Definition sample_clock (n : nat) : float :=
  float_of_int (Z.of_nat (Nat.min n 30)).

(** A fresh gateway object for shard 0 of 1, without initial presence. *)
Definition fresh_gateway : @Gateway sample_platform :=
  __init__ None None None None None 250 0 1 "token".

(** The same object once a websocket is open. *)
Definition open_gateway : @Gateway sample_platform :=
  set_zlib (Some decompressobj) (set_ws true fresh_gateway).

(** A world whose websocket delivers [delivers]. *)
Definition world_with (delivers : list WSMessage) : @World sample_platform :=
  {| perf_counter := sample_clock; reads := 0; network := [];
     frames := delivers; close_code := None; send_errors := []; trace := [] |}.

(** A world in which the next connection is accepted and delivers
    [delivers]. *)
Definition world_accepting (delivers : list WSMessage) : @World sample_platform :=
  {| perf_counter := sample_clock; reads := 0; network := [accepted delivers];
     frames := []; close_code := None; send_errors := []; trace := [] |}.

Definition hello (heartbeat_interval : Z) : json :=
  JObj [("op", op HELLO); ("d", JObj [("heartbeat_interval", JInt heartbeat_interval)])].

Definition dispatch_frame (t : string) (s : Z) (d : json) : json :=
  JObj [("op", op DISPATCH); ("t", JStr t); ("s", JInt s); ("d", d)].

(** A gateway object that holds the session "abc" at sequence 7. *)
Definition resumable_gateway : @Gateway sample_platform :=
  set_session_id (JStr "abc") (set_seq (JInt 7) open_gateway).

(** An open connection that last heard from the peer at time 0 and beats
    every second. *)
Definition beating_gateway : @Gateway sample_platform :=
  set_heartbeat_interval 1%float (set_last_message_received 0%float open_gateway).

(** The clock reads 5: five seconds of silence. *)
Definition silent_world : @World sample_platform :=
  set_reads 5 (world_with []).

(** An idle time one and a half seconds into the epoch. *)
Definition idle_at_1500ms : datetime := {| timestamp := 1.5%float |}.

(** A websocket that opens and is gone before HELLO. *)
Definition dropped_world : @World sample_platform := world_accepting [].

(** The peer greets, starts the session "abc" and then invalidates it. *)
Definition invalidating_world : @World sample_platform :=
  world_accepting
    [TEXT (Doc (hello 45000));
     TEXT (Doc (dispatch_frame "READY" 1 (JObj [("session_id", JStr "abc")])));
     TEXT (Doc (JObj [("op", op INVALID_SESSION); ("d", JBool false)]))].

(** The supervisor's connection is closed by the peer with the reconnectable
    code 4000 and reconnects. *)
Definition server_closes : list Shards.Attempt :=
  [Shards.connected 0 (JInt 7) (JStr "abc")
     (Some (Shards.GatewayServerClosedConnectionError (Some 4000)));
   Shards.connected 1 (JInt 9) (JStr "abc") None].

(** The peer greets and tells the gateway to reconnect; the network accepts
    a second connection. *)
Definition reconnecting_world : @World sample_platform :=
  set_network
    [accepted [TEXT (Doc (hello 45000));
               TEXT (Doc (JObj [("op", op RECONNECT); ("d", JNull)]))];
     accepted []]
    (world_with []).

(** The peer closes with the code for a failed authentication. *)
Definition rejecting_world : @World sample_platform := world_with [CLOSE (Some 4004)].

(** The peer opens with a dispatch instead of HELLO. *)
Definition impolite_world : @World sample_platform :=
  world_with [TEXT (Doc (dispatch_frame "READY" 1 (JObj [])))].

(** The peer asks for a heartbeat. *)
Definition heartbeat_request_world : @World sample_platform :=
  world_with [TEXT (Doc (JObj [("op", op HEARTBEAT); ("d", JNull)]))].

(** A heartbeat acknowledgement that carries no [d]. *)
Definition bare_ack_world : @World sample_platform :=
  world_with [TEXT (Doc (JObj [("op", op HEARTBEAT_ACK)]))].

(** The next connection is accepted and closed by the peer with the code
    4000, after which a caller may reconnect. *)
Definition closing_world : @World sample_platform :=
  world_accepting [CLOSE (Some 4000)].

(** The websocket upgrade of the next connection is refused. *)
Definition refusing_world : @World sample_platform :=
  set_network [refused server_handshake_error] (world_with []).

(** What a method call ended in. *)
Definition outcome {platform : Platform} {A}
    (r : Outcome A * Gateway * World) : Outcome A := fst (fst r).

Definition final_self {platform : Platform} {A}
    (r : Outcome A * Gateway * World) : Gateway := snd (fst r).

Definition final_world {platform : Platform} {A}
    (r : Outcome A * Gateway * World) : World := snd r.

(** Whether a traced call is the dispatch of the synthetic event [name]. *)
Definition dispatches {platform : Platform} (name : string) (e : Effect) : bool :=
  match e with
  | create_task (dispatch _ (JStr event) (JObj [])) => String.eqb event name
  | _ => false
  end.

(** The [can_reconnect] flag of a raised server close. *)
Definition can_reconnect_of {A} (o : Outcome A) : option bool :=
  match o with
  | Raise (GatewayServerClosedConnectionError _ _ can_reconnect _ _) => Some can_reconnect
  | _ => None
  end.

(** A stretch of a method during which another task calls [close]: the
    close event is set, and the close frame sent, by the time it ends. *)
Definition closed_meanwhile {platform : Platform} {A} (body : M A) : M A :=
  fun g w =>
    match body g w with
    | (r, g', w') =>
        match close g' w' with
        | (_, g'', w'') => (r, g'', w'')
        end
    end.

(** * What the methods leave alone *)

(** The gateway object with the two attributes the receive path assigns
    blanked: two objects with the same view differ in these at most. *)
Definition receive_view {platform : Platform} (g : Gateway) : Gateway :=
  set_zlib None (set_last_message_received nan g).

(** Receiving assigns [last_message_received] and [_zlib] and nothing else,
    makes no call that is traced, and leaves the errors the transport has in
    store alone. *)
Definition receive_frame {platform : Platform}
    (g : Gateway) (w : World) (g' : Gateway) (w' : World) : Prop :=
  receive_view g' = receive_view g /\ trace w' = trace w
  /\ send_errors w' = send_errors w /\ network w' = network w
  /\ perf_counter w' = perf_counter w
  /\ (List.length (frames w') <= List.length (frames w))%nat.

(** The gateway object with the attributes blanked that the throttle, the
    handshake, the poll loop and the [except] clauses assign.  What is left
    (the presence, the settings, [_ws], [_zombied], [connected_at] and
    [last_heartbeat_sent]) they only read. *)
Definition attempt_view {platform : Platform} (g : Gateway) : Gateway :=
  {| _activity := _activity g; _backoff := new_backoff;
     _handshake_event := false; _idle_since := _idle_since g;
     _intents := _intents g; _is_afk := _is_afk g;
     _last_run_started_at := nan; _request_close_event := false;
     _seq := JNull; _session_id := JNull; _shard_id := _shard_id g;
     _shard_count := _shard_count g; _status := _status g; _token := _token g;
     _ws := _ws g; _zlib := None; _zombied := _zombied g;
     connected_at := connected_at g; heartbeat_interval := nan;
     heartbeat_latency := nan; last_heartbeat_sent := last_heartbeat_sent g;
     last_message_received := nan; large_threshold := large_threshold g |}.

(** A method keeps the attempt: it assigns blanked attributes only, does
    not run out of fuel, takes frames but leaves the network and the clock
    as they are. *)
Definition keeps {platform : Platform} {A} (m : M A) : Prop :=
  forall g w r g' w',
    m g w = (r, g', w') ->
    attempt_view g' = attempt_view g
    /\ r <> OutOfFuel
    /\ (List.length (frames w') <= List.length (frames w))%nat
    /\ network w' = network w
    /\ perf_counter w' = perf_counter w.

(** A method takes a frame when it returns. *)
Definition takes_a_frame {platform : Platform} {A} (m : M A) : Prop :=
  forall g w a g' w',
    m g w = (Return a, g', w') ->
    (List.length (frames w') < List.length (frames w))%nat.

(** The delay the throttle of [_run_once] waits for, if it waits. *)
Definition throttle_trace {platform : Platform} (g : Gateway) (w : World) : list Effect :=
  if PrimFloat.ltb (PrimFloat.sub (perf_counter w (reads w)) (_last_run_started_at g))
       30%float
  then [wait_for (fst (backoff_next (_backoff g))); create_task close_event_wait]
  else [].

(** The gateway object with the two attributes the heartbeat assigns
    blanked. *)
Definition heartbeat_view {platform : Platform} (g : Gateway) : Gateway :=
  set_zombied false (set_last_heartbeat_sent nan g).

(** The calls of the heartbeat: a HEARTBEAT frame, the wait for the next
    beat, and the close of a zombie connection. *)
Definition heartbeat_call {platform : Platform} (e : Effect) : bool :=
  match e with
  | send_str (JObj [("op", JInt 1); ("d", _)]) => true
  | wait_for _ => true
  | ws_close 3000 "zombie connection" => true
  | _ => false
  end.

(** A method leaves the note of the attempt's start, and the clock, as it
    found them. *)
Definition leaves_start {platform : Platform} {A} (m : M A) : Prop :=
  forall g w r g' w',
    m g w = (r, g', w') ->
    _last_run_started_at g' = _last_run_started_at g
    /\ perf_counter w' = perf_counter w.

(** A method leaves the close event as it found it. *)
Definition leaves_close_event {platform : Platform} {A} (m : M A) : Prop :=
  forall g w r g' w',
    m g w = (r, g', w') -> _request_close_event g' = _request_close_event g.

(** What an attempt of the supervisor's connection raises, if it raises. *)
Definition attempt_raises (attempt : Shards.Attempt) : option Shards.Exn :=
  match attempt with
  | Shards.spin_up_raises _ _ ex => Some ex
  | Shards.connected _ _ _ ending => ending
  end.

(** What the connection left in its [seq] and [session_id] during an
    attempt. *)
Definition attempt_session (attempt : Shards.Attempt) : json * json :=
  match attempt with
  | Shards.spin_up_raises seq session_id _ => (seq, session_id)
  | Shards.connected _ seq session_id _ => (seq, session_id)
  end.

(** What a turn of the supervisor's loop leaves there. *)
Definition turn_session (attempt : Shards.Attempt) : json * json :=
  match attempt_raises attempt with
  | Some (Shards.GatewayInvalidSessionError false) => (JNull, JNull)
  | _ => attempt_session attempt
  end.

(** The shard states [_spin_up] assigns. *)
Definition under_way (state : ShardClient.ShardState) : bool :=
  match state with
  | ShardClient.CONNECTING | ShardClient.WAITING_FOR_READY
  | ShardClient.RESUMING | ShardClient.READY => true
  | _ => false
  end.

(** The state in which a turn of the supervisor's loop ends. *)
Definition final_state {platform : Platform} (step : Shards.Step) : Shards.State :=
  match step with
  | Shards.continue s | Shards.returned s | Shards.raised _ s => s
  end.

(** * Properties of the gateway *)

Section GatewayProperties.

Context {platform : Platform}.

(** ** Receiving a close frame *)

Lemma code_in_can_reconnect_codes (code : option Z) :
  code_in code can_reconnect_codes = true <->
  exists c, code = Some c /\ (c = 4000 \/ c = 4002 \/ c = 4007 \/ c = 4008 \/ c = 4009).
Proof.
  destruct code as [c|]; cbn.
  - rewrite !orb_true_iff, !Z.eqb_eq. split.
    + intros H. exists c. split; [reflexivity | lia].
    + intros (c' & E & H). inversion E; subst. lia.
  - split; [discriminate | intros (c & E & _); discriminate].
Qed.

(** C2, as the code has it: when a CLOSE frame arrives on an open websocket,
    [_receive_json_payload] raises the server-close error with the peer's
    close code, and the error's can-reconnect flag is true if and only if
    the code is one of 4000, 4002, 4007, 4008 and 4009.  The normal
    closures 1000 and 1001 are not among them. *)
Theorem close_frame_can_reconnect (g : Gateway) (w : World) (code : option Z)
    (rest : list WSMessage) :
  _ws g = true ->
  frames w = CLOSE code :: rest ->
  exists can_reconnect,
    outcome (_receive_json_payload g w)
    = Raise (GatewayServerClosedConnectionError (close_reason code) code
               can_reconnect false true)
    /\ (can_reconnect = true <->
        exists c, code = Some c
                  /\ (c = 4000 \/ c = 4002 \/ c = 4007 \/ c = 4008 \/ c = 4009)).
Proof.
  intros Hws Hframes.
  exists (code_in code can_reconnect_codes). split.
  - unfold outcome, _receive_json_payload, _receive_raw, ws_receive, ws_close_code,
      _now, modify, bind, ret, raise.
    rewrite Hws, Hframes. cbn. rewrite Hws. reflexivity.
  - apply code_in_can_reconnect_codes.
Qed.

End GatewayProperties.

Lemma close_frame_can_reconnect_witness :
  can_reconnect_of
    (outcome (_receive_json_payload open_gateway (world_with [CLOSE (Some 4009)])))
  = Some true.
Proof.
  destruct (close_frame_can_reconnect open_gateway (world_with [CLOSE (Some 4009)])
              (code := Some 4009) (rest := []) eq_refl eq_refl) as (b & E & Hb).
  rewrite E. cbn. f_equal. apply Hb. exists 4009. split; [reflexivity | lia].
Defined.

(** C2, as the spec has it, fails on a normal closure: for the close code
    1000 the flag is false. *)
Lemma normal_closure_cannot_reconnect :
  can_reconnect_of
    (outcome (_receive_json_payload open_gateway (world_with [CLOSE (Some 1000)])))
  = Some false.
Proof. vm_compute. reflexivity. Qed.

(** ** What receiving touches *)

Ltac break_match :=
  match goal with
  | |- context [match ?x with _ => _ end] => destruct x eqn:?
  end.

Ltac invert_run :=
  repeat match goal with
         | H : (_, _) = (_, _) |- _ => inversion H; subst; clear H
         end.

Ltac settle :=
  intros; unfold ret, raise, receive_frame in *; cbn in *; invert_run;
  repeat match goal with H : _ /\ _ |- _ => destruct H end;
  cbn in *; repeat split;
  try reflexivity; try assumption; try congruence; try lia.

Section ReceiveProperties.

Context {platform : Platform}.

Lemma receive_raw_run (g : Gateway) (w : World) :
  _receive_raw g w =
  if negb (_ws g) then (Raise AttributeError, g, w) else
  let g' := set_last_message_received (perf_counter w (reads w)) g in
  match frames w with
  | [] => (Return CLOSED, g', set_reads (S (reads w)) w)
  | CLOSE code :: rest =>
      (Return (CLOSE code), g',
       set_reads (S (reads w)) (set_close_code code (set_frames rest w)))
  | m :: rest => (Return m, g', set_reads (S (reads w)) (set_frames rest w))
  end.
Proof.
  unfold _receive_raw, ws_receive, _now, modify, bind, ret.
  destruct (_ws g); cbn; [|reflexivity].
  destruct (frames w) as [|m rest]; [reflexivity|].
  destruct m; reflexivity.
Qed.

(** A turn of the loop of [_receive_zlib_message] never reaches the next
    turn: [buff.append] is handed the frame's [bytes]. *)
Lemma receive_zlib_loop_run (fuel : nat) (buff : bytes) (packets : Z)
    (g : Gateway) (w : World) :
  _receive_zlib_loop (S fuel) buff packets g w =
  if endswith buff ZLIB_SUFFIX then (Return (buff, packets), g, w) else
  match _receive_raw g w with
  | (Return (BINARY _), g', w') => (Raise TypeError, g', w')
  | (Return _, g', w') => (Raise (GatewayError Expected_binary_message), g', w')
  | (Raise e, g', w') => (Raise e, g', w')
  | (OutOfFuel, g', w') => (OutOfFuel, g', w')
  end.
Proof.
  cbn [_receive_zlib_loop]. destruct (endswith buff ZLIB_SUFFIX); [reflexivity|].
  unfold bind. destruct (_receive_raw g w) as [[r g'] w'].
  destruct r as [m| |]; try reflexivity. destruct m; reflexivity.
Qed.

Lemma receive_raw_frame (g : Gateway) (w : World) r g' w' :
  _receive_raw g w = (r, g', w') ->
  receive_frame g w g' w' /\ r <> OutOfFuel.
Proof.
  rewrite receive_raw_run. destruct (_ws g); cbn.
  - destruct (frames w) as [|m rest] eqn:E; [|destruct m]; settle; rewrite E; cbn; lia.
  - settle.
Qed.

Lemma receive_zlib_message_frame (first_packet : bytes) (g : Gateway) (w : World) r g' w' :
  _receive_zlib_message first_packet g w = (r, g', w') ->
  receive_frame g w g' w' /\ r <> OutOfFuel.
Proof.
  unfold _receive_zlib_message, bind at 1. rewrite receive_zlib_loop_run.
  destruct (endswith first_packet ZLIB_SUFFIX).
  - unfold get, bind, receive_frame. cbn. destruct (_zlib g) as [z|]; cbn.
    + destruct (decompress z first_packet) as [string z'].
      unfold modify, bind, lift. destruct string; settle.
    + settle.
  - destruct (_receive_raw g w) as [[r0 g0] w0] eqn:E.
    apply receive_raw_frame in E. destruct E as (E & Hr0).
    destruct r0 as [m| |]; [destruct m| |]; settle.
Qed.

Lemma receive_json_payload_frame (g : Gateway) (w : World) r g' w' :
  _receive_json_payload g w = (r, g', w') ->
  receive_frame g w g' w' /\ r <> OutOfFuel.
Proof.
  unfold _receive_json_payload, bind at 1.
  destruct (_receive_raw g w) as [[r0 g0] w0] eqn:E.
  apply receive_raw_frame in E. destruct E as (E & Hr0).
  destruct r0 as [m| |]; [| settle | congruence].
  destruct m; unfold bind, lift, ws_close_code.
  2:{ destruct (_receive_zlib_message data g0 w0) as [[r1 g1] w1] eqn:E1.
      apply receive_zlib_message_frame in E1. destruct E1 as (E1 & Hr1).
      unfold receive_frame in *.
      destruct r1 as [[n string]| |]; [| |congruence].
      - cbn. destruct string; settle.
      - settle. }
  1:{ destruct data; settle. }
  1:{ destruct (negb (_ws g0)); settle. }
  all: settle.
Qed.

(** A payload is returned only from an open websocket, and takes a frame. *)
Lemma receive_json_payload_returns (g : Gateway) (w : World) message g' w' :
  _receive_json_payload g w = (Return message, g', w') ->
  _ws g = true /\ (List.length (frames w') < List.length (frames w))%nat.
Proof.
  unfold _receive_json_payload, bind at 1. rewrite receive_raw_run.
  destruct (_ws g) eqn:Hws; cbn; [|discriminate].
  destruct (frames w) as [|m rest] eqn:E; cbn.
  - unfold raise. discriminate.
  - intros H. split; [reflexivity|].
    destruct m; cbn in H; unfold bind, raise, ret, lift, ws_close_code in H; cbn in H;
      rewrite ?Hws in H; cbn in H; try discriminate.
    + destruct data; cbn in H; unfold ret, raise in H; invert_run;
        try discriminate; cbn; lia.
    + match type of H with
      | context [_receive_zlib_message ?d ?g0 ?w0] =>
          destruct (_receive_zlib_message d g0 w0) as [[r1 g1] w1] eqn:E1
      end.
      apply receive_zlib_message_frame in E1.
      destruct E1 as ((_ & _ & _ & _ & _ & Hf1) & _). cbn in Hf1.
      destruct r1 as [[n string]| |]; try discriminate.
      cbn in H. destruct string; cbn in H; unfold ret, raise in H; invert_run;
        try discriminate. lia.
Qed.

End ReceiveProperties.

(** ** The handshake *)

Section HandshakeProperties.

Context {platform : Platform}.

(** What two objects with the same receive view agree on. *)
Lemma receive_view_fields (g g' : Gateway) :
  receive_view g' = receive_view g ->
  _activity g' = _activity g /\ _idle_since g' = _idle_since g
  /\ _is_afk g' = _is_afk g /\ _status g' = _status g
  /\ _intents g' = _intents g /\ _token g' = _token g
  /\ _shard_id g' = _shard_id g /\ _shard_count g' = _shard_count g
  /\ large_threshold g' = large_threshold g
  /\ _seq g' = _seq g /\ _session_id g' = _session_id g
  /\ _ws g' = _ws g.
Proof.
  intros H.
  repeat split;
    [ apply (f_equal _activity) in H | apply (f_equal _idle_since) in H
    | apply (f_equal _is_afk) in H | apply (f_equal _status) in H
    | apply (f_equal _intents) in H | apply (f_equal _token) in H
    | apply (f_equal _shard_id) in H | apply (f_equal _shard_count) in H
    | apply (f_equal large_threshold) in H
    | apply (f_equal _seq) in H | apply (f_equal _session_id) in H
    | apply (f_equal _ws) in H ]; exact H.
Qed.

(** The stored presence always builds. *)
Lemma stored_presence_builds (g : Gateway) :
  exists presence, _build_presence_payload g UNSET UNSET py_UNSET py_UNSET = Ok presence.
Proof.
  unfold _build_presence_payload. cbn.
  destruct (_activity g), (_status g); cbn; eexists; reflexivity.
Qed.

Lemma identify_payload_builds (g : Gateway) :
  exists d,
    identify_payload g = Ok (JObj [("op", op IDENTIFY); ("d", JObj d)])
    /\ assoc "token" d = Some (JStr (_token g))
    /\ assoc "shard" d = Some (JArr [JInt (_shard_id g); JInt (_shard_count g)]).
Proof.
  unfold identify_payload.
  destruct (stored_presence_builds g) as (presence & ->).
  destruct (_intents g), (any_presence g); cbn; eexists; repeat split; reflexivity.
Qed.

Lemma identify_payload_view (g g' : Gateway) :
  receive_view g' = receive_view g ->
  forall interval,
    identify_payload (set_heartbeat_interval interval g') = identify_payload g.
Proof.
  intros H interval. apply receive_view_fields in H.
  destruct H as (Ha & Hi & Hk & Hs & Hn & Ht & Hid & Hc & Hl & _).
  unfold identify_payload, any_presence, _build_presence_payload. cbn.
  rewrite Ha, Hi, Hk, Hs, Hn, Ht, Hid, Hc, Hl. reflexivity.
Qed.

(** The handshake after a HELLO with a usable interval: the interval is
    stored and the frame is sent. *)
Lemma handshake_run (g : Gateway) (w : World)
    (message : json) (g1 : Gateway) (w1 : World) (o d hb : json) (interval : float) :
  _receive_json_payload g w = (Return message, g1, w1) ->
  getitem message "op" = Ok o ->
  eq_int o (opcode_value HELLO) = true ->
  getitem message "d" = Ok d ->
  getitem d "heartbeat_interval" = Ok hb ->
  truediv hb 1000%float = Ok interval ->
  _handshake g w =
  let g2 := set_heartbeat_interval interval g1 in
  if negb (is_None (_session_id g1))
  then _send_json (resume_payload g2) g2 w1
  else bind (lift (identify_payload g2)) _send_json g2 w1.
Proof.
  intros Hrecv Hop Hhello Hd Hhb Hdiv.
  unfold _handshake, bind at 1. rewrite Hrecv.
  unfold bind at 1. rewrite Hop. cbn [lift ret]. rewrite Hhello. cbn [negb].
  unfold bind at 1. rewrite Hd. cbn [lift ret].
  unfold bind at 1. rewrite Hhb. cbn [lift ret].
  unfold bind at 1. rewrite Hdiv. cbn [lift ret].
  unfold bind at 1, modify. unfold bind at 1, get.
  cbn [_session_id set_heartbeat_interval].
  destruct (is_None (_session_id g1)); reflexivity.
Qed.

(** Sending on an open websocket is one traced call, whatever comes of it,
    and leaves the gateway object alone. *)
Lemma send_json_run (payload : json) (g : Gateway) (w : World) :
  _ws g = true ->
  final_self (_send_json payload g w) = g
  /\ trace (final_world (_send_json payload g w)) = send_str payload :: trace w
  /\ outcome (_send_json payload g w) <> OutOfFuel.
Proof.
  intros Hws. unfold _send_json, bind, get, effect, raise, final_world, final_self, outcome.
  cbn. rewrite Hws. cbn.
  destruct (send_errors w) as [|[e|] rest]; cbn; repeat split; discriminate.
Qed.

(** C1: once HELLO has been received, the one call the handshake makes is
    to send a frame, and the stored session identity alone decides which:
    with a [session_id] it is RESUME carrying the token, the stored [seq]
    and that [session_id]; without one it is the IDENTIFY frame, never
    RESUME.  HELLO is a payload whose [op] is 10 and whose
    [d.heartbeat_interval] is a number. *)
Theorem handshake_first_frame (g : Gateway) (w : World)
    (message : json) (g1 : Gateway) (w1 : World) (o d hb : json) (interval : float) :
  _receive_json_payload g w = (Return message, g1, w1) ->
  getitem message "op" = Ok o ->
  eq_int o (opcode_value HELLO) = true ->
  getitem message "d" = Ok d ->
  getitem d "heartbeat_interval" = Ok hb ->
  truediv hb 1000%float = Ok interval ->
  exists frame,
    trace (final_world (_handshake g w)) = send_str frame :: trace w
    /\ heartbeat_interval (final_self (_handshake g w)) = interval
    /\ (if is_None (_session_id g)
        then identify_payload g = Ok frame
             /\ getitem frame "op" = Ok (op IDENTIFY)
        else frame =
             JObj [("op", op RESUME);
                   ("d", JObj [("token", JStr (_token g)); ("seq", _seq g);
                               ("session_id", _session_id g)])]).
Proof.
  intros Hrecv Hop Hhello Hd Hhb Hdiv.
  pose proof (receive_json_payload_returns _ _ Hrecv) as (Hws & _).
  pose proof (receive_json_payload_frame _ _ Hrecv) as ((Hview & Htrace & _) & _).
  pose proof (receive_view_fields Hview) as Hfields.
  destruct Hfields as (_ & _ & _ & _ & _ & Htoken & _ & _ & _ & Hseq & Hsid & Hws1).
  rewrite (handshake_run _ _ Hrecv Hop Hhello Hd Hhb Hdiv). cbv zeta.
  rewrite Hsid.
  assert (_ws (set_heartbeat_interval interval g1) = true) as Hws2
    by (cbn; congruence).
  destruct (is_None (_session_id g)) eqn:Hnone; cbn [negb].
  - destruct (identify_payload_builds g) as (fields & Hid & _).
    exists (JObj [("op", op IDENTIFY); ("d", JObj fields)]).
    unfold bind. rewrite (identify_payload_view Hview), Hid. cbn [lift ret].
    destruct (@send_json_run (JObj [("op", op IDENTIFY); ("d", JObj fields)]) _ w1 Hws2)
      as (Hself & Htr & _).
    rewrite Hself, Htr, Htrace. repeat split; try reflexivity; try exact Hid.
  - exists (resume_payload (set_heartbeat_interval interval g1)).
    destruct (@send_json_run (resume_payload (set_heartbeat_interval interval g1)) _ w1 Hws2)
      as (Hself & Htr & _).
    rewrite Hself, Htr, Htrace. repeat split; try reflexivity.
    unfold resume_payload. cbn. rewrite Htoken, Hseq, Hsid. reflexivity.
Qed.

End HandshakeProperties.

Lemma handshake_first_frame_witness :
  exists frame,
    trace (final_world (_handshake resumable_gateway
                          (world_with [TEXT (Doc (hello 45000))])))
    = [send_str frame]
    /\ heartbeat_interval
         (final_self (_handshake resumable_gateway
                        (world_with [TEXT (Doc (hello 45000))])))
       = 45%float
    /\ frame =
       JObj [("op", JInt 6);
             ("d", JObj [("token", JStr "token"); ("seq", JInt 7);
                         ("session_id", JStr "abc")])].
Proof.
  exact (handshake_first_frame resumable_gateway
           (world_with [TEXT (Doc (hello 45000))])
           (message := hello 45000) (o := JInt 10)
           (d := JObj [("heartbeat_interval", JInt 45000)])
           (hb := JInt 45000) (interval := 45%float)
           eq_refl eq_refl eq_refl eq_refl eq_refl eq_refl).
Defined.

(** ** The heartbeat *)

Section HeartbeatProperties.

Context {platform : Platform}.

(** C3: a turn of the heartbeat loop on an open websocket reads the clock
    and compares.  If the time since the last received message strictly
    exceeds [heartbeat_interval], it marks the connection zombied, closes
    the websocket with code 3000 and message "zombie connection" and
    returns, and so does [_pulse].  Otherwise it sends
    [{op: HEARTBEAT, d: seq}] and, unless the send raises, stores the next
    clock reading as [last_heartbeat_sent] and waits one interval. *)
Theorem pulse_zombie_or_heartbeat (g : Gateway) (w : World) :
  _ws g = true ->
  let now := perf_counter w (reads w) in
  let time_since_message := PrimFloat.sub now (last_message_received g) in
  let heartbeat := JObj [("op", op HEARTBEAT); ("d", _seq g)] in
  let r := _pulse_iteration g w in
  if PrimFloat.ltb (heartbeat_interval g) time_since_message
  then
    r = (Return false, set_zombied true g,
         set_trace (ws_close 3000 "zombie connection" :: trace w)
           (set_reads (S (reads w)) w))
    /\ (_request_close_event g = false ->
        forall fuel, _pulse (S fuel) g w
                     = (Return tt, final_self r, final_world r))
  else
    match send_errors w with
    | Some e :: _ =>
        outcome r = Raise (transport_exn e)
        /\ final_self r = g
        /\ trace (final_world r) = send_str heartbeat :: trace w
    | _ =>
        outcome r = Return true
        /\ final_self r = set_last_heartbeat_sent (perf_counter w (S (reads w))) g
        /\ trace (final_world r)
           = wait_for (heartbeat_interval g) :: send_str heartbeat :: trace w
    end.
Proof.
  intros Hws. cbv zeta.
  destruct (PrimFloat.ltb (heartbeat_interval g)
              (PrimFloat.sub (perf_counter w (reads w)) (last_message_received g)))
    eqn:Hzombie.
  - assert (_pulse_iteration g w
            = (Return false, set_zombied true g,
               set_trace (ws_close 3000 "zombie connection" :: trace w)
                 (set_reads (S (reads w)) w))) as Hrun.
    { unfold _pulse_iteration, _close_ws, _now, bind, get, modify, effect, ret, raise.
      cbn. rewrite Hzombie. cbn. rewrite Hws. reflexivity. }
    split; [exact Hrun|].
    intros Hclose fuel. unfold _pulse, try_except. cbn [_pulse_loop].
    rewrite Hclose. unfold bind at 1. rewrite Hrun. reflexivity.
  - unfold _pulse_iteration, _send_json, _now, bind, get, modify, effect, ret, raise,
      outcome, final_self, final_world.
    cbn. rewrite Hzombie. cbn. rewrite Hws. cbn.
    destruct (send_errors w) as [|[e|] rest]; cbn; repeat split.
Qed.

(** The heartbeat assigns [_zombied] and [last_heartbeat_sent] and nothing
    else: what the connection attempt decides on is out of its reach. *)
Lemma pulse_iteration_frame (g : Gateway) (w : World) :
  set_zombied false (set_last_heartbeat_sent nan (final_self (_pulse_iteration g w)))
  = set_zombied false (set_last_heartbeat_sent nan g).
Proof.
  unfold _pulse_iteration, _send_json, _close_ws, _now, bind, get, modify, effect,
    ret, raise, final_self.
  cbn.
  destruct (PrimFloat.ltb _ _); cbn; destruct (_ws g); cbn; try reflexivity.
  destruct (send_errors w) as [|[e|] rest]; reflexivity.
Qed.

End HeartbeatProperties.

Lemma pulse_zombie_or_heartbeat_witness :
  _pulse_iteration beating_gateway silent_world
  = (Return false, set_zombied true beating_gateway,
     set_trace [ws_close 3000 "zombie connection"] (set_reads 6 silent_world))
  /\ (_request_close_event beating_gateway = false ->
      forall fuel,
        _pulse (S fuel) beating_gateway silent_world
        = (Return tt, final_self (_pulse_iteration beating_gateway silent_world),
           final_world (_pulse_iteration beating_gateway silent_world))).
Proof.
  exact (pulse_zombie_or_heartbeat beating_gateway silent_world eq_refl).
Defined.

(** ** The presence payload and [update_presence] *)

Section PresenceProperties.

Context {platform : Platform}.

(** Whatever it is given, a payload the builder returns has the four fields
    since, afk, status and game, in that order; [since] is what
    [timestamp()] returns, the idle time in seconds, or null, and [afk] is
    false when absent. *)
Lemma build_presence_payload_shape (g : Gateway)
    (idle_since : Unset (option datetime)) (is_afk : Unset (option bool))
    (status activity : PyObject) (payload : json) :
  _build_presence_payload g idle_since is_afk status activity = Ok payload ->
  exists status_value game,
    payload =
    JObj [("since",
           match or_else idle_since (_idle_since g) with
           | Some d => JFloat (timestamp d)
           | None => JNull
           end);
          ("afk",
           match or_else is_afk (_is_afk g) with
           | Some b => JBool b
           | None => JBool false
           end);
          ("status", status_value);
          ("game", game)].
Proof.
  unfold _build_presence_payload, result_bind.
  repeat break_match; intros H; inversion H; subst; eexists; eexists; reflexivity.
Qed.

(** The builder reads the gateway object and cannot change it: it is a
    function of it.  So is the sending of a frame. *)
Lemma send_json_self (payload : json) (g : Gateway) (w : World) :
  final_self (_send_json payload g w) = g.
Proof.
  unfold _send_json, bind, get, effect, raise, final_self. cbn.
  destruct (_ws g); cbn; [|reflexivity].
  destruct (send_errors w) as [|[e|] rest]; reflexivity.
Qed.

(** C10: [update_presence] assigns the four stored presence fields only
    after the PRESENCE_UPDATE frame has been sent.  If building or sending
    the frame raises, the gateway object is as it was; if the call returns,
    the frame was sent before, each argument that was given is stored and
    each argument left unset leaves its field as it was. *)
Theorem update_presence_atomic (g : Gateway) (w : World)
    (idle_since : Unset (option datetime)) (is_afk : Unset bool)
    (activity : Unset (option Activity)) (status : Unset PresenceStatus) :
  match update_presence idle_since is_afk activity status g w with
  | (Return _, g', w') =>
      (exists payload,
          trace w' = send_str (JObj [("op", op PRESENCE_UPDATE); ("d", payload)]) :: trace w)
      /\ _idle_since g' = match idle_since with UNSET => _idle_since g | Given v => v end
      /\ _is_afk g' = match is_afk with UNSET => _is_afk g | Given v => Some v end
      /\ _activity g' = match activity with UNSET => _activity g | Given v => v end
      /\ _status g' = match status with UNSET => _status g | Given v => Some v end
  | (Raise _, g', _) => g' = g
  | (OutOfFuel, _, _) => False
  end.
Proof.
  unfold update_presence, bind at 1, get. unfold bind at 1.
  destruct (_build_presence_payload g idle_since (given_some is_afk)
              (activity_object activity) (status_object (given_some status)))
    as [payload|e]; cbn [lift ret raise]; [|reflexivity].
  unfold bind at 1.
  unfold _send_json, bind, get, effect, raise, modify, ret. cbn.
  destruct (_ws g); cbn; [|reflexivity].
  destruct (send_errors w) as [|[e|] rest]; cbn; try reflexivity.
  - split; [eexists; reflexivity|].
    destruct idle_since, is_afk, activity, status; cbn; repeat split.
  - split; [eexists; reflexivity|].
    destruct idle_since, is_afk, activity, status; cbn; repeat split.
Qed.

End PresenceProperties.

(** C8 fails on the unit of [since]: for an idle time of 1.5 s the gateway's
    builder writes 1.5, the seconds [timestamp()] returns, where the claim
    has 1500 milliseconds, as the builder of the shard client writes. *)
Lemma presence_since_is_in_seconds :
  _build_presence_payload fresh_gateway (Given (Some idle_at_1500ms)) UNSET
    py_UNSET py_UNSET
  = Ok (JObj [("since", JFloat 1.5%float); ("afk", JBool false);
              ("status", JStr "online"); ("game", JNull)])
  /\ Shards._create_presence_pl ONLINE None (Some idle_at_1500ms) false
     = JObj [("status", JStr "online"); ("idle_since", JFloat 1500%float);
             ("game", JNull); ("afk", JBool false)].
Proof. split; vm_compute; reflexivity. Qed.

(** [update_presence] passes its arguments on in the wrong order: a status
    that is given lands in the builder's [activity] parameter and the call
    raises before anything is sent. *)
Lemma update_presence_status_raises :
  update_presence UNSET UNSET UNSET (Given DND) open_gateway (world_with [])
  = (Raise AttributeError, open_gateway, world_with []).
Proof. vm_compute. reflexivity. Qed.

(** ** The poll loop *)

Section PollProperties.

Context {platform : Platform}.

(** What the poll loop does with a DISPATCH that carries no session: it
    stores [s] as [seq], sets the handshake event when [t] is "RESUME", and
    forwards [(t, d)] with the object as updated. *)
Lemma poll_dispatch_run (g : Gateway) (w : World)
    (message : json) (g1 : Gateway) (w1 : World) (o d t s : json) :
  _receive_json_payload g w = (Return message, g1, w1) ->
  getitem message "op" = Ok o ->
  eq_int o (opcode_value DISPATCH) = true ->
  getitem message "d" = Ok d ->
  getitem message "t" = Ok t ->
  getitem message "s" = Ok s ->
  eq_str t "READY" = false ->
  let g2 :=
    if eq_str t "RESUME"
    then set_handshake_event true (set_seq s g1)
    else set_seq s g1 in
  _poll_events_iteration g w
  = (Return tt, g2, set_trace (create_task (dispatch g2 t d) :: trace w1) w1).
Proof.
  intros Hrecv Hop Hdispatch Hd Ht Hs Hready.
  unfold _poll_events_iteration, bind at 1. rewrite Hrecv.
  unfold bind at 1. rewrite Hop. cbn [lift ret].
  unfold bind at 1. rewrite Hd. cbn [lift ret].
  rewrite Hdispatch.
  unfold bind at 1. rewrite Ht. cbn [lift ret].
  unfold bind at 1. rewrite Hs. cbn [lift ret].
  rewrite Hready.
  unfold bind, modify, get, effect, ret.
  destruct (eq_str t "RESUME"); reflexivity.
Qed.

(** The same for READY: the session identifier of [d] is stored too, and
    the handshake event is set. *)
Lemma poll_ready_run (g : Gateway) (w : World)
    (message : json) (g1 : Gateway) (w1 : World) (o d t s session_id : json) :
  _receive_json_payload g w = (Return message, g1, w1) ->
  getitem message "op" = Ok o ->
  eq_int o (opcode_value DISPATCH) = true ->
  getitem message "d" = Ok d ->
  getitem message "t" = Ok t ->
  getitem message "s" = Ok s ->
  eq_str t "READY" = true ->
  getitem d "session_id" = Ok session_id ->
  let g2 := set_handshake_event true (set_session_id session_id (set_seq s g1)) in
  _poll_events_iteration g w
  = (Return tt, g2, set_trace (create_task (dispatch g2 t d) :: trace w1) w1).
Proof.
  intros Hrecv Hop Hdispatch Hd Ht Hs Hready Hsid.
  unfold _poll_events_iteration, bind at 1. rewrite Hrecv.
  unfold bind at 1. rewrite Hop. cbn [lift ret].
  unfold bind at 1. rewrite Hd. cbn [lift ret].
  rewrite Hdispatch.
  unfold bind at 1. rewrite Ht. cbn [lift ret].
  unfold bind at 1. rewrite Hs. cbn [lift ret].
  rewrite Hready.
  unfold bind at 1, modify. unfold bind at 1. unfold bind at 1. rewrite Hsid.
  reflexivity.
Qed.

(** INVALID_SESSION raises [_InvalidSession] with the frame's [d] and leaves
    the gateway object as receiving the frame left it. *)
Lemma poll_invalid_session_run (g : Gateway) (w : World)
    (message : json) (g1 : Gateway) (w1 : World) (o d : json) :
  _receive_json_payload g w = (Return message, g1, w1) ->
  getitem message "op" = Ok o ->
  eq_int o (opcode_value INVALID_SESSION) = true ->
  eq_int o (opcode_value DISPATCH) = false ->
  eq_int o (opcode_value HEARTBEAT) = false ->
  eq_int o (opcode_value HEARTBEAT_ACK) = false ->
  eq_int o (opcode_value RECONNECT) = false ->
  getitem message "d" = Ok d ->
  _poll_events_iteration g w = (Raise (_InvalidSession d), g1, w1).
Proof.
  intros Hrecv Hop H9 H0 H1 H11 H7 Hd.
  unfold _poll_events_iteration, bind at 1. rewrite Hrecv.
  unfold bind at 1. rewrite Hop. cbn [lift ret].
  unfold bind at 1. rewrite Hd. cbn [lift ret].
  rewrite H0, H1, H11, H7, H9. reflexivity.
Qed.

(** With a first packet that does not end in the zlib suffix, the next
    binary frame makes [_receive_zlib_message] raise [TypeError]: the loop
    appends the frame's [bytes] to the buffer as if they were one byte. *)
Lemma receive_zlib_message_second_frame (first_packet data : bytes)
    (rest : list WSMessage) (g : Gateway) (w : World) :
  _ws g = true ->
  endswith first_packet ZLIB_SUFFIX = false ->
  frames w = BINARY data :: rest ->
  outcome (_receive_zlib_message first_packet g w) = Raise TypeError.
Proof.
  intros Hws Hend Hframes.
  unfold outcome, _receive_zlib_message, bind at 1.
  rewrite receive_zlib_loop_run, Hend, receive_raw_run, Hws, Hframes. reflexivity.
Qed.

End PollProperties.

(** C6 fails on RESUMED: the poll loop compares the event name with
    "RESUME".  On the frame [{op: 0, t: "RESUMED", s: 8, d: {}}] it stores
    the sequence number and forwards the event, and the handshake event
    stays unset; on the name "RESUME", which the gateway never sends, it is
    set. *)
Lemma RESUMED_leaves_handshake_event_unset :
  let run t := _poll_events_iteration resumable_gateway
                 (world_with [TEXT (Doc (dispatch_frame t 8 (JObj [])))]) in
  outcome (run "RESUMED") = Return tt
  /\ _seq (final_self (run "RESUMED")) = JInt 8
  /\ trace (final_world (run "RESUMED"))
     = [create_task (dispatch (final_self (run "RESUMED")) (JStr "RESUMED") (JObj []))]
  /\ _handshake_event resumable_gateway = false
  /\ _handshake_event (final_self (run "RESUMED")) = false
  /\ _handshake_event (final_self (run "RESUME")) = true.
Proof. vm_compute. repeat split. Qed.

(** C7 fails on a message that arrives in two frames.  The stream
    [ACK_STREAM] in one frame is inflated and decoded; cut after its tenth
    byte and fed as two frames, it makes the receive path raise
    [TypeError], and nothing is buffered. *)
Lemma partitioned_stream_raises :
  outcome (_receive_json_payload open_gateway (world_with [BINARY ACK_STREAM]))
  = Return ACK
  /\ (firstn 10 ACK_STREAM ++ skipn 10 ACK_STREAM)%list = ACK_STREAM
  /\ outcome (_receive_json_payload open_gateway
                (world_with [BINARY (firstn 10 ACK_STREAM);
                             BINARY (skipn 10 ACK_STREAM)]))
     = Raise TypeError.
Proof. vm_compute. repeat split. Qed.

(** ** What a connection attempt leaves alone *)

Section Frames.

Context {platform : Platform}.

Lemma bind_run {A B} (m : M A) (k : A -> M B) (g : Gateway) (w : World) :
  bind m k g w =
  match m g w with
  | (Return a, g', w') => k a g' w'
  | (Raise e, g', w') => (Raise e, g', w')
  | (OutOfFuel, g', w') => (OutOfFuel, g', w')
  end.
Proof. reflexivity. Qed.

Lemma bind_modify {B} (f : Gateway -> Gateway) (k : unit -> M B) g w :
  bind (modify f) k g w = k tt (f g) w.
Proof. reflexivity. Qed.

Lemma bind_now {B} (k : float -> M B) g w :
  bind _now k g w = k (perf_counter w (reads w)) g (set_reads (S (reads w)) w).
Proof. reflexivity. Qed.

Lemma bind_get {B} (k : Gateway -> M B) g w :
  bind get k g w = k g g w.
Proof. reflexivity. Qed.

Lemma bind_effect {B} (e : Effect) (k : unit -> M B) g w :
  bind (effect e) k g w = k tt g (set_trace (e :: trace w) w).
Proof. reflexivity. Qed.

Lemma bind_ret {A B} (a : A) (k : A -> M B) g w :
  bind (ret a) k g w = k a g w.
Proof. reflexivity. Qed.

Lemma keeps_ret {A} (a : A) : keeps (ret a).
Proof. unfold keeps, ret. settle. Qed.

Lemma keeps_raise {A} (e : Exn) : keeps (@raise _ A e).
Proof. unfold keeps, raise. settle. Qed.

Lemma keeps_lift {A} (r : Result A) : keeps (lift r).
Proof. destruct r; [apply keeps_ret | apply keeps_raise]. Qed.

Lemma keeps_get : keeps get.
Proof. unfold keeps, get. settle. Qed.

Lemma keeps_effect (e : Effect) : keeps (effect e).
Proof. unfold keeps, effect. settle. Qed.

Lemma keeps_now : keeps _now.
Proof. unfold keeps, _now. settle. Qed.

Lemma keeps_modify (f : Gateway -> Gateway) :
  (forall g, attempt_view (f g) = attempt_view g) -> keeps (modify f).
Proof. unfold keeps, modify. intros Hf g w r g' w' H. invert_run. repeat split; auto. discriminate. Qed.

Lemma keeps_bind {A B} (m : M A) (k : A -> M B) :
  keeps m -> (forall a, keeps (k a)) -> keeps (bind m k).
Proof.
  intros Hm Hk g w r g' w'. rewrite bind_run.
  destruct (m g w) as [[r0 g0] w0] eqn:E. apply Hm in E.
  destruct E as (Hv & Hr & Hf & Hn & Hc).
  destruct r0 as [a| |]; [| settle | congruence].
  intros H. apply Hk in H. destruct H as (Hv' & Hr' & Hf' & Hn' & Hc').
  repeat split; try congruence. lia.
Qed.

Lemma takes_a_frame_bind {A B} (m : M A) (k : A -> M B) :
  takes_a_frame m -> (forall a, keeps (k a)) -> takes_a_frame (bind m k).
Proof.
  intros Hm Hk g w b g' w'. rewrite bind_run.
  destruct (m g w) as [[r0 g0] w0] eqn:E.
  destruct r0 as [a| |]; try discriminate.
  apply Hm in E. intros H. apply Hk in H. destruct H as (_ & _ & Hf & _). lia.
Qed.

Lemma keeps_try_finally {A} (body : M A) (final : M unit) :
  keeps body -> keeps final -> keeps (try_finally body final).
Proof.
  intros Hb Hf g w r g' w'. unfold try_finally.
  destruct (body g w) as [[r0 g0] w0] eqn:E. apply Hb in E.
  destruct E as (Hv & Hr & Hl & Hn & Hc).
  destruct (final g0 w0) as [[r1 g1] w1] eqn:E1. apply Hf in E1.
  destruct E1 as (Hv1 & Hr1 & Hl1 & Hn1 & Hc1).
  destruct r0; [| |congruence]; destruct r1; try congruence;
    intros H; invert_run; repeat split; try congruence; lia.
Qed.

Lemma keeps_send_json (payload : json) : keeps (_send_json payload).
Proof.
  unfold keeps, _send_json, bind, get, effect, raise. intros g w r g' w'.
  destruct (negb (_ws g)); cbn; [settle|].
  destruct (send_errors w) as [|[e|] rest]; settle.
Qed.

Lemma keeps_close_ws (code : _GatewayCloseCode) (message : string) :
  keeps (_close_ws code message).
Proof.
  unfold keeps, _close_ws, bind, get, effect, raise. intros g w r g' w'.
  destruct (negb (_ws g)); cbn; settle.
Qed.

Lemma keeps_receive_json_payload : keeps _receive_json_payload.
Proof.
  intros g w r g' w' H. apply receive_json_payload_frame in H.
  destruct H as ((Hv & _ & _ & Hn & Hc & Hf) & Hr).
  repeat split; auto.
  apply (f_equal attempt_view) in Hv. exact Hv.
Qed.

Lemma takes_a_frame_receive_json_payload : takes_a_frame _receive_json_payload.
Proof. intros g w a g' w' H. apply receive_json_payload_returns in H. apply H. Qed.

End Frames.

Ltac keeps_step :=
  first
    [ apply keeps_send_json
    | apply keeps_close_ws
    | apply keeps_receive_json_payload
    | apply keeps_now
    | apply keeps_get
    | apply keeps_effect
    | apply keeps_lift
    | apply keeps_ret
    | apply keeps_raise
    | apply keeps_modify; intros ?; reflexivity
    | apply keeps_try_finally
    | apply keeps_bind; [|intros ?]
    | match goal with
      | |- keeps (if ?b then _ else _) => destruct b
      | |- keeps (match ?x with _ => _ end) => destruct x
      end ].

Section AttemptFrames.

Context {platform : Platform}.

Lemma keeps_handshake : keeps _handshake.
Proof. unfold _handshake. repeat keeps_step. Qed.

Lemma keeps_poll_events_iteration : keeps _poll_events_iteration.
Proof. unfold _poll_events_iteration. repeat keeps_step. Qed.

Lemma takes_a_frame_poll_events_iteration : takes_a_frame _poll_events_iteration.
Proof.
  unfold _poll_events_iteration.
  apply takes_a_frame_bind; [apply takes_a_frame_receive_json_payload|].
  intros message. repeat keeps_step.
Qed.

(** The poll loop ends within the fuel [_poll_events] gives it. *)
Lemma keeps_poll_loop (fuel : nat) (g : Gateway) (w : World) r g' w' :
  (List.length (frames w) < fuel)%nat ->
  _poll_loop fuel g w = (r, g', w') ->
  attempt_view g' = attempt_view g
  /\ r <> OutOfFuel
  /\ (List.length (frames w') <= List.length (frames w))%nat
  /\ network w' = network w
  /\ perf_counter w' = perf_counter w.
Proof.
  revert g w. induction fuel as [|fuel IH]; intros g w Hfuel; [lia|].
  cbn [_poll_loop]. destruct (_request_close_event g); [settle|].
  rewrite bind_run.
  destruct (_poll_events_iteration g w) as [[r0 g0] w0] eqn:E.
  pose proof (keeps_poll_events_iteration _ _ E) as (Hv & Hr & Hf & Hn & Hc).
  destruct r0 as [[]| |]; [| settle | congruence].
  apply takes_a_frame_poll_events_iteration in E.
  intros H. apply IH in H; [|lia].
  destruct H as (Hv' & Hr' & Hf' & Hn' & Hc').
  repeat split; try congruence. lia.
Qed.

Lemma keeps_poll_events : keeps _poll_events.
Proof.
  intros g w r g' w' H. unfold _poll_events in H.
  apply keeps_poll_loop in H; [exact H | lia].
Qed.

(** The [try] block from the handshake on. *)
Lemma keeps_connected :
  keeps (_handshake ;;
         g <- get ;;
         effect (create_task (dispatch g (JStr "CONNECTED") (JObj []))) ;;
         effect (create_task pulse) ;;
         try_finally _poll_events (effect cancel_heartbeat) ;;
         ret (Some false)).
Proof.
  apply keeps_bind; [apply keeps_handshake|intros ?].
  apply keeps_bind; [apply keeps_get|intros ?].
  apply keeps_bind; [apply keeps_effect|intros ?].
  apply keeps_bind; [apply keeps_effect|intros ?].
  apply keeps_bind; [|intros ?; apply keeps_ret].
  apply keeps_try_finally; [apply keeps_poll_events | apply keeps_effect].
Qed.

(** Every [except] clause keeps the attempt. *)
Lemma keeps_run_once_except (ex : Exn) (handler : M (option bool)) :
  _run_once_except ex = Some handler -> keeps handler.
Proof.
  destruct ex; cbn; intros H; inversion H; subst; clear H; repeat keeps_step.
Qed.

Lemma keeps_run_once_throttle : keeps _run_once_throttle.
Proof. unfold _run_once_throttle. repeat keeps_step. Qed.

End AttemptFrames.

(** ** One connection attempt *)

Section AttemptProperties.

Context {platform : Platform}.

Lemma run_once_throttle_run (g : Gateway) (w : World) :
  exists g' w',
    _run_once_throttle g w = (Return tt, g', w')
    /\ attempt_view g' = attempt_view g
    /\ network w' = network w
    /\ perf_counter w' = perf_counter w
    /\ trace w' = (throttle_trace g w ++ trace w)%list.
Proof.
  unfold _run_once_throttle, throttle_trace, bind, modify, _now, get, effect, ret.
  cbn. destruct (PrimFloat.ltb _ _); cbn.
  - destruct (backoff_next (_backoff g)) as [backoff b]. cbn.
    do 2 eexists. repeat split.
  - do 2 eexists. repeat split.
Qed.

(** Without a websocket the [try] block raises at once. *)
Lemma run_once_try_refused (g : Gateway) (w : World) :
  match network w with
  | accepted _ :: _ => True
  | _ =>
      exists e w',
        _run_once_try g w = (Raise (transport_exn e), g, w')
        /\ trace w' = create_ws :: trace w
  end.
Proof.
  unfold _run_once_try. rewrite bind_run. unfold _create_ws.
  destruct (network w) as [|[e|delivers] rest]; [| |exact I].
  - exists connector_error. eexists. split; reflexivity.
  - exists e. eexists. split; reflexivity.
Qed.

(** With one it notes the time of the connection and keeps it. *)
Lemma run_once_try_accepted (g : Gateway) (w : World) delivers rest r g' w' :
  network w = accepted delivers :: rest ->
  _run_once_try g w = (r, g', w') ->
  r <> OutOfFuel
  /\ attempt_view g'
     = attempt_view (set_connected_at (perf_counter w (reads w)) (set_ws true g)).
Proof.
  intros Hnet. unfold _run_once_try. rewrite bind_run. unfold _create_ws.
  rewrite Hnet. rewrite bind_modify, bind_now, !bind_modify. intros H.
  apply keeps_connected in H.
  destruct H as (Hv & Hr & _). split; [exact Hr|]. rewrite Hv. reflexivity.
Qed.

(** The [try] statement with its [except] clauses. *)
Lemma run_once_guarded_accepted (g : Gateway) (w : World) delivers rest r g' w' :
  network w = accepted delivers :: rest ->
  try_except _run_once_try _run_once_except g w = (r, g', w') ->
  r <> OutOfFuel
  /\ attempt_view g'
     = attempt_view (set_connected_at (perf_counter w (reads w)) (set_ws true g)).
Proof.
  intros Hnet. unfold try_except.
  destruct (_run_once_try g w) as [[r0 g0] w0] eqn:E.
  apply (run_once_try_accepted _ _ Hnet) in E. destruct E as (Hr0 & Hv0).
  destruct r0 as [a|ex|]; [settle| |congruence].
  destruct (_run_once_except ex) as [handler|] eqn:Hex; [|settle].
  intros H. apply (keeps_run_once_except _ Hex) in H.
  destruct H as (Hv & Hr & _). split; congruence.
Qed.

(** Without a websocket the [except] clauses leave the object alone and
    dispatch nothing. *)
Lemma run_once_guarded_refused (g : Gateway) (w : World) :
  match network w with
  | accepted _ :: _ => True
  | _ =>
      exists r w',
        try_except _run_once_try _run_once_except g w = (r, g, w')
        /\ r <> OutOfFuel
        /\ forall c, In (create_task c) (trace w') -> In (create_task c) (trace w)
  end.
Proof.
  pose proof (run_once_try_refused g w) as H.
  destruct (network w) as [|[e0|delivers] rest]; [| |exact I];
    destruct H as (e & w' & Htry & Htr); unfold try_except; rewrite Htry;
    destruct e; cbn [transport_exn _run_once_except is_Exception];
    unfold _close_ws, bind, get, effect, raise, ret; cbn;
    try destruct (_ws g); cbn;
    do 2 eexists; (split; [reflexivity|]); (split; [discriminate|]);
    intros c; cbn; rewrite Htr; cbn; intuition discriminate.
Qed.

(** C9, as the code has it: an attempt that starts disconnected, under a
    clock that never reads [nan], ends with [connected_at] cleared, however
    it ends.  If it opened a websocket, the last call it makes is the
    dispatch of DISCONNECTED, whether or not the handshake got as far as
    the dispatch of CONNECTED; if it opened none, it dispatches nothing. *)
Theorem run_once_teardown (g : Gateway) (w : World) :
  PrimFloat.is_nan (connected_at g) = true ->
  (forall n, PrimFloat.is_nan (perf_counter w n) = false) ->
  let r := _run_once g w in
  outcome r <> OutOfFuel
  /\ PrimFloat.is_nan (connected_at (final_self r)) = true
  /\ match network w with
     | accepted _ :: _ =>
         exists self rest,
           trace (final_world r)
           = create_task (dispatch self (JStr "DISCONNECTED") (JObj [])) :: rest
     | _ =>
         forall self event data,
           In (create_task (dispatch self event data)) (trace (final_world r)) ->
           In (create_task (dispatch self event data)) (trace w)
     end.
Proof.
  intros Hstart Hclock. cbv zeta. unfold _run_once. rewrite bind_run.
  destruct (run_once_throttle_run g w) as (ga & wa & -> & Hva & Hna & Hca & Hta).
  assert (connected_at ga = connected_at g) as Hconn
    by (apply (f_equal connected_at) in Hva; exact Hva).
  assert (forall self event data,
             In (create_task (dispatch self event data)) (trace wa) ->
             In (create_task (dispatch self event data)) (trace w)) as Hold.
  { intros self event data. rewrite Hta. unfold throttle_trace.
    destruct (PrimFloat.ltb _ _); cbn; intuition discriminate. }
  rewrite bind_run. unfold try_finally.
  pose proof (run_once_guarded_refused ga wa) as Href. rewrite Hna in Href.
  destruct (network w) as [|[e|delivers] rest] eqn:Hnet.
  - destruct Href as (r1 & w1 & -> & Hr1 & Htr1).
    unfold _run_once_finally. rewrite bind_get, Hconn, Hstart. cbn [negb].
    rewrite bind_ret. unfold modify, outcome, final_self, final_world.
    destruct r1 as [[b|]|ex|]; cbn; (try congruence);
      (split; [discriminate|]); (split; [reflexivity|]);
      intros self event data Hin; apply Hold, Htr1, Hin.
  - destruct Href as (r1 & w1 & -> & Hr1 & Htr1).
    unfold _run_once_finally. rewrite bind_get, Hconn, Hstart. cbn [negb].
    rewrite bind_ret. unfold modify, outcome, final_self, final_world.
    destruct r1 as [[b|]|ex|]; cbn; (try congruence);
      (split; [discriminate|]); (split; [reflexivity|]);
      intros self event data Hin; apply Hold, Htr1, Hin.
  - clear Href.
    destruct (try_except _run_once_try _run_once_except ga wa) as [[r1 g1] w1] eqn:E.
    apply (run_once_guarded_accepted _ _ Hna) in E. destruct E as (Hr1 & Hv1).
    assert (connected_at g1 = perf_counter w (reads wa)) as Hconn1.
    { apply (f_equal connected_at) in Hv1. cbn in Hv1. congruence. }
    unfold _run_once_finally. rewrite bind_get, Hconn1, Hclock. cbn [negb].
    rewrite bind_effect. unfold modify, outcome, final_self, final_world.
    destruct r1 as [[b|]|ex|]; cbn; (try congruence);
      (split; [discriminate|]); (split; [reflexivity|]);
      do 2 eexists; reflexivity.
Qed.

End AttemptProperties.

Lemma run_once_teardown_witness :
  outcome (_run_once fresh_gateway dropped_world) <> OutOfFuel
  /\ PrimFloat.is_nan (connected_at (final_self (_run_once fresh_gateway dropped_world)))
     = true
  /\ exists self rest,
      trace (final_world (_run_once fresh_gateway dropped_world))
      = create_task (dispatch self (JStr "DISCONNECTED") (JObj [])) :: rest.
Proof.
  refine (run_once_teardown fresh_gateway dropped_world eq_refl _).
  intros n. do 30 (destruct n as [|n]; [reflexivity|]). destruct n; reflexivity.
Defined.

(** C9, as the spec has it, fails when the attempt ends between the
    connection and the handshake: the websocket opens and is gone before
    HELLO, and the attempt dispatches DISCONNECTED while it has not
    dispatched CONNECTED. *)
Lemma DISCONNECTED_without_CONNECTED :
  outcome (_run_once fresh_gateway dropped_world) = Return true
  /\ existsb (dispatches "DISCONNECTED")
       (trace (final_world (_run_once fresh_gateway dropped_world))) = true
  /\ existsb (dispatches "CONNECTED")
       (trace (final_world (_run_once fresh_gateway dropped_world))) = false.
Proof. vm_compute. repeat split. Qed.

(** ** An invalid session *)

Section InvalidSessionProperties.

Context {platform : Platform}.

(** [_InvalidSession] comes out of the [try] block with a websocket open. *)
Lemma invalid_session_has_websocket (g : Gateway) (w : World) can_resume g1 w1 :
  _run_once_try g w = (Raise (_InvalidSession can_resume), g1, w1) ->
  _ws g1 = true.
Proof.
  intros H. pose proof (run_once_try_refused g w) as Href.
  destruct (network w) as [|[e|delivers] rest] eqn:Hnet.
  - destruct Href as (e & w' & Href & _). rewrite Href in H.
    destruct e; discriminate.
  - destruct Href as (e' & w' & Href & _). rewrite Href in H.
    destruct e'; discriminate.
  - apply (run_once_try_accepted _ _ Hnet) in H. destruct H as (_ & Hv).
    apply (f_equal _ws) in Hv. exact Hv.
Qed.

(** C4: when the [try] block of an attempt ends in [_InvalidSession], the
    attempt returns [True], for the next attempt to follow.  If the frame
    said the session cannot be resumed, [seq] and [session_id] are both
    [None] by then; if it said it can, both are as they were when the frame
    arrived.  The supervisor loop of the shard client does the same to the
    connection's [seq] and [session_id]. *)
Theorem invalid_session_clears_session (g : Gateway) (w : World)
    (can_resume : json) (g1 : Gateway) (w1 : World) :
  (_run_once_throttle ;; _run_once_try) g w
  = (Raise (_InvalidSession can_resume), g1, w1) ->
  let r := _run_once g w in
  outcome r = Return true
  /\ (if truthy can_resume
      then _seq (final_self r) = _seq g1
           /\ _session_id (final_self r) = _session_id g1
      else _seq (final_self r) = JNull
           /\ _session_id (final_self r) = JNull)
  /\ forall (s : Shards.State) (resumable : bool),
       exists s',
         Shards._keep_alive_except (Shards.GatewayInvalidSessionError resumable) s
         = Shards.continue s'
         /\ (if resumable
             then Shards.seq s' = Shards.seq s
                  /\ Shards.session_id s' = Shards.session_id s
             else Shards.seq s' = JNull /\ Shards.session_id s' = JNull).
Proof.
  intros H. cbv zeta. unfold _run_once. rewrite bind_run in H. rewrite bind_run.
  destruct (run_once_throttle_run g w) as (ga & wa & Hthrottle & _).
  rewrite Hthrottle in H. rewrite Hthrottle.
  pose proof (invalid_session_has_websocket _ _ H) as Hws.
  split; [|split].
  - rewrite bind_run. unfold try_finally, try_except. rewrite H.
    cbn [_run_once_except].
    unfold _close_ws, _run_once_finally, bind, get, modify, effect, ret, raise, outcome.
    destruct (truthy can_resume); cbn; rewrite Hws; cbn;
      destruct (PrimFloat.is_nan (connected_at g1)); reflexivity.
  - rewrite bind_run. unfold try_finally, try_except. rewrite H.
    cbn [_run_once_except].
    unfold _close_ws, _run_once_finally, bind, get, modify, effect, ret, raise,
      final_self.
    destruct (truthy can_resume); cbn; rewrite Hws; cbn;
      destruct (PrimFloat.is_nan (connected_at g1)); split; reflexivity.
  - intros s resumable. eexists. split; [reflexivity|].
    destruct resumable; split; reflexivity.
Qed.

End InvalidSessionProperties.

Lemma invalid_session_clears_session_witness :
  _session_id (final_self ((_run_once_throttle ;; _run_once_try)
                             fresh_gateway invalidating_world))
  = JStr "abc"
  /\ outcome (_run_once fresh_gateway invalidating_world) = Return true
  /\ _seq (final_self (_run_once fresh_gateway invalidating_world)) = JNull
  /\ _session_id (final_self (_run_once fresh_gateway invalidating_world)) = JNull.
Proof.
  split; [vm_compute; reflexivity|].
  pose proof (@invalid_session_clears_session sample_platform
                fresh_gateway invalidating_world (JBool false)
                (final_self ((_run_once_throttle ;; _run_once_try)
                               fresh_gateway invalidating_world))
                (final_world ((_run_once_throttle ;; _run_once_try)
                                fresh_gateway invalidating_world))) as H.
  cbv zeta in H. cbn [truthy] in H.
  destruct H as (Hr & (Hseq & Hsid) & _); [vm_compute; reflexivity|].
  repeat split; assumption.
Defined.

(** ** The backoff *)

Section BackoffProperties.

Context {platform : Platform}.

(** No time is less than 30 seconds after an absent one. *)
Lemma nan_is_never_recent (now last : float) :
  PrimFloat.is_nan last = true ->
  PrimFloat.ltb (PrimFloat.sub now last) 30%float = false.
Proof.
  unfold PrimFloat.is_nan. rewrite eqb_spec, ltb_spec, sub_spec.
  destruct (Prim2SF last) as [s|s| |s m e] eqn:E.
  - destruct s; discriminate.
  - destruct s; discriminate.
  - intros _. destruct (Prim2SF now) as [s|s| |s m e]; reflexivity.
  - unfold SFeqb, SFcompare. rewrite Z.compare_refl.
    destruct s; rewrite ?Pos.compare_cont_refl; cbn;
      rewrite ?Pos.compare_cont_refl; discriminate.
Qed.

Lemma start_ret {A} (a : A) : leaves_start (ret a).
Proof. intros g w r g' w' H. unfold ret in H. invert_run. split; reflexivity. Qed.

Lemma start_raise {A} (e : Exn) : leaves_start (@raise _ A e).
Proof. intros g w r g' w' H. unfold raise in H. invert_run. split; reflexivity. Qed.

Lemma start_lift {A} (r : Result A) : leaves_start (lift r).
Proof. destruct r; [apply start_ret | apply start_raise]. Qed.

Lemma start_get : leaves_start get.
Proof. intros g w r g' w' H. unfold get in H. invert_run. split; reflexivity. Qed.

Lemma start_effect (e : Effect) : leaves_start (effect e).
Proof. intros g w r g' w' H. unfold effect in H. invert_run. split; reflexivity. Qed.

Lemma start_now : leaves_start _now.
Proof. intros g w r g' w' H. unfold _now in H. invert_run. split; reflexivity. Qed.

Lemma start_modify (f : Gateway -> Gateway) :
  (forall g, _last_run_started_at (f g) = _last_run_started_at g) ->
  leaves_start (modify f).
Proof.
  intros Hf g w r g' w' H. unfold modify in H. invert_run. split; [apply Hf | reflexivity].
Qed.

Lemma start_bind {A B} (m : M A) (k : A -> M B) :
  leaves_start m -> (forall a, leaves_start (k a)) -> leaves_start (bind m k).
Proof.
  intros Hm Hk g w r g' w'. rewrite bind_run.
  destruct (m g w) as [[r0 g0] w0] eqn:E. apply Hm in E. destruct E as (Es & Ec).
  destruct r0 as [a| |]; try (intros H; invert_run; split; assumption).
  intros H. apply Hk in H. destruct H as (Hs & Hc). split; congruence.
Qed.

Lemma start_try_finally {A} (body : M A) (final : M unit) :
  leaves_start body -> leaves_start final -> leaves_start (try_finally body final).
Proof.
  intros Hb Hf g w r g' w'. unfold try_finally.
  destruct (body g w) as [[r0 g0] w0] eqn:E. apply Hb in E. destruct E as (Es & Ec).
  destruct (final g0 w0) as [[r1 g1] w1] eqn:E1. apply Hf in E1.
  destruct E1 as (Es1 & Ec1).
  destruct r0; destruct r1; intros H; invert_run; split; congruence.
Qed.

Lemma start_try_except {A} (body : M A) (handlers : Exn -> option (M A)) :
  leaves_start body ->
  (forall e handler, handlers e = Some handler -> leaves_start handler) ->
  leaves_start (try_except body handlers).
Proof.
  intros Hb Hh g w r g' w'. unfold try_except.
  destruct (body g w) as [[r0 g0] w0] eqn:E. apply Hb in E. destruct E as (Es & Ec).
  destruct r0 as [a|e|]; try (intros H; invert_run; split; assumption).
  destruct (handlers e) as [handler|] eqn:He;
    [|intros H; invert_run; split; assumption].
  intros H. apply (Hh _ _ He) in H. destruct H as (Hs & Hc). split; congruence.
Qed.

Lemma start_send_json (payload : json) : leaves_start (_send_json payload).
Proof.
  unfold leaves_start, _send_json, bind, get, effect, raise. intros g w r g' w'.
  destruct (negb (_ws g)); cbn; [intros H; invert_run; split; reflexivity|].
  destruct (send_errors w) as [|[e|] rest]; intros H; invert_run; split; reflexivity.
Qed.

Lemma start_close_ws (code : _GatewayCloseCode) (message : string) :
  leaves_start (_close_ws code message).
Proof.
  unfold _close_ws. apply start_bind; [apply start_get|intros g].
  destruct (negb (_ws g)); [apply start_raise | apply start_effect].
Qed.

Lemma start_receive_json_payload : leaves_start _receive_json_payload.
Proof.
  intros g w r g' w' H. apply receive_json_payload_frame in H.
  destruct H as ((Hv & _ & _ & _ & Hc & _) & _).
  apply (f_equal _last_run_started_at) in Hv. split; assumption.
Qed.

Lemma start_create_ws : leaves_start _create_ws.
Proof.
  unfold leaves_start, _create_ws. intros g w r g' w'.
  destruct (network w) as [|[e|delivers] rest]; intros H; invert_run;
    split; reflexivity.
Qed.

Ltac start_step :=
  first
    [ apply start_send_json
    | apply start_close_ws
    | apply start_receive_json_payload
    | apply start_create_ws
    | apply start_now
    | apply start_get
    | apply start_effect
    | apply start_lift
    | apply start_ret
    | apply start_raise
    | apply start_modify; intros ?; reflexivity
    | apply start_try_finally
    | apply start_bind; [|intros ?]
    | match goal with
      | |- leaves_start (if ?b then _ else _) => destruct b
      | |- leaves_start (match ?x with _ => _ end) => destruct x
      end ].

Lemma start_handshake : leaves_start _handshake.
Proof. unfold _handshake. repeat start_step. Qed.

Lemma start_poll_events_iteration : leaves_start _poll_events_iteration.
Proof. unfold _poll_events_iteration. repeat start_step. Qed.

Lemma start_poll_loop (fuel : nat) : leaves_start (_poll_loop fuel).
Proof.
  induction fuel as [|fuel IH]; intros g w r g' w'; cbn [_poll_loop];
    destruct (_request_close_event g);
    try (intros H; invert_run; split; reflexivity).
  apply (@start_bind _ _ _ _ start_poll_events_iteration (fun _ => IH)).
Qed.

Lemma start_poll_events : leaves_start _poll_events.
Proof.
  intros g w r g' w' H. unfold _poll_events in H. apply start_poll_loop in H. exact H.
Qed.

Lemma start_run_once_try : leaves_start _run_once_try.
Proof.
  unfold _run_once_try.
  apply start_bind; [apply start_create_ws|intros ?].
  apply start_bind; [apply start_modify; intros ?; reflexivity|intros ?].
  apply start_bind; [apply start_now|intros ?].
  do 4 (apply start_bind; [apply start_modify; intros ?; reflexivity|intros ?]).
  apply start_bind; [apply start_handshake|intros ?].
  apply start_bind; [apply start_get|intros ?].
  do 2 (apply start_bind; [apply start_effect|intros ?]).
  apply start_bind; [|intros ?; apply start_ret].
  apply start_try_finally; [apply start_poll_events | apply start_effect].
Qed.

Lemma start_run_once_except (ex : Exn) (handler : M (option bool)) :
  _run_once_except ex = Some handler -> leaves_start handler.
Proof.
  destruct ex; cbn; intros H; inversion H; subst; clear H; repeat start_step.
Qed.

Lemma start_run_once_finally : leaves_start _run_once_finally.
Proof. unfold _run_once_finally. repeat start_step. Qed.

(** The throttle notes the start of the attempt: the reading of the clock
    that follows the one it compares. *)
Lemma run_once_throttle_start (g : Gateway) (w : World) :
  _last_run_started_at (final_self (_run_once_throttle g w))
  = perf_counter w (S (reads w))
  /\ perf_counter (final_world (_run_once_throttle g w)) = perf_counter w
  /\ outcome (_run_once_throttle g w) = Return tt.
Proof.
  unfold _run_once_throttle, bind, modify, _now, get, effect, ret,
    final_self, final_world, outcome.
  cbn. destruct (PrimFloat.ltb _ _); cbn.
  - destruct (backoff_next (_backoff g)) as [backoff b]. cbn. repeat split.
  - repeat split.
Qed.

(** The attempt leaves that note as it is, however it ends. *)
Lemma run_once_start (g : Gateway) (w : World) :
  _last_run_started_at (final_self (_run_once g w)) = perf_counter w (S (reads w))
  /\ perf_counter (final_world (_run_once g w)) = perf_counter w.
Proof.
  destruct (run_once_throttle_start g w) as (Hs & Hc & Hr).
  unfold _run_once. rewrite bind_run.
  destruct (_run_once_throttle g w) as [[r0 g0] w0].
  unfold final_self, final_world, outcome in Hs, Hc, Hr. cbn in Hs, Hc, Hr. subst r0.
  match goal with
  | |- context [bind ?m ?k g0 w0] =>
      assert (leaves_start (bind m k)) as Hrest
  end.
  { apply start_bind.
    - apply start_try_finally; [|apply start_run_once_finally].
      apply start_try_except; [apply start_run_once_try|].
      intros e handler. apply start_run_once_except.
    - intros [b|]; apply start_ret. }
  match goal with
  | |- context [bind ?m ?k g0 w0] =>
      destruct (bind m k g0 w0) as [[r1 g1] w1] eqn:E
  end.
  apply Hrest in E. destruct E as (Es & Ec).
  unfold final_self, final_world. cbn. split; congruence.
Qed.

(** What a turn of the supervisor's loop leaves of the backoff's state. *)
Lemma keep_alive_backoff_start (s : Shards.State) :
  Shards.do_not_back_off (Shards._keep_alive_backoff s) = false
  /\ Shards.perf_counter (Shards._keep_alive_backoff s) = Shards.perf_counter s
  /\ (Shards.reads s < Shards.reads (Shards._keep_alive_backoff s))%nat
  /\ Shards.last_start (Shards._keep_alive_backoff s)
     = Shards.perf_counter s (Nat.pred (Shards.reads (Shards._keep_alive_backoff s))).
Proof.
  unfold Shards._keep_alive_backoff.
  destruct (Shards.do_not_back_off s); cbn; [repeat split; lia|].
  destruct (PrimFloat.ltb _ _); cbn; [|repeat split; lia].
  destruct (backoff_next (Shards.back_off s)); cbn. repeat split; lia.
Qed.

Lemma keep_alive_backoff_trace (s : Shards.State) :
  Shards.trace (Shards._keep_alive_backoff s)
  = ((if negb (Shards.do_not_back_off s)
         && PrimFloat.ltb
              (PrimFloat.sub (Shards.perf_counter s (Shards.reads s))
                 (Shards.last_start s))
              30%float
      then [Shards.sleep (fst (backoff_next (Shards.back_off s)))]
      else []) ++ Shards.trace s)%list.
Proof.
  unfold Shards._keep_alive_backoff.
  destruct (Shards.do_not_back_off s); cbn; [reflexivity|].
  destruct (PrimFloat.ltb _ _); cbn; [|reflexivity].
  destruct (backoff_next (Shards.back_off s)); reflexivity.
Qed.

Lemma keep_alive_iteration_flag (dispatcher : bool) (attempt : Shards.Attempt)
    (s s' : Shards.State) :
  Shards._keep_alive_iteration dispatcher attempt s = Shards.continue s' ->
  Shards.do_not_back_off s'
  = match attempt_raises attempt with
    | Some (Shards.GatewayInvalidSessionError _)
    | Some Shards.GatewayMustReconnectError => true
    | _ => false
    end
  /\ Shards.last_start s' = Shards.last_start (Shards._keep_alive_backoff s)
  /\ Shards.perf_counter s' = Shards.perf_counter s
  /\ Shards.reads s' = Shards.reads (Shards._keep_alive_backoff s)
  /\ Shards.back_off s' = Shards.back_off (Shards._keep_alive_backoff s).
Proof.
  destruct (keep_alive_backoff_start s) as (Hflag & Hclock & _).
  unfold Shards._keep_alive_iteration.
  destruct attempt as [seq0 sid0 ex|reconnect_count seq0 sid0 [ex|]];
    cbn [attempt_raises];
    try destruct (dispatcher && (reconnect_count =? 0));
    try (destruct ex as [| |[|]| |code| | |]; cbn [Shards._keep_alive_except];
         try destruct (code_in code Shards.fatal_codes));
    intros H; inversion H; subst; clear H; cbn; repeat split; assumption.
Qed.

(** C5, as the code has it.

    In [Gateway._run_once] the throttle waits for the next backoff delay
    exactly when the clock reads less than 30 seconds more than
    [_last_run_started_at], and so never on the first attempt, where that
    is absent.  The throttle then stores the next reading of the clock
    there, and the rest of the attempt leaves it alone: whatever ended an
    attempt, the attempt after it waits exactly when it comes less than 30
    seconds after the start of that one.

    In the supervisor loop [_keep_alive] the backoff sleep is taken exactly
    when [do_not_back_off] is unset and the clock reads less than 30
    seconds more than [last_start].  Every turn clears the flag and stores
    the start of its attempt in [last_start]; the flag is set on entry, and
    again by an invalid session and by a reconnect directive, and by
    nothing else.  So the first attempt and the attempt after either of
    these sleep no backoff, while after a close by the server that is not
    fatal the flag is unset, and the next attempt sleeps the backoff delay
    exactly when it comes less than 30 seconds after the start of the one
    the server closed. *)
Theorem backoff_only_on_quick_restart :
  (forall (g : Gateway) (w : World),
      trace (final_world (_run_once_throttle g w))
      = ((if PrimFloat.ltb
               (PrimFloat.sub (perf_counter w (reads w)) (_last_run_started_at g))
               30%float
          then [wait_for (fst (backoff_next (_backoff g)));
                create_task close_event_wait]
          else []) ++ trace w)%list)
  /\ (forall (g : Gateway) (w : World),
         PrimFloat.is_nan (_last_run_started_at g) = true ->
         trace (final_world (_run_once_throttle g w)) = trace w)
  /\ (forall activity idle_since is_afk status intents threshold id count token,
         _last_run_started_at
           (__init__ activity idle_since is_afk status intents threshold id count token)
         = nan)
  /\ (forall (g : Gateway) (w : World),
         let r := _run_once g w in
         _last_run_started_at (final_self r) = perf_counter w (S (reads w))
         /\ perf_counter (final_world r) = perf_counter w
         /\ trace (final_world (_run_once_throttle (final_self r) (final_world r)))
            = ((if PrimFloat.ltb
                     (PrimFloat.sub (perf_counter w (reads (final_world r)))
                        (perf_counter w (S (reads w))))
                     30%float
                then [wait_for (fst (backoff_next (_backoff (final_self r))));
                      create_task close_event_wait]
                else []) ++ trace (final_world r))%list)
  /\ (forall s : Shards.State,
         Shards.trace (Shards._keep_alive_backoff s)
         = ((if negb (Shards.do_not_back_off s)
                && PrimFloat.ltb
                     (PrimFloat.sub (Shards.perf_counter s (Shards.reads s))
                        (Shards.last_start s))
                     30%float
             then [Shards.sleep (fst (backoff_next (Shards.back_off s)))]
             else []) ++ Shards.trace s)%list)
  /\ (forall s : Shards.State,
         Shards.do_not_back_off (Shards._keep_alive_backoff s) = false
         /\ Shards.perf_counter (Shards._keep_alive_backoff s) = Shards.perf_counter s
         /\ (Shards.reads s < Shards.reads (Shards._keep_alive_backoff s))%nat
         /\ Shards.last_start (Shards._keep_alive_backoff s)
            = Shards.perf_counter s
                (Nat.pred (Shards.reads (Shards._keep_alive_backoff s))))
  /\ (forall dispatcher seq session_id clock,
         Shards.do_not_back_off
           (Shards._keep_alive_start dispatcher seq session_id clock) = true)
  /\ (forall (s : Shards.State) (ex : Shards.Exn),
         (exists can_resume, ex = Shards.GatewayInvalidSessionError can_resume)
         \/ ex = Shards.GatewayMustReconnectError ->
         exists s',
           Shards._keep_alive_except ex s = Shards.continue s'
           /\ Shards.do_not_back_off s' = true)
  /\ (forall (s : Shards.State) (close_code : option Z),
         code_in close_code Shards.fatal_codes = false ->
         Shards._keep_alive_except
           (Shards.GatewayServerClosedConnectionError close_code) s
         = Shards.continue s)
  /\ (forall (dispatcher : bool) (attempt : Shards.Attempt) (s s' : Shards.State),
         Shards._keep_alive_iteration dispatcher attempt s = Shards.continue s' ->
         Shards.do_not_back_off s'
         = match attempt_raises attempt with
           | Some (Shards.GatewayInvalidSessionError _)
           | Some Shards.GatewayMustReconnectError => true
           | _ => false
           end
         /\ Shards.last_start s'
            = Shards.perf_counter s (Nat.pred (Shards.reads s'))
         /\ Shards.perf_counter s' = Shards.perf_counter s)
  /\ (forall (dispatcher : bool) (attempt : Shards.Attempt) (s : Shards.State)
             (close_code : option Z),
         attempt_raises attempt
         = Some (Shards.GatewayServerClosedConnectionError close_code) ->
         code_in close_code Shards.fatal_codes = false ->
         exists s',
           Shards._keep_alive_iteration dispatcher attempt s = Shards.continue s'
           /\ Shards.last_start s'
              = Shards.perf_counter s (Nat.pred (Shards.reads s'))
           /\ Shards.trace (Shards._keep_alive_backoff s')
              = ((if PrimFloat.ltb
                       (PrimFloat.sub (Shards.perf_counter s (Shards.reads s'))
                          (Shards.last_start s'))
                       30%float
                  then [Shards.sleep (fst (backoff_next (Shards.back_off s')))]
                  else []) ++ Shards.trace s')%list).
Proof.
  assert (forall (g : Gateway) (w : World),
             trace (final_world (_run_once_throttle g w))
             = (throttle_trace g w ++ trace w)%list) as Hthrottle.
  { intros g w.
    destruct (run_once_throttle_run g w) as (g' & w' & -> & _ & _ & _ & Htr).
    exact Htr. }
  assert (forall (dispatcher : bool) (attempt : Shards.Attempt) (s s' : Shards.State),
             Shards._keep_alive_iteration dispatcher attempt s = Shards.continue s' ->
             Shards.do_not_back_off s'
             = match attempt_raises attempt with
               | Some (Shards.GatewayInvalidSessionError _)
               | Some Shards.GatewayMustReconnectError => true
               | _ => false
               end
             /\ Shards.last_start s'
                = Shards.perf_counter s (Nat.pred (Shards.reads s'))
             /\ Shards.perf_counter s' = Shards.perf_counter s) as Hturn.
  { intros dispatcher attempt s s' H.
    destruct (keep_alive_iteration_flag _ _ _ H) as (Hflag & Hlast & Hclock & Hreads & _).
    destruct (keep_alive_backoff_start s) as (_ & _ & _ & Hstart).
    repeat split; try assumption. rewrite Hlast, Hreads. exact Hstart. }
  split; [exact Hthrottle|].
  split.
  { intros g w Hnan. rewrite Hthrottle. unfold throttle_trace.
    rewrite (nan_is_never_recent _ _ Hnan). reflexivity. }
  split; [reflexivity|].
  split.
  { intros g w. cbv zeta. destruct (run_once_start g w) as (Hs & Hc).
    split; [exact Hs|]. split; [exact Hc|].
    rewrite Hthrottle. unfold throttle_trace. rewrite Hs, Hc. reflexivity. }
  split; [exact keep_alive_backoff_trace|].
  split; [exact keep_alive_backoff_start|].
  split; [intros dispatcher seq session_id clock; destruct dispatcher; reflexivity|].
  split.
  { intros s ex [(can_resume & ->)| ->]; cbn; eexists; split; reflexivity. }
  split.
  { intros s close_code Hcode. cbn. rewrite Hcode. reflexivity. }
  split; [exact Hturn|].
  intros dispatcher attempt s close_code Hraises Hcode.
  assert (exists s', Shards._keep_alive_iteration dispatcher attempt s
                     = Shards.continue s') as (s' & Hs').
  { unfold Shards._keep_alive_iteration.
    destruct attempt as [seq0 sid0 ex|reconnect_count seq0 sid0 [ex|]];
      cbn [attempt_raises] in Hraises; inversion Hraises; subst;
      cbn [Shards._keep_alive_except]; rewrite Hcode; eexists; reflexivity. }
  exists s'. split; [exact Hs'|].
  destruct (Hturn _ _ _ _ Hs') as (Hflag & Hlast & Hclock).
  split; [exact Hlast|].
  rewrite keep_alive_backoff_trace, Hflag, Hraises, Hclock. reflexivity.
Qed.

End BackoffProperties.

(** C5, as the spec has it, fails after a server-initiated reconnectable
    close: the supervisor restarts within 30 seconds of the previous start
    and sleeps the delay the backoff returns, which on a random draw of one
    half is one second, not zero.  Nor does [Gateway._run_once] skip the
    throttle after a reconnect directive: the attempt that follows it
    within 30 seconds waits. *)
Lemma backoff_after_server_close :
  (exists s,
      Shards._keep_alive (platform := sample_platform) false server_closes
        JNull JNull sample_clock
      = Shards.continue s
      /\ Shards.trace s
         = [Shards.spin_up;
            Shards.sleep (fst (ExponentialBackOff_next (@new_backoff sample_platform)));
            Shards.spin_up])
  /\ fst (ExponentialBackOff_next (@new_backoff sample_platform)) = 1%float
  /\ PrimFloat.ltb 0%float (fst (ExponentialBackOff_next (@new_backoff sample_platform)))
     = true
  /\ (let first := _run_once fresh_gateway reconnecting_world in
      outcome first = Return true
      /\ existsb (fun e => match e with
                           | ws_close 3000 "reconnecting" => true
                           | _ => false
                           end) (trace (final_world first)) = true
      /\ trace (final_world (_run_once_throttle (final_self first) (final_world first)))
         = wait_for (fst (ExponentialBackOff_next (@new_backoff sample_platform)))
             :: create_task close_event_wait :: trace (final_world first)).
Proof.
  split; [|split; [|split]].
  - eexists. split; vm_compute; reflexivity.
  - vm_compute. reflexivity.
  - vm_compute. reflexivity.
  - vm_compute. repeat split.
Qed.

(** * More properties of the gateway *)

(** ** Receiving *)

Section MoreReceiveProperties.

Context {platform : Platform}.

(** X1: on an open websocket the frame that arrives decides how receiving
    ends.  A socket with nothing left, or a CLOSING or CLOSED message,
    raises [_SocketClosed]; a PING, PONG or ERROR message raises the
    gateway error for an unexpected websocket exception; text that is not
    JSON raises [ValueError]; a JSON text is returned as decoded. *)
Theorem receive_payload_by_frame (g : Gateway) (w : World) :
  _ws g = true ->
  match frames w with
  | [] | CLOSING :: _ | CLOSED :: _ =>
      outcome (_receive_json_payload g w) = Raise _SocketClosed
  | PING :: _ | PONG :: _ | ERROR :: _ =>
      outcome (_receive_json_payload g w)
      = Raise (GatewayError Unexpected_websocket_exception)
  | TEXT (Malformed _) :: _ =>
      outcome (_receive_json_payload g w) = Raise ValueError
  | TEXT (Doc j) :: _ =>
      outcome (_receive_json_payload g w) = Return j
  | BINARY _ :: _ | CLOSE _ :: _ => True
  end.
Proof.
  intros Hws. unfold outcome, _receive_json_payload. rewrite bind_run, receive_raw_run, Hws.
  destruct (frames w) as [|m rest]; [reflexivity|].
  destruct m as [[j|raw]| | | | | | |]; try reflexivity; exact I.
Qed.

(** X2: receiving a payload, however it ends, assigns no attribute but
    [last_message_received] and [_zlib], makes no traced call (it sends
    nothing and schedules nothing) and leaves the network and the pending
    transport errors alone. *)
Theorem receive_leaves_the_rest (g : Gateway) (w : World) :
  let r := _receive_json_payload g w in
  receive_view (final_self r) = receive_view g
  /\ trace (final_world r) = trace w
  /\ send_errors (final_world r) = send_errors w
  /\ network (final_world r) = network w
  /\ outcome r <> OutOfFuel.
Proof.
  cbv zeta. destruct (_receive_json_payload g w) as [[r g'] w'] eqn:E.
  apply receive_json_payload_frame in E.
  destruct E as ((Hv & Ht & Hs & Hn & _) & Hr). repeat split; assumption.
Qed.

(** X3: whenever a payload is received on an open websocket, also when the
    frame makes the method raise, [last_message_received] is the last
    reading of the clock the method took. *)
Theorem receive_notes_the_time (g : Gateway) (w : World) :
  _ws g = true ->
  let r := _receive_json_payload g w in
  (reads w < reads (final_world r))%nat
  /\ last_message_received (final_self r)
     = perf_counter w (Nat.pred (reads (final_world r))).
Proof.
  intros Hws. cbv zeta.
  unfold final_self, final_world, _receive_json_payload.
  rewrite bind_run, receive_raw_run, Hws. cbn [negb].
  destruct (frames w) as [|m rest] eqn:Hframes.
  - cbn. split; [lia | reflexivity].
  - destruct m as [[j|raw]|data| | | | | |]; cbn -[_receive_zlib_message];
      try (split; [lia | reflexivity]).
    + unfold _receive_zlib_message. rewrite !bind_run, receive_zlib_loop_run.
      destruct (endswith data ZLIB_SUFFIX).
      * cbn. destruct (_zlib g) as [z|]; cbn; [|split; [lia | reflexivity]].
        destruct (decompress z data) as [[[j|raw]|e] z']; cbn;
          split; try lia; reflexivity.
      * rewrite receive_raw_run. cbn. rewrite Hws. cbn.
        destruct rest as [|m' rest']; [|destruct m' as [[j|raw]| | | | | | |]]; cbn;
          split; try lia; reflexivity.
    + unfold bind, ws_close_code, raise. cbn. rewrite Hws. cbn.
      split; [lia | reflexivity].
Qed.

End MoreReceiveProperties.

Lemma receive_payload_by_frame_witness :
  outcome (_receive_json_payload open_gateway (world_with [])) = Raise _SocketClosed.
Proof. exact (receive_payload_by_frame open_gateway (world_with []) eq_refl). Defined.

Lemma receive_notes_the_time_witness :
  (0 < reads (final_world (_receive_json_payload open_gateway rejecting_world)))%nat
  /\ last_message_received
       (final_self (_receive_json_payload open_gateway rejecting_world))
     = sample_clock
         (Nat.pred (reads (final_world (_receive_json_payload open_gateway
                                          rejecting_world)))).
Proof.
  exact (receive_notes_the_time open_gateway rejecting_world eq_refl).
Defined.

(** ** The handshake and the presence *)

Section MoreHandshakeProperties.

Context {platform : Platform}.

(** X4: when the first payload is not HELLO, the handshake raises the
    gateway error that names the opcode received, sends nothing, and
    leaves [heartbeat_interval] and the session as they were. *)
Theorem handshake_rejects_other_opcodes (g : Gateway) (w : World)
    (message : json) (g1 : Gateway) (w1 : World) (o : json) :
  _receive_json_payload g w = (Return message, g1, w1) ->
  getitem message "op" = Ok o ->
  eq_int o (opcode_value HELLO) = false ->
  let r := _handshake g w in
  outcome r = Raise (GatewayError (Expected_HELLO o))
  /\ trace (final_world r) = trace w
  /\ heartbeat_interval (final_self r) = heartbeat_interval g
  /\ _seq (final_self r) = _seq g
  /\ _session_id (final_self r) = _session_id g.
Proof.
  intros Hrecv Hop Hhello. cbv zeta.
  pose proof (receive_json_payload_frame _ _ Hrecv) as ((Hv & Ht & _) & _).
  unfold _handshake. rewrite bind_run, Hrecv, bind_run, Hop. cbn [lift ret].
  rewrite Hhello. cbn.
  repeat split; try assumption;
    [ apply (f_equal heartbeat_interval) in Hv
    | apply (f_equal _seq) in Hv
    | apply (f_equal _session_id) in Hv ]; exact Hv.
Qed.

(** X5: the IDENTIFY frame always builds.  It carries the token, compress
    false, the large threshold, the user agent's properties and the shard
    pair; it carries intents exactly when the gateway has intents, and a
    presence, the one built from the stored fields, exactly when one of
    the four stored presence fields is not [None]. *)
Theorem identify_payload_fields (g : Gateway) :
  exists d,
    identify_payload g = Ok (JObj [("op", JInt 2); ("d", JObj d)])
    /\ assoc "token" d = Some (JStr (_token g))
    /\ assoc "compress" d = Some (JBool false)
    /\ assoc "large_threshold" d = Some (JInt (large_threshold g))
    /\ assoc "properties" d = Some websocket_triplet
    /\ assoc "shard" d = Some (JArr [JInt (_shard_id g); JInt (_shard_count g)])
    /\ assoc "intents" d = option_map JInt (_intents g)
    /\ match assoc "presence" d with
       | Some presence =>
           _build_presence_payload g UNSET UNSET py_UNSET py_UNSET = Ok presence
           /\ any_presence g = true
       | None => any_presence g = false
       end
    /\ (any_presence g = false <->
        _activity g = None /\ _idle_since g = None
        /\ _is_afk g = None /\ _status g = None).
Proof.
  assert (any_presence g = false <->
          _activity g = None /\ _idle_since g = None
          /\ _is_afk g = None /\ _status g = None) as Hany.
  { unfold any_presence.
    destruct (_activity g), (_idle_since g), (_is_afk g), (_status g);
      split; try discriminate; try (intros (? & ? & ? & ?); discriminate);
      repeat split. }
  unfold identify_payload. destruct (stored_presence_builds g) as (presence & Hp).
  rewrite Hp.
  destruct (_intents g), (any_presence g); cbn; eexists;
    repeat split; try reflexivity; try apply Hany; auto.
Qed.

(** X6: with a status (or none) in the builder's [status] parameter and an
    activity (or none) in its [activity] parameter, the presence builder
    never raises, and what it builds from arguments is what it builds,
    without arguments, from an object that stores them. *)
Theorem presence_arguments_as_stored (g : Gateway)
    (idle_since : Unset (option datetime)) (is_afk : Unset (option bool))
    (status : Unset (option PresenceStatus))
    (activity : Unset (option Activity)) :
  let stored :=
    set_status (or_else status (_status g))
      (set_activity (or_else activity (_activity g))
         (set_is_afk (or_else is_afk (_is_afk g))
            (set_idle_since (or_else idle_since (_idle_since g)) g))) in
  _build_presence_payload g idle_since is_afk
    (status_object status) (activity_object activity)
  = _build_presence_payload stored UNSET UNSET py_UNSET py_UNSET
  /\ exists payload,
      _build_presence_payload stored UNSET UNSET py_UNSET py_UNSET = Ok payload.
Proof.
  cbv zeta. split.
  - unfold _build_presence_payload.
    destruct idle_since as [|[d|]], is_afk as [|[b|]], status as [|[s|]],
      activity as [|[a|]]; cbn;
      destruct (_status g), (_activity g); reflexivity.
  - apply stored_presence_builds.
Qed.

(** What [update_presence] comes to: build, send, store. *)
Lemma update_presence_run (g : Gateway) (w : World)
    (idle_since : Unset (option datetime)) (is_afk : Unset bool)
    (activity : Unset (option Activity)) (status : Unset PresenceStatus) :
  update_presence idle_since is_afk activity status g w =
  match _build_presence_payload g idle_since (given_some is_afk)
          (activity_object activity) (status_object (given_some status)) with
  | Err e => (Raise e, g, w)
  | Ok payload =>
      if negb (_ws g) then (Raise AttributeError, g, w) else
      let frame := JObj [("op", op PRESENCE_UPDATE); ("d", payload)] in
      let w1 := set_trace (send_str frame :: trace w) w in
      let stored :=
        set_status (or_else (given_some status) (_status g))
          (set_activity (or_else activity (_activity g))
             (set_is_afk (or_else (given_some is_afk) (_is_afk g))
                (set_idle_since (or_else idle_since (_idle_since g)) g))) in
      match send_errors w with
      | [] => (Return tt, stored, w1)
      | None :: rest => (Return tt, stored, set_send_errors rest w1)
      | Some e :: rest => (Raise (transport_exn e), g, set_send_errors rest w1)
      end
  end.
Proof.
  unfold update_presence. rewrite bind_get, bind_run.
  destruct (_build_presence_payload g idle_since (given_some is_afk)
              (activity_object activity) (status_object (given_some status)))
    as [payload|e]; cbn [lift ret raise]; [|reflexivity].
  unfold _send_json, bind, get, effect, raise, modify, ret. cbn.
  destruct (_ws g); cbn; [|reflexivity].
  destruct (send_errors w) as [|[e|] rest]; reflexivity.
Qed.

(** X7: [update_presence] is idempotent on the stored presence.  When a
    call returns, the same call made again, if it returns, leaves the
    gateway object as the first call left it; and when the activity is left
    unset it sends the same frame again. *)
Theorem update_presence_twice (g : Gateway) (w : World)
    (idle_since : Unset (option datetime)) (is_afk : Unset bool)
    (activity : Unset (option Activity)) (status : Unset PresenceStatus) :
  match update_presence idle_since is_afk activity status g w with
  | (Return _, g1, w1) =>
      match update_presence idle_since is_afk activity status g1 w1 with
      | (Return _, g2, w2) =>
          g2 = g1
          /\ (activity = UNSET ->
              exists frame,
                trace w1 = send_str frame :: trace w
                /\ trace w2 = send_str frame :: trace w1)
      | _ => True
      end
  | _ => True
  end.
Proof.
  rewrite update_presence_run.
  destruct (_build_presence_payload g idle_since (given_some is_afk)
              (activity_object activity) (status_object (given_some status)))
    as [payload|e] eqn:Hbuild; [|exact I].
  destruct (_ws g) eqn:Hws; cbn [negb]; [|exact I]. cbv zeta.
  set (g1 := set_status (or_else (given_some status) (_status g))
               (set_activity (or_else activity (_activity g))
                  (set_is_afk (or_else (given_some is_afk) (_is_afk g))
                     (set_idle_since (or_else idle_since (_idle_since g)) g)))).
  assert (set_status (or_else (given_some status) (_status g1))
            (set_activity (or_else activity (_activity g1))
               (set_is_afk (or_else (given_some is_afk) (_is_afk g1))
                  (set_idle_since (or_else idle_since (_idle_since g1)) g1)))
          = g1) as Hagain
    by (subst g1; destruct idle_since, is_afk, activity, status; reflexivity).
  assert (activity = UNSET ->
          _build_presence_payload g1 idle_since (given_some is_afk)
            (activity_object activity) (status_object (given_some status))
          = Ok payload) as Hsame.
  { intros ->. rewrite <- Hbuild. subst g1. unfold _build_presence_payload.
    destruct idle_since, is_afk, status; reflexivity. }
  assert (_ws g1 = true) as Hws1 by exact Hws.
  destruct (send_errors w) as [|[e|] rest] eqn:Hsend; try exact I;
    rewrite update_presence_run;
    destruct (_build_presence_payload g1 idle_since (given_some is_afk)
                (activity_object activity) (status_object (given_some status)))
      as [payload'|e'] eqn:Hbuild'; try exact I;
    rewrite Hws1, Hagain; cbn [negb]; cbv zeta; cbn; rewrite ?Hsend.
  - split; [reflexivity|]. intros Hact. specialize (Hsame Hact).
    assert (payload' = payload) as -> by congruence.
    eexists; split; reflexivity.
  - destruct rest as [|[e|] rest']; try exact I;
      (split; [reflexivity|]); intros Hact; specialize (Hsame Hact);
      assert (payload' = payload) as -> by congruence;
      eexists; split; reflexivity.
Qed.

(** X8: [update_presence] hands its [activity] to the builder's [status]
    parameter and its [status] to the builder's [activity] parameter.  A
    call that gives a status, or an activity object, therefore raises
    [AttributeError] in the builder: nothing is sent and nothing stored. *)
Theorem update_presence_misplaced_arguments (g : Gateway) (w : World)
    (idle_since : Unset (option datetime)) (is_afk : Unset bool) :
  (forall (activity : Unset (option Activity)) (status : PresenceStatus),
      update_presence idle_since is_afk activity (Given status) g w
      = (Raise AttributeError, g, w))
  /\ (forall (activity : Activity) (status : Unset PresenceStatus),
         update_presence idle_since is_afk (Given (Some activity)) status g w
         = (Raise AttributeError, g, w)).
Proof.
  split.
  - intros activity status. unfold update_presence. rewrite bind_get, bind_run.
    unfold _build_presence_payload.
    destruct activity as [|[a|]]; cbn; try reflexivity;
      destruct (_status g); reflexivity.
  - intros activity status. unfold update_presence. rewrite bind_get, bind_run.
    unfold _build_presence_payload.
    destruct status; cbn; try reflexivity.
    destruct (_activity g); reflexivity.
Qed.

End MoreHandshakeProperties.

Lemma handshake_rejects_other_opcodes_witness :
  outcome (_handshake open_gateway impolite_world)
  = Raise (GatewayError (Expected_HELLO (JInt 0)))
  /\ trace (final_world (_handshake open_gateway impolite_world)) = []
  /\ heartbeat_interval (final_self (_handshake open_gateway impolite_world))
     = heartbeat_interval open_gateway
  /\ _seq (final_self (_handshake open_gateway impolite_world)) = JNull
  /\ _session_id (final_self (_handshake open_gateway impolite_world)) = JNull.
Proof.
  exact (handshake_rejects_other_opcodes open_gateway impolite_world
           (message := dispatch_frame "READY" 1 (JObj [])) (o := JInt 0)
           eq_refl eq_refl eq_refl).
Defined.

(** ** The heartbeat task *)

Section MoreHeartbeatProperties.

Context {platform : Platform}.

(** What a turn of the heartbeat leaves alone. *)
Lemma pulse_iteration_calls (g : Gateway) (w : World) r g' w' :
  _pulse_iteration g w = (r, g', w') ->
  r <> OutOfFuel
  /\ heartbeat_view g' = heartbeat_view g
  /\ (_zombied g = true -> _zombied g' = true)
  /\ frames w' = frames w /\ network w' = network w
  /\ exists calls,
      trace w' = (calls ++ trace w)%list /\ forallb heartbeat_call calls = true.
Proof.
  unfold _pulse_iteration, _send_json, _close_ws, _now, bind, get, modify, effect,
    ret, raise.
  cbn.
  destruct (PrimFloat.ltb _ _); cbn; destruct (_ws g); cbn.
  - intros H; invert_run. repeat split; try discriminate.
    exists [ws_close 3000 "zombie connection"]. split; reflexivity.
  - intros H; invert_run. repeat split; try discriminate; auto.
    exists []. split; reflexivity.
  - destruct (send_errors w) as [|[e|] rest]; intros H; invert_run;
      (repeat split; try discriminate; auto).
    + eexists [_; _]. split; reflexivity.
    + eexists [_]. split; reflexivity.
    + eexists [_; _]. split; reflexivity.
  - intros H; invert_run. repeat split; try discriminate; auto.
    exists []. split; reflexivity.
Qed.

Lemma pulse_loop_calls (fuel : nat) (g : Gateway) (w : World) r g' w' :
  _pulse_loop fuel g w = (r, g', w') ->
  heartbeat_view g' = heartbeat_view g
  /\ (_zombied g = true -> _zombied g' = true)
  /\ frames w' = frames w /\ network w' = network w
  /\ exists calls,
      trace w' = (calls ++ trace w)%list /\ forallb heartbeat_call calls = true.
Proof.
  revert g w. induction fuel as [|fuel IH]; intros g w; cbn [_pulse_loop];
    destruct (_request_close_event g).
  1-3: intros H; invert_run; repeat split; auto; exists []; split; reflexivity.
  rewrite bind_run.
  destruct (_pulse_iteration g w) as [[r0 g0] w0] eqn:E.
  apply pulse_iteration_calls in E.
  destruct E as (Hr & Hv & Hz & Hf & Hn & calls & Ht & Hc).
  destruct r0 as [[|]| |]; [| | |congruence].
  - intros H. apply IH in H.
    destruct H as (Hv' & Hz' & Hf' & Hn' & calls' & Ht' & Hc').
    repeat split; try congruence; auto.
    exists (calls' ++ calls)%list. split.
    + rewrite Ht', Ht, app_assoc. reflexivity.
    + rewrite forallb_app, Hc', Hc. reflexivity.
  - intros H; unfold ret in H; invert_run. repeat split; auto. exists calls. auto.
  - intros H; invert_run. repeat split; auto. exists calls. auto.
Qed.

(** X9: the heartbeat task keeps to its own.  However long it runs and
    however it ends, [_pulse] assigns no attribute but [_zombied] and
    [last_heartbeat_sent], never clears [_zombied], takes no frame from the
    websocket and opens no connection; every call it makes is the sending
    of a HEARTBEAT frame, the wait for the next beat or the close with code
    3000 of a zombie connection; and a cancellation never leaves it. *)
Theorem pulse_keeps_to_the_heartbeat (fuel : nat) (g : Gateway) (w : World) :
  let r := _pulse fuel g w in
  heartbeat_view (final_self r) = heartbeat_view g
  /\ (_zombied g = true -> _zombied (final_self r) = true)
  /\ frames (final_world r) = frames w
  /\ network (final_world r) = network w
  /\ (exists calls,
         trace (final_world r) = (calls ++ trace w)%list
         /\ forallb heartbeat_call calls = true)
  /\ outcome r <> Raise CancelledError.
Proof.
  cbv zeta. unfold _pulse, try_except.
  destruct (_pulse_loop fuel g w) as [[r0 g0] w0] eqn:E.
  apply pulse_loop_calls in E. destruct E as (Hv & Hz & Hf & Hn & Hc).
  destruct r0 as [[]|e|]; [| destruct e |]; cbn; repeat split; auto; discriminate.
Qed.

End MoreHeartbeatProperties.

(** ** The poll loop *)

Section CloseEvent.

Context {platform : Platform}.

Lemma leaves_ret {A} (a : A) : leaves_close_event (ret a).
Proof. intros g w r g' w' H. unfold ret in H. invert_run. reflexivity. Qed.

Lemma leaves_raise {A} (e : Exn) : leaves_close_event (@raise _ A e).
Proof. intros g w r g' w' H. unfold raise in H. invert_run. reflexivity. Qed.

Lemma leaves_lift {A} (r : Result A) : leaves_close_event (lift r).
Proof. destruct r; [apply leaves_ret | apply leaves_raise]. Qed.

Lemma leaves_get : leaves_close_event get.
Proof. intros g w r g' w' H. unfold get in H. invert_run. reflexivity. Qed.

Lemma leaves_effect (e : Effect) : leaves_close_event (effect e).
Proof. intros g w r g' w' H. unfold effect in H. invert_run. reflexivity. Qed.

Lemma leaves_now : leaves_close_event _now.
Proof. intros g w r g' w' H. unfold _now in H. invert_run. reflexivity. Qed.

Lemma leaves_modify (f : Gateway -> Gateway) :
  (forall g, _request_close_event (f g) = _request_close_event g) ->
  leaves_close_event (modify f).
Proof. intros Hf g w r g' w' H. unfold modify in H. invert_run. apply Hf. Qed.

Lemma leaves_bind {A B} (m : M A) (k : A -> M B) :
  leaves_close_event m -> (forall a, leaves_close_event (k a)) ->
  leaves_close_event (bind m k).
Proof.
  intros Hm Hk g w r g' w'. rewrite bind_run.
  destruct (m g w) as [[r0 g0] w0] eqn:E. apply Hm in E.
  destruct r0 as [a| |]; try (intros H; invert_run; exact E).
  intros H. apply Hk in H. congruence.
Qed.

Lemma leaves_send_json (payload : json) : leaves_close_event (_send_json payload).
Proof.
  intros g w r g' w' H.
  pose proof (send_json_self payload g w) as Hself. rewrite H in Hself.
  cbn in Hself. subst. reflexivity.
Qed.

Lemma leaves_close_ws (code : _GatewayCloseCode) (message : string) :
  leaves_close_event (_close_ws code message).
Proof.
  unfold _close_ws. apply leaves_bind; [apply leaves_get|intros g].
  destruct (negb (_ws g)); [apply leaves_raise | apply leaves_effect].
Qed.

Lemma leaves_receive_json_payload : leaves_close_event _receive_json_payload.
Proof.
  intros g w r g' w' H. apply receive_json_payload_frame in H.
  destruct H as ((Hv & _) & _).
  apply (f_equal _request_close_event) in Hv. exact Hv.
Qed.

End CloseEvent.

Ltac leaves_step :=
  first
    [ apply leaves_send_json
    | apply leaves_close_ws
    | apply leaves_receive_json_payload
    | apply leaves_now
    | apply leaves_get
    | apply leaves_effect
    | apply leaves_lift
    | apply leaves_ret
    | apply leaves_raise
    | apply leaves_modify; intros ?; reflexivity
    | apply leaves_bind; [|intros ?]
    | match goal with
      | |- leaves_close_event (if ?b then _ else _) => destruct b
      | |- leaves_close_event (match ?x with _ => _ end) => destruct x
      end ].

Section MorePollProperties.

Context {platform : Platform}.

Lemma leaves_handshake : leaves_close_event _handshake.
Proof. unfold _handshake. repeat leaves_step. Qed.

Lemma leaves_poll_events_iteration : leaves_close_event _poll_events_iteration.
Proof. unfold _poll_events_iteration. repeat leaves_step. Qed.

(** With the close event unset the poll loop goes on until a turn raises. *)
Lemma poll_loop_raises (fuel : nat) (g : Gateway) (w : World) :
  _request_close_event g = false ->
  (List.length (frames w) < fuel)%nat ->
  exists e g' w',
    _poll_loop fuel g w = (Raise e, g', w')
    /\ _request_close_event g' = false.
Proof.
  revert g w. induction fuel as [|fuel IH]; intros g w Hclose Hfuel; [lia|].
  cbn [_poll_loop]. rewrite Hclose, bind_run.
  destruct (_poll_events_iteration g w) as [[r0 g0] w0] eqn:E.
  pose proof (leaves_poll_events_iteration _ _ E) as Hleft.
  pose proof (keeps_poll_events_iteration _ _ E) as (_ & Hr & _).
  destruct r0 as [[]|e|]; [| |congruence].
  - apply takes_a_frame_poll_events_iteration in E.
    apply IH; [congruence | lia].
  - exists e, g0, w0. split; [reflexivity | congruence].
Qed.

(** X10: what a turn of the poll loop does with a payload that is no
    dispatch.  HEARTBEAT (op 1) is answered with the frame [{op: 11}];
    HEARTBEAT_ACK (op 11) stores the time since [last_heartbeat_sent] as
    [heartbeat_latency]; RECONNECT (op 7) raises [_Reconnect];
    INVALID_SESSION (op 9) raises [_InvalidSession] with the payload's [d];
    any other opcode is ignored. *)
Theorem poll_protocol_frames (g : Gateway) (w : World)
    (message : json) (g1 : Gateway) (w1 : World) (n : Z) (data : json) :
  _receive_json_payload g w = (Return message, g1, w1) ->
  getitem message "op" = Ok (JInt n) ->
  getitem message "d" = Ok data ->
  let r := _poll_events_iteration g w in
  if n =? 0 then True
  else if n =? 1 then
    final_self r = g1
    /\ trace (final_world r) = send_str (JObj [("op", JInt 11)]) :: trace w
  else if n =? 11 then
    r = (Return tt,
         set_heartbeat_latency
           (PrimFloat.sub (perf_counter w1 (reads w1)) (last_heartbeat_sent g)) g1,
         set_reads (S (reads w1)) w1)
  else if n =? 7 then r = (Raise _Reconnect, g1, w1)
  else if n =? 9 then r = (Raise (_InvalidSession data), g1, w1)
  else r = (Return tt, g1, w1).
Proof.
  intros Hrecv Hop Hd. cbv zeta.
  pose proof (receive_json_payload_returns _ _ Hrecv) as (Hws & _).
  pose proof (receive_json_payload_frame _ _ Hrecv) as ((Hview & Htrace & _) & _).
  assert (_ws g1 = true) as Hws1
    by (apply (f_equal _ws) in Hview; cbn in Hview; congruence).
  assert (last_heartbeat_sent g1 = last_heartbeat_sent g) as Hsent
    by (apply (f_equal last_heartbeat_sent) in Hview; exact Hview).
  unfold _poll_events_iteration. rewrite bind_run, Hrecv, bind_run, Hop.
  cbn [lift ret]. rewrite bind_run, Hd. cbn [lift ret eq_int opcode_value].
  destruct (n =? 0); [exact I|].
  destruct (n =? 1).
  { destruct (@send_json_run _ (JObj [("op", op HEARTBEAT_ACK)]) g1 w1 Hws1)
      as (Hself & Htr & _).
    rewrite Hself, Htr, Htrace. split; reflexivity. }
  destruct (n =? 11).
  { rewrite bind_now. unfold modify. rewrite Hsent. reflexivity. }
  destruct (n =? 7); [reflexivity|].
  destruct (n =? 9); reflexivity.
Qed.

(** X11: a payload without the key [d] makes the turn raise [KeyError]
    whatever its opcode, before the opcode is looked at; nothing is stored,
    sent or dispatched. *)
Theorem poll_needs_d (g : Gateway) (w : World)
    (fields : list (string * json)) (g1 : Gateway) (w1 : World) (o : json) :
  _receive_json_payload g w = (Return (JObj fields), g1, w1) ->
  assoc "op" fields = Some o ->
  assoc "d" fields = None ->
  _poll_events_iteration g w = (Raise (KeyError "d"), g1, w1)
  /\ trace w1 = trace w
  /\ receive_view g1 = receive_view g.
Proof.
  intros Hrecv Hop Hd.
  pose proof (receive_json_payload_frame _ _ Hrecv) as ((Hview & Htrace & _) & _).
  split; [|split; assumption].
  unfold _poll_events_iteration. rewrite bind_run, Hrecv, bind_run.
  unfold getitem. rewrite Hop, Hd. reflexivity.
Qed.

(** X12: a READY dispatch whose [d] has no [session_id] raises [KeyError]
    after the sequence number has been stored: [seq] is the payload's [s],
    the session identifier and the handshake event are as they were, and
    the event is not passed on. *)
Theorem poll_ready_needs_session_id (g : Gateway) (w : World)
    (message : json) (g1 : Gateway) (w1 : World) (o s : json)
    (d : list (string * json)) :
  _receive_json_payload g w = (Return message, g1, w1) ->
  getitem message "op" = Ok o ->
  eq_int o (opcode_value DISPATCH) = true ->
  getitem message "d" = Ok (JObj d) ->
  getitem message "t" = Ok (JStr "READY") ->
  getitem message "s" = Ok s ->
  assoc "session_id" d = None ->
  let r := _poll_events_iteration g w in
  r = (Raise (KeyError "session_id"), set_seq s g1, w1)
  /\ _session_id (final_self r) = _session_id g
  /\ _handshake_event (final_self r) = _handshake_event g
  /\ trace (final_world r) = trace w.
Proof.
  intros Hrecv Hop Hdispatch Hd Ht Hs Hsid. cbv zeta.
  pose proof (receive_json_payload_frame _ _ Hrecv) as ((Hview & Htrace & _) & _).
  assert (_poll_events_iteration g w
          = (Raise (KeyError "session_id"), set_seq s g1, w1)) as Hrun.
  { unfold _poll_events_iteration. rewrite bind_run, Hrecv, bind_run, Hop.
    cbn [lift ret]. rewrite bind_run, Hd. cbn [lift ret]. rewrite Hdispatch.
    rewrite bind_run, Ht. cbn [lift ret]. rewrite bind_run, Hs. cbn [lift ret].
    rewrite bind_modify. cbn [eq_str String.eqb]. rewrite bind_run.
    unfold getitem at 1. rewrite Hsid. reflexivity. }
  rewrite Hrun. repeat split; cbn.
  - apply (f_equal _session_id) in Hview. exact Hview.
  - apply (f_equal _handshake_event) in Hview. exact Hview.
  - exact Htrace.
Qed.

(** X13: the poll loop returns only on request.  With the close event set
    it returns at once and takes no frame; with the close event unset, and
    nothing else setting it meanwhile, it never returns: it goes on until a
    turn raises, at the latest when the websocket has nothing left. *)
Theorem poll_events_returns_on_request (g : Gateway) (w : World) :
  if _request_close_event g
  then _poll_events g w = (Return tt, g, w)
  else exists e, outcome (_poll_events g w) = Raise e.
Proof.
  destruct (_request_close_event g) eqn:Hclose.
  - unfold _poll_events. cbn [_poll_loop]. rewrite Hclose. reflexivity.
  - destruct (@poll_loop_raises (S (List.length (frames w))) g w Hclose)
      as (e & g' & w' & Hrun & _); [lia|].
    exists e. unfold _poll_events. rewrite Hrun. reflexivity.
Qed.

End MorePollProperties.

Lemma poll_protocol_frames_witness :
  final_self (_poll_events_iteration open_gateway heartbeat_request_world)
  = set_last_message_received (sample_clock 0) open_gateway
  /\ trace (final_world (_poll_events_iteration open_gateway heartbeat_request_world))
     = [send_str (JObj [("op", JInt 11)])].
Proof.
  exact (poll_protocol_frames open_gateway heartbeat_request_world
           (message := JObj [("op", JInt 1); ("d", JNull)]) (n := 1) (data := JNull)
           eq_refl eq_refl eq_refl).
Defined.

Lemma poll_needs_d_witness :
  _poll_events_iteration open_gateway bare_ack_world
  = (Raise (KeyError "d"),
     set_last_message_received (sample_clock 0) open_gateway,
     set_reads 1 (world_with []))
  /\ trace (set_reads 1 (world_with [])) = trace bare_ack_world
  /\ receive_view (set_last_message_received (sample_clock 0) open_gateway)
     = receive_view open_gateway.
Proof.
  exact (poll_needs_d open_gateway bare_ack_world
           (fields := [("op", JInt 11)]) (o := JInt 11) eq_refl eq_refl eq_refl).
Defined.

Lemma poll_ready_needs_session_id_witness :
  _poll_events_iteration open_gateway impolite_world
  = (Raise (KeyError "session_id"),
     set_seq (JInt 1) (set_last_message_received (sample_clock 0) open_gateway),
     set_reads 1 (world_with []))
  /\ _session_id (final_self (_poll_events_iteration open_gateway impolite_world))
     = JNull
  /\ _handshake_event (final_self (_poll_events_iteration open_gateway impolite_world))
     = false
  /\ trace (final_world (_poll_events_iteration open_gateway impolite_world)) = [].
Proof.
  exact (poll_ready_needs_session_id open_gateway impolite_world
           (message := dispatch_frame "READY" 1 (JObj [])) (o := JInt 0)
           (s := JInt 1) (d := [])
           eq_refl eq_refl eq_refl eq_refl eq_refl eq_refl eq_refl).
Defined.

(** ** How a connection attempt ends *)

Section MoreAttemptProperties.

Context {platform : Platform}.

Lemma leaves_try_finally {A} (body : M A) (final : M unit) :
  leaves_close_event body -> leaves_close_event final ->
  leaves_close_event (try_finally body final).
Proof.
  intros Hb Hf g w r g' w'. unfold try_finally.
  destruct (body g w) as [[r0 g0] w0] eqn:E. apply Hb in E.
  destruct (final g0 w0) as [[r1 g1] w1] eqn:E1. apply Hf in E1.
  destruct r0; destruct r1; intros H; invert_run; congruence.
Qed.

Lemma leaves_poll_loop (fuel : nat) : leaves_close_event (_poll_loop fuel).
Proof.
  induction fuel as [|fuel IH]; intros g w r g' w'; cbn [_poll_loop];
    destruct (_request_close_event g) eqn:Hclose;
    try (intros H; invert_run; congruence).
  intros H.
  apply (@leaves_bind _ _ _ _ _ leaves_poll_events_iteration (fun _ => IH)) in H.
  congruence.
Qed.

Lemma leaves_poll_events : leaves_close_event _poll_events.
Proof. intros g w r g' w' H. unfold _poll_events in H. apply leaves_poll_loop in H. exact H. Qed.

(** The [try] block from the handshake on leaves the close event alone,
    and with the event unset it does not return: the poll loop goes on
    until something is raised. *)
Lemma leaves_connected :
  leaves_close_event
    (_handshake ;;
     g <- get ;;
     effect (create_task (dispatch g (JStr "CONNECTED") (JObj []))) ;;
     effect (create_task pulse) ;;
     try_finally _poll_events (effect cancel_heartbeat) ;;
     ret (Some false)).
Proof.
  apply leaves_bind; [apply leaves_handshake|intros ?].
  apply leaves_bind; [apply leaves_get|intros ?].
  apply leaves_bind; [apply leaves_effect|intros ?].
  apply leaves_bind; [apply leaves_effect|intros ?].
  apply leaves_bind; [|intros ?; apply leaves_ret].
  apply leaves_try_finally; [apply leaves_poll_events | apply leaves_effect].
Qed.

Lemma connected_never_returns (g : Gateway) (w : World) (a : option bool) :
  _request_close_event g = false ->
  outcome ((_handshake ;;
            g <- get ;;
            effect (create_task (dispatch g (JStr "CONNECTED") (JObj []))) ;;
            effect (create_task pulse) ;;
            try_finally _poll_events (effect cancel_heartbeat) ;;
            ret (Some false)) g w) <> Return a.
Proof.
  intros Hclose. rewrite bind_run.
  destruct (_handshake g w) as [[r0 g0] w0] eqn:E.
  apply leaves_handshake in E.
  destruct r0 as [[]| |]; try discriminate.
  rewrite bind_get, !bind_effect, bind_run. unfold try_finally, _poll_events.
  match goal with
  | |- context [_poll_loop ?fuel ?g1 ?w1] =>
      destruct (@poll_loop_raises _ fuel g1 w1) as (e & g' & w' & -> & _);
        [congruence | cbn; lia |]
  end.
  discriminate.
Qed.

(** The [try] block never returns on its own: it ends in an exception,
    the transport's when no websocket opens, and otherwise one raised with
    the websocket set and the close event clear. *)
Lemma run_once_try_ends (g : Gateway) (w : World) r g1 w1 :
  (_run_once_throttle ;; _run_once_try) g w = (r, g1, w1) ->
  exists ex,
    r = Raise ex
    /\ ((exists e, ex = transport_exn e)
        \/ (_ws g1 = true /\ _request_close_event g1 = false)).
Proof.
  rewrite bind_run.
  destruct (run_once_throttle_run g w) as (ga & wa & -> & _).
  intros H. pose proof (run_once_try_refused ga wa) as Href.
  destruct (network wa) as [|[e|delivers] rest] eqn:Hnet.
  - destruct Href as (e & w' & Href & _). rewrite Href in H. invert_run.
    eexists. split; [reflexivity|]. left. eexists. reflexivity.
  - destruct Href as (e' & w' & Href & _). rewrite Href in H. invert_run.
    eexists. split; [reflexivity|]. left. eexists. reflexivity.
  - clear Href. unfold _run_once_try in H. rewrite bind_run in H.
    unfold _create_ws in H. rewrite Hnet in H.
    rewrite bind_modify, bind_now, !bind_modify in H.
    pose proof (leaves_connected _ _ H) as Hclose.
    pose proof (keeps_connected _ _ H) as (Hv & Hr & _).
    apply (f_equal _ws) in Hv. cbn in Hv, Hclose.
    destruct r as [a|ex|]; [| |congruence].
    + exfalso. refine (@connected_never_returns _ _ a _ _).
      2:{ rewrite H. reflexivity. }
      reflexivity.
    + exists ex. split; [reflexivity|]. right. split; assumption.
Qed.

(** What the [except] clauses make of the exception of the [try] block. *)
Lemma run_once_handle (g : Gateway) (w : World) ex g1 w1 :
  (_run_once_throttle ;; _run_once_try) g w = (Raise ex, g1, w1) ->
  (_run_once_throttle ;; try_except _run_once_try _run_once_except) g w =
  match _run_once_except ex with
  | Some handler => handler g1 w1
  | None => (Raise ex, g1, w1)
  end.
Proof.
  rewrite !bind_run. destruct (run_once_throttle_run g w) as (ga & wa & -> & _).
  intros H. unfold try_except. rewrite H. reflexivity.
Qed.

(** What the [finally] clause and the end of [_run_once] make of that. *)
Lemma run_once_finish (g : Gateway) (w : World) r g2 w2 :
  (_run_once_throttle ;; try_except _run_once_try _run_once_except) g w = (r, g2, w2) ->
  r <> OutOfFuel ->
  _run_once g w =
  (match r with
   | Return (Some b) => Return b
   | Return None => Return true
   | Raise e => Raise e
   | OutOfFuel => OutOfFuel
   end,
   set_connected_at nan g2,
   if PrimFloat.is_nan (connected_at g2) then w2
   else set_trace
          (create_task (dispatch g2 (JStr "DISCONNECTED") (JObj [])) :: trace w2) w2).
Proof.
  intros H Hr. unfold _run_once. rewrite bind_run in H. rewrite bind_run.
  destruct (run_once_throttle_run g w) as (ga & wa & Hthrottle & _).
  rewrite Hthrottle in H. rewrite Hthrottle, bind_run. unfold try_finally. rewrite H.
  unfold _run_once_finally.
  destruct r as [[b|]|e|]; try congruence; rewrite bind_get;
    destruct (PrimFloat.is_nan (connected_at g2)); reflexivity.
Qed.

Lemma close_ws_run (code : _GatewayCloseCode) (message : string)
    (g : Gateway) (w : World) :
  _close_ws code message g w =
  if _ws g
  then (Return tt, g, set_trace (ws_close (close_code_value code) message :: trace w) w)
  else (Raise AttributeError, g, w).
Proof. unfold _close_ws. rewrite bind_get. destruct (_ws g); reflexivity. Qed.

(** X14: an attempt that is told to reconnect.  When the [try] block ends
    in [_Reconnect], the attempt resets the backoff, closes the websocket
    with code 3000 and message "reconnecting" and returns [True]; [seq] and
    [session_id] stay, for the next attempt to resume the session. *)
Theorem run_once_reconnect (g : Gateway) (w : World) (g1 : Gateway) (w1 : World) :
  (_run_once_throttle ;; _run_once_try) g w = (Raise _Reconnect, g1, w1) ->
  let r := _run_once g w in
  outcome r = Return true
  /\ _backoff (final_self r) = backoff_reset (_backoff g1)
  /\ _seq (final_self r) = _seq g1
  /\ _session_id (final_self r) = _session_id g1
  /\ exists disconnected,
      trace (final_world r)
      = (disconnected ++ ws_close 3000 "reconnecting" :: trace w1)%list
      /\ forallb (dispatches "DISCONNECTED") disconnected = true.
Proof.
  intros H. cbv zeta.
  destruct (run_once_try_ends _ _ H) as (ex & Hex & [(e & He)|(Hws & _)]).
  { inversion Hex; subst. destruct e; discriminate. }
  pose proof (run_once_handle _ _ H) as Hh.
  remember ((_run_once_throttle ;; try_except _run_once_try _run_once_except) g w)
    as guarded eqn:Hg. cbn [_run_once_except] in Hh.
  rewrite bind_modify, bind_run, close_ws_run in Hh.
  cbn [_ws set_backoff] in Hh. rewrite Hws in Hh. unfold ret in Hh.
  subst guarded. rewrite (run_once_finish _ _ Hh) by discriminate.
  unfold outcome, final_self, final_world. cbn.
  destruct (PrimFloat.is_nan (connected_at g1)); repeat split.
  - exists []. split; reflexivity.
  - eexists [_]. split; reflexivity.
Qed.

(** X15: an attempt dies on what it does not know.  When the [try] block
    ends, with a websocket, in an exception other than a failure of the
    connector, [_InvalidSession], [_Reconnect], [_SocketClosed] or a
    cancellation, the attempt closes the websocket with code 1011 and
    raises the exception again.  A close by the peer is such an exception,
    also when it carries a close code after which a reconnect is allowed:
    the attempt does not look at the error's can-reconnect flag. *)
Theorem run_once_dies_on_other_errors (g : Gateway) (w : World)
    (ex : Exn) (g1 : Gateway) (w1 : World) :
  (_run_once_throttle ;; _run_once_try) g w = (Raise ex, g1, w1) ->
  _ws g1 = true ->
  match ex with
  | ClientConnectorError | _InvalidSession _ | _Reconnect | _SocketClosed
  | CancelledError => True
  | _ =>
      let r := _run_once g w in
      outcome r = Raise ex
      /\ _seq (final_self r) = _seq g1
      /\ _session_id (final_self r) = _session_id g1
      /\ _backoff (final_self r) = _backoff g1
      /\ exists disconnected,
          trace (final_world r)
          = (disconnected ++ ws_close 1011 "unexpected error occurred" :: trace w1)%list
          /\ forallb (dispatches "DISCONNECTED") disconnected = true
  end.
Proof.
  intros H Hws. pose proof (run_once_handle _ _ H) as Hh.
  remember ((_run_once_throttle ;; try_except _run_once_try _run_once_except) g w)
    as guarded eqn:Hg.
  destruct ex; try exact I;
    cbn [_run_once_except is_Exception] in Hh;
    rewrite bind_run, close_ws_run, Hws in Hh; unfold raise in Hh;
    cbv zeta; subst guarded; rewrite (run_once_finish _ _ Hh) by discriminate;
    unfold outcome, final_self, final_world; cbn;
    (destruct (PrimFloat.is_nan (connected_at g1)); repeat split;
     [exists [] | eexists [_]]; split; reflexivity).
Qed.

(** X16: an attempt whose connection is refused.  A failure of the
    connector ends the attempt with [True]; a cancellation passes through;
    any other failure, such as a refused websocket upgrade or a reset
    connection, is raised again after the close with code 1011, and on an
    object that never had a websocket, where there is nothing to close, it
    is [AttributeError] that leaves the attempt instead.  No websocket is
    stored. *)
Theorem run_once_refused_connection (g : Gateway) (w : World)
    (e : TransportError) (rest : list Connect) :
  network w = refused e :: rest ->
  let r := _run_once g w in
  _ws (final_self r) = _ws g
  /\ match e with
     | connector_error => outcome r = Return true
     | cancelled => outcome r = Raise CancelledError
     | _ => outcome r = Raise (if _ws g then transport_exn e else AttributeError)
     end.
Proof.
  intros Hnet. cbv zeta.
  destruct (run_once_throttle_run g w) as (ga & wa & Hthrottle & Hva & Hna & _).
  assert (_ws ga = _ws g) as Hws by (apply (f_equal _ws) in Hva; exact Hva).
  assert ((_run_once_throttle ;; _run_once_try) g w
          = (Raise (transport_exn e), ga,
             set_network rest (set_trace (create_ws :: trace wa) wa))) as H.
  { rewrite bind_run, Hthrottle. unfold _run_once_try. rewrite bind_run.
    unfold _create_ws. rewrite Hna, Hnet. reflexivity. }
  pose proof (run_once_handle _ _ H) as Hh.
  remember ((_run_once_throttle ;; try_except _run_once_try _run_once_except) g w)
    as guarded eqn:Hg.
  destruct e; cbn [transport_exn _run_once_except is_Exception] in Hh;
    try (rewrite bind_run, close_ws_run in Hh);
    unfold ret, raise in Hh; rewrite <- Hws;
    destruct (_ws ga) eqn:Hwsa;
    subst guarded; rewrite (run_once_finish _ _ Hh) by discriminate;
    unfold outcome, final_self; cbn; split; auto.
Qed.

(** X17: an attempt whose socket closes under it.  [body] stands for the
    [try] block together with whatever other tasks do while it waits, a
    call of [close] among them.  When it ends in [_SocketClosed], the
    attempt sends no close frame and returns whether no close was
    requested: [True] to go on, [False] after a request to close.  The
    backoff is left as it is if the connection was no zombie and no close
    was requested, and reset otherwise; [seq] and [session_id] stay.  With
    the [try] block on its own, which is [_run_once], the close event is
    clear when the socket closes. *)
Theorem run_once_socket_closed (body : M (option bool)) (g : Gateway) (w : World)
    (g1 : Gateway) (w1 : World) :
  (_run_once_throttle ;; body) g w = (Raise _SocketClosed, g1, w1) ->
  let r := (_run_once_throttle ;;
            r <- try_finally (try_except body _run_once_except) _run_once_finally ;;
            match r with
            | Some b => ret b
            | None => ret true
            end) g w in
  outcome r = Return (negb (_request_close_event g1))
  /\ _backoff (final_self r)
     = (if negb (_zombied g1) && negb (_request_close_event g1)
        then _backoff g1
        else backoff_reset (_backoff g1))
  /\ _seq (final_self r) = _seq g1
  /\ _session_id (final_self r) = _session_id g1
  /\ (exists disconnected,
         trace (final_world r) = (disconnected ++ trace w1)%list
         /\ forallb (dispatches "DISCONNECTED") disconnected = true)
  /\ (body = _run_once_try ->
      r = _run_once g w /\ _request_close_event g1 = false).
Proof.
  intros H. cbv zeta. split; [|split; [|split; [|split; [|split]]]].
  6:{ intros ->. split; [reflexivity|].
      destruct (run_once_try_ends _ _ H) as (ex & Hex & [(e & He)|(_ & Hclose)]);
        [|exact Hclose].
      inversion Hex; subst. destruct e; discriminate. }
  all: rewrite bind_run in H; rewrite bind_run;
    destruct (run_once_throttle_run g w) as (ga & wa & Hthrottle & _);
    rewrite Hthrottle in H; rewrite Hthrottle, bind_run;
    unfold try_finally, try_except; rewrite H; cbn [_run_once_except];
    rewrite bind_get;
    destruct (_zombied g1), (_request_close_event g1); cbn [negb andb];
    unfold _run_once_finally, bind, get, modify, effect, ret,
      outcome, final_self, final_world; cbn;
    destruct (PrimFloat.is_nan (connected_at g1)); cbn; try reflexivity;
    first [exists []; split; reflexivity | eexists [_]; split; reflexivity].
Qed.

(** X18: an attempt never gives up on its own.  As long as nothing sets
    the close event while it runs, [_run_once] ends within the frames the
    network delivers, and it either raises or returns [True]: [False], the
    answer that ends the loop of [_run], is only returned on a request to
    close. *)
Theorem run_once_never_gives_up (g : Gateway) (w : World) :
  match outcome (_run_once g w) with
  | Return again => again = true
  | Raise _ => True
  | OutOfFuel => False
  end.
Proof.
  destruct ((_run_once_throttle ;; _run_once_try) g w) as [[r1 g1] w1] eqn:H.
  destruct (run_once_try_ends _ _ H) as (ex & -> & Hends).
  pose proof (run_once_handle _ _ H) as Hh.
  remember ((_run_once_throttle ;; try_except _run_once_try _run_once_except) g w)
    as guarded eqn:Hg.
  destruct ex; cbn [_run_once_except is_Exception] in Hh;
    try (destruct (truthy can_resume));
    rewrite ?bind_modify, ?bind_get in Hh;
    try (rewrite bind_run, close_ws_run in Hh; cbn [_ws set_backoff] in Hh;
         destruct (_ws g1));
    try rewrite !bind_modify in Hh;
    unfold ret, raise in Hh;
    try (subst guarded; rewrite (run_once_finish _ _ Hh) by discriminate; exact I);
    try (subst guarded; rewrite (run_once_finish _ _ Hh) by discriminate; reflexivity).
  destruct Hends as [(e & He)|(_ & Hclose)]; [destruct e; discriminate|].
  rewrite Hclose in Hh. cbn [negb] in Hh.
  destruct (negb (_zombied g1) && true); unfold bind, modify in Hh;
    subst guarded; rewrite (run_once_finish _ _ Hh) by discriminate; reflexivity.
Qed.

End MoreAttemptProperties.

Lemma run_once_reconnect_witness :
  let attempt := (_run_once_throttle ;; _run_once_try) fresh_gateway reconnecting_world in
  let r := _run_once fresh_gateway reconnecting_world in
  outcome r = Return true
  /\ _backoff (final_self r) = backoff_reset (_backoff (final_self attempt))
  /\ _seq (final_self r) = _seq (final_self attempt)
  /\ _session_id (final_self r) = _session_id (final_self attempt)
  /\ exists disconnected,
      trace (final_world r)
      = (disconnected ++ ws_close 3000 "reconnecting"
           :: trace (final_world attempt))%list
      /\ forallb (dispatches "DISCONNECTED") disconnected = true.
Proof.
  apply (@run_once_reconnect sample_platform fresh_gateway reconnecting_world
           (final_self ((_run_once_throttle ;; _run_once_try)
                          fresh_gateway reconnecting_world))
           (final_world ((_run_once_throttle ;; _run_once_try)
                           fresh_gateway reconnecting_world))).
  vm_compute. reflexivity.
Defined.

Lemma run_once_dies_on_other_errors_witness :
  outcome (_run_once fresh_gateway closing_world)
  = Raise (GatewayServerClosedConnectionError (member_name UNKNOWN_ERROR) (Some 4000)
             true false true).
Proof.
  refine (proj1 (@run_once_dies_on_other_errors sample_platform
                   fresh_gateway closing_world
                   (GatewayServerClosedConnectionError (member_name UNKNOWN_ERROR)
                      (Some 4000) true false true)
                   (final_self ((_run_once_throttle ;; _run_once_try)
                                  fresh_gateway closing_world))
                   (final_world ((_run_once_throttle ;; _run_once_try)
                                   fresh_gateway closing_world))
                   _ _)).
  - vm_compute. reflexivity.
  - vm_compute. reflexivity.
Defined.

Lemma run_once_refused_connection_witness :
  outcome (_run_once fresh_gateway refusing_world) = Raise AttributeError.
Proof.
  exact (proj2 (run_once_refused_connection fresh_gateway refusing_world
                  (e := server_handshake_error) (rest := []) eq_refl)).
Defined.

Lemma run_once_socket_closed_witness :
  outcome ((_run_once_throttle ;;
            r <- try_finally
                   (try_except (closed_meanwhile _run_once_try) _run_once_except)
                   _run_once_finally ;;
            match r with
            | Some b => ret b
            | None => ret true
            end) fresh_gateway dropped_world)
  = Return false.
Proof.
  pose proof (@run_once_socket_closed sample_platform
                (closed_meanwhile _run_once_try) fresh_gateway dropped_world
                (final_self ((_run_once_throttle ;; closed_meanwhile _run_once_try)
                               fresh_gateway dropped_world))
                (final_world ((_run_once_throttle ;; closed_meanwhile _run_once_try)
                                fresh_gateway dropped_world))) as H.
  cbv zeta in H. destruct H as (Hr & _); [vm_compute; reflexivity|].
  rewrite Hr. vm_compute. reflexivity.
Defined.

(** ** Closing, running and the voice state *)

Section MoreControlProperties.

Context {platform : Platform}.

(** X19: [close] sets the close event and, the first time and with a
    websocket, sends the close frame with code 1000 and message "user shut
    down application"; it never raises, it touches nothing else, and a
    second [close] does nothing at all. *)
Theorem close_once (g : Gateway) (w : World) :
  let r := close g w in
  outcome r = Return tt
  /\ final_self r = set_request_close_event true g
  /\ trace (final_world r)
     = (if negb (_request_close_event g) && _ws g
        then ws_close 1000 "user shut down application" :: trace w
        else trace w)
  /\ close (final_self r) (final_world r) = (Return tt, final_self r, final_world r).
Proof.
  cbv zeta.
  assert (close g w
          = (Return tt, set_request_close_event true g,
             if negb (_request_close_event g) && _ws g
             then set_trace (ws_close 1000 "user shut down application" :: trace w) w
             else w)) as Hrun.
  { unfold close. rewrite bind_get.
    destruct (_request_close_event g) eqn:Hclose; cbn [negb andb].
    - unfold ret. f_equal. f_equal. destruct g; cbn in *; subst; reflexivity.
    - rewrite bind_modify, bind_get. cbn [_ws set_request_close_event].
      destruct (_ws g) eqn:Hws; [|reflexivity].
      rewrite close_ws_run. cbn [_ws set_request_close_event]. rewrite Hws.
      reflexivity. }
  rewrite Hrun. unfold outcome, final_self, final_world. cbn [fst snd].
  repeat split.
  destruct (negb (_request_close_event g) && _ws g); reflexivity.
Qed.

(** The loop of [_run] makes no attempt once a close is requested. *)
Lemma run_loop_closed (fuel : nat) (g : Gateway) (w : World) :
  _request_close_event g = true -> _run_loop fuel g w = (Return tt, g, w).
Proof. intros H. destruct fuel; cbn [_run_loop]; rewrite H; reflexivity. Qed.

(** X20: [_run] never returns; it ends in an exception, and by then the
    handshake event is set, so that a caller waiting in [start] is let go.
    If a close was requested before it starts, it makes no connection
    attempt and raises [GatewayClientClosedError].  The close of the HTTP
    client behind [super().close()] is taken to return and to leave the
    gateway's attributes alone. *)
Theorem run_raises_and_releases (super_close : M unit) (fuel : nat)
    (g : Gateway) (w : World) :
  (forall g w, exists w', super_close g w = (Return tt, g, w')) ->
  let r := _run super_close fuel g w in
  (forall a, outcome r <> Return a)
  /\ (outcome r <> OutOfFuel -> _handshake_event (final_self r) = true)
  /\ (_request_close_event g = true ->
      outcome r = Raise GatewayClientClosedError
      /\ final_self r = set_handshake_event true g
      /\ final_world r = final_world (super_close (set_handshake_event true g) w)).
Proof.
  intros Hsuper. cbv zeta. unfold _run, try_finally.
  split; [|split].
  - intros a. rewrite bind_run.
    destruct (_run_loop fuel g w) as [[[[]|e|] g0] w0]; unfold raise;
      try rewrite bind_modify;
      try (destruct (Hsuper (set_handshake_event true g0) w0) as (w' & ->));
      discriminate.
  - rewrite bind_run.
    destruct (_run_loop fuel g w) as [[[[]|e|] g0] w0]; unfold raise;
      try rewrite bind_modify;
      try (destruct (Hsuper (set_handshake_event true g0) w0) as (w' & ->));
      intros H; try reflexivity. exfalso. apply H. reflexivity.
  - intros Hclose. rewrite bind_run, (@run_loop_closed fuel g w Hclose). unfold raise.
    rewrite bind_modify.
    destruct (Hsuper (set_handshake_event true g) w) as (w' & ->).
    repeat split.
Qed.

(** [str] writes an integer so that reading the digits gives it back. *)
Lemma str_reads_back (n : Z) :
  option_map Z.of_int (NilEmpty.int_of_string (str n)) = Some n.
Proof. unfold str. rewrite NilEmpty.isi. cbn. rewrite DecimalZ.of_to. reflexivity. Qed.

(** X21: [update_voice_state] on an open websocket sends one frame and
    assigns nothing.  The frame has opcode 4 and, under [d], the keys
    [guild_id], [channel], [self_mute] and [self_deaf]; the guild is
    written as the decimal string of its identifier, and so is the channel
    unless it is [None], which is sent as null. *)
Theorem update_voice_state_frame (guild : Z) (channel : option Z)
    (self_mute self_deaf : bool) (g : Gateway) (w : World) :
  _ws g = true ->
  let r := update_voice_state guild channel self_mute self_deaf g w in
  final_self r = g
  /\ exists guild_id channel_id,
      trace (final_world r)
      = send_str (JObj [("op", JInt 4);
                        ("d", JObj [("guild_id", JStr guild_id);
                                    ("channel", channel_id);
                                    ("self_mute", JBool self_mute);
                                    ("self_deaf", JBool self_deaf)])])
          :: trace w
      /\ option_map Z.of_int (NilEmpty.int_of_string guild_id) = Some guild
      /\ match channel with
         | Some c =>
             exists s, channel_id = JStr s
                       /\ option_map Z.of_int (NilEmpty.int_of_string s) = Some c
         | None => channel_id = JNull
         end.
Proof.
  intros Hws. cbv zeta. unfold update_voice_state.
  match goal with
  | |- context [_send_json ?payload g w] =>
      destruct (@send_json_run _ payload g w Hws) as (Hself & Htr & _)
  end.
  split; [exact Hself|].
  eexists. eexists. split; [exact Htr|].
  split; [apply str_reads_back|].
  destruct channel as [c|]; [|reflexivity].
  eexists. split; [reflexivity | apply str_reads_back].
Qed.

End MoreControlProperties.

Lemma run_raises_and_releases_witness :
  _handshake_event (final_self (_run (ret tt) 1 fresh_gateway closing_world)) = true
  /\ outcome (_run (ret tt) 1 (set_request_close_event true fresh_gateway)
                (world_with []))
     = Raise GatewayClientClosedError
  /\ final_self (_run (ret tt) 1 (set_request_close_event true fresh_gateway)
                   (world_with []))
     = set_handshake_event true (set_request_close_event true fresh_gateway).
Proof.
  assert (forall (g : @Gateway sample_platform) (w : World),
             exists w', @ret sample_platform unit tt g w = (Return tt, g, w')) as Hsuper
    by (intros g w; exists w; reflexivity).
  split.
  - apply (@run_raises_and_releases sample_platform (ret tt) 1 fresh_gateway
             closing_world Hsuper).
    vm_compute. discriminate.
  - destruct (@run_raises_and_releases sample_platform (ret tt) 1
                (set_request_close_event true fresh_gateway) (world_with []) Hsuper)
      as (_ & _ & Hclosed).
    destruct (Hclosed eq_refl) as (Hr & Hg & _). split; assumption.
Defined.

Lemma update_voice_state_frame_witness :
  final_self (update_voice_state 81384788765712384 None false true
                open_gateway (world_with []))
  = open_gateway.
Proof.
  exact (proj1 (update_voice_state_frame 81384788765712384 None false true
                  open_gateway (world_with []) eq_refl)).
Defined.

(** * More properties of the shard client *)

(** ** The supervisor loop *)

Section MoreKeepAliveProperties.

Context {platform : Platform}.

Lemma code_in_fatal_codes (code : option Z) :
  code_in code Shards.fatal_codes = true <->
  exists c, code = Some c
            /\ (c = 4003 \/ c = 4004 \/ c = 4005 \/ c = 4011 \/ c = 4012
                \/ c = 4013 \/ c = 4014).
Proof.
  destruct code as [c|]; cbn.
  - rewrite !orb_true_iff, !Z.eqb_eq. split.
    + intros H. exists c. split; [reflexivity | lia].
    + intros (c' & E & H). inversion E; subst. lia.
  - split; [discriminate | intros (c & E & _); discriminate].
Qed.

(** X22: a close by the server ends the supervisor loop, with the error
    raised again, if and only if the close code is one of 4003, 4004, 4005,
    4011, 4012, 4013 and 4014; after any other close code, or none, the
    loop goes on to the next attempt with nothing changed. *)
Theorem keep_alive_fatal_close_codes (s : Shards.State) (code : option Z) :
  let ex := Shards.GatewayServerClosedConnectionError code in
  (Shards._keep_alive_except ex s = Shards.raised ex s
   \/ Shards._keep_alive_except ex s = Shards.continue s)
  /\ (Shards._keep_alive_except ex s = Shards.raised ex s <->
      exists c, code = Some c
                /\ (c = 4003 \/ c = 4004 \/ c = 4005 \/ c = 4011 \/ c = 4012
                    \/ c = 4013 \/ c = 4014)).
Proof.
  cbv zeta. cbn [Shards._keep_alive_except].
  rewrite <- code_in_fatal_codes.
  destruct (code_in code Shards.fatal_codes); split; auto;
    split; try reflexivity; discriminate.
Qed.

(** How a turn of the loop ends, by what the attempt raises. *)
Lemma keep_alive_iteration_ending (dispatcher : bool) (attempt : Shards.Attempt)
    (s : Shards.State) :
  match Shards._keep_alive_iteration dispatcher attempt s with
  | Shards.continue _ => True
  | Shards.returned _ => attempt_raises attempt = Some Shards.GatewayClientClosedError
  | Shards.raised ex _ =>
      attempt_raises attempt = Some ex
      /\ (ex = Shards.Exception
          \/ exists code, ex = Shards.GatewayServerClosedConnectionError code
                          /\ code_in code Shards.fatal_codes = true)
  end.
Proof.
  unfold Shards._keep_alive_iteration.
  destruct attempt as [seq0 sid0 ex|reconnect_count seq0 sid0 [ex|]];
    cbn [attempt_raises]; try exact I;
    destruct ex as [| |can_resume| |code| | |]; cbn [Shards._keep_alive_except];
    try exact I; try reflexivity;
    try (split; [reflexivity | left; reflexivity]);
    destruct (code_in code Shards.fatal_codes) eqn:Hcode; try exact I;
    (split; [reflexivity | right; exists code; split; [reflexivity | assumption]]).
Qed.

(** X23: the supervisor loop gives up in two ways only.  It returns only
    when an attempt raised [GatewayClientClosedError]; it raises only an
    exception an attempt raised, and only when that is a close by the
    server with one of the fatal close codes, or an exception that is none
    of those the loop tells apart.  Whatever else an attempt ends in, the
    next attempt follows. *)
Theorem keep_alive_ending (dispatcher : bool) (attempts : list Shards.Attempt)
    (s : Shards.State) :
  match Shards._keep_alive_loop dispatcher attempts s with
  | Shards.continue _ => True
  | Shards.returned _ =>
      In (Some Shards.GatewayClientClosedError) (map attempt_raises attempts)
  | Shards.raised ex _ =>
      In (Some ex) (map attempt_raises attempts)
      /\ (ex = Shards.Exception
          \/ exists code, ex = Shards.GatewayServerClosedConnectionError code
                          /\ code_in code Shards.fatal_codes = true)
  end.
Proof.
  revert s. induction attempts as [|attempt rest IH]; intros s; [exact I|].
  cbn [Shards._keep_alive_loop map].
  pose proof (keep_alive_iteration_ending dispatcher attempt s) as Hturn.
  destruct (Shards._keep_alive_iteration dispatcher attempt s) as [s'|s'|ex s'].
  - specialize (IH s').
    destruct (Shards._keep_alive_loop dispatcher rest s') as [s''|s''|ex s''].
    + exact I.
    + right. exact IH.
    + destruct IH as (Hin & Hex). split; [right; exact Hin | exact Hex].
  - left. exact Hturn.
  - destruct Hturn as (Hraises & Hex). split; [left; exact Hraises | exact Hex].
Qed.

Lemma keep_alive_iteration_session (dispatcher : bool) (attempt : Shards.Attempt)
    (s : Shards.State) :
  let s' := final_state (Shards._keep_alive_iteration dispatcher attempt s) in
  (Shards.seq s', Shards.session_id s') = turn_session attempt.
Proof.
  cbv zeta. unfold Shards._keep_alive_iteration, turn_session.
  destruct attempt as [seq0 sid0 ex|reconnect_count seq0 sid0 [ex|]];
    cbn [attempt_raises attempt_session];
    try destruct (dispatcher && (reconnect_count =? 0));
    try (destruct ex as [| |[|]| |code| | |]; cbn [Shards._keep_alive_except];
         try destruct (code_in code Shards.fatal_codes));
    reflexivity.
Qed.

(** X24: the supervisor loop changes the connection's [seq] and
    [session_id] only by forgetting them, and only when told.  After a turn
    they are what the connection left them at during the attempt, except
    after an invalid session that cannot be resumed, when both are [None];
    and when the loop ends they are what one of its turns left, or, if it
    made no attempt, what they were at the start. *)
Theorem keep_alive_keeps_session (dispatcher : bool)
    (attempts : list Shards.Attempt) (s : Shards.State) :
  (forall attempt,
      let s' := final_state (Shards._keep_alive_iteration dispatcher attempt s) in
      (Shards.seq s', Shards.session_id s')
      = match attempt_raises attempt with
        | Some (Shards.GatewayInvalidSessionError false) => (JNull, JNull)
        | _ => attempt_session attempt
        end)
  /\ (let s' := final_state (Shards._keep_alive_loop dispatcher attempts s) in
      match attempts with
      | [] => (Shards.seq s', Shards.session_id s') = (Shards.seq s, Shards.session_id s)
      | _ =>
          exists attempt,
            In attempt attempts
            /\ (Shards.seq s', Shards.session_id s')
               = match attempt_raises attempt with
                 | Some (Shards.GatewayInvalidSessionError false) => (JNull, JNull)
                 | _ => attempt_session attempt
                 end
      end).
Proof.
  split; [intros attempt; apply keep_alive_iteration_session|].
  cbv zeta. revert s. induction attempts as [|attempt rest IH]; intros s;
    [reflexivity|].
  cbn [Shards._keep_alive_loop].
  pose proof (keep_alive_iteration_session dispatcher attempt s) as Hturn.
  cbv zeta in Hturn. unfold turn_session in Hturn.
  destruct (Shards._keep_alive_iteration dispatcher attempt s) as [s1|s1|ex s1];
    cbn [final_state] in *;
    try (exists attempt; split; [left; reflexivity | exact Hturn]).
  specialize (IH s1). destruct rest as [|next rest'].
  - cbn [Shards._keep_alive_loop final_state] in *.
    exists attempt. split; [left; reflexivity | exact Hturn].
  - destruct IH as (a & Hin & Ha). exists a. split; [right; exact Hin | exact Ha].
Qed.

End MoreKeepAliveProperties.

(** ** Starting, closing and the presence *)

Section ShardClientProperties.

Variable Activity : Type.
Variable serialize : Activity -> json.

(** An awaited call of a collaborator leaves the client as it is, and the
    turns the task has left. *)
Lemma await_client (call : ShardClient.Call)
    (c : ShardClient.Client Activity) (e : ShardClient.Env) :
  snd (fst (ShardClient.await call c e)) = c
  /\ ShardClient.turns (snd (ShardClient.await call c e)) = ShardClient.turns e.
Proof.
  unfold ShardClient.await.
  destruct (ShardClient.awaits e) as [|[x|] rest]; split; reflexivity.
Qed.

(** [_spin_up] leaves the shard state at one of the four it assigns. *)
Lemma spin_up_under_way (seq session_id : json)
    (c : ShardClient.Client Activity) (e : ShardClient.Env) :
  under_way (ShardClient._shard_state
               (snd (fst (ShardClient._spin_up seq session_id c e)))) = true.
Proof.
  unfold ShardClient._spin_up, ShardClient.bind, ShardClient.set_shard_state,
    ShardClient.schedule, ShardClient.await.
  destruct (negb (is_None seq) && negb (is_None session_id));
    destruct (ShardClient.awaits e) as [|[x|] [|[y|] [|[z|] l]]]; reflexivity.
Qed.

(** So do the turns the keep-alive task has left, if it has any. *)
Lemma keep_alive_turns_state (left : list (json * json))
    (c : ShardClient.Client Activity) (e : ShardClient.Env) :
  match left with
  | [] => snd (fst (ShardClient._keep_alive_turns left c e)) = c
  | _ =>
      under_way (ShardClient._shard_state
                   (snd (fst (ShardClient._keep_alive_turns left c e)))) = true
  end.
Proof.
  revert c e. induction left as [|[seq session_id] rest IH]; intros c e;
    [reflexivity|].
  cbn [ShardClient._keep_alive_turns].
  pose proof (spin_up_under_way seq session_id c e) as Hspin.
  destruct (ShardClient._spin_up seq session_id c e) as [[r c1] e1].
  cbn [fst snd] in Hspin. specialize (IH c1 e1).
  destruct rest as [|next rest']; [|exact IH].
  rewrite IH. exact Hspin.
Qed.

(** The shard state after the wait for the client's own task. *)
Lemma await_own_task_state (c : ShardClient.Client Activity) (e : ShardClient.Env) :
  match ShardClient.turns e with
  | [] => snd (fst (ShardClient.await_own_task c e)) = c
  | _ =>
      under_way (ShardClient._shard_state
                   (snd (fst (ShardClient.await_own_task c e)))) = true
  end.
Proof.
  unfold ShardClient.await_own_task, ShardClient.bind.
  pose proof (keep_alive_turns_state (ShardClient.turns e) c
                {| ShardClient.awaits := ShardClient.awaits e;
                   ShardClient.turns := [];
                   ShardClient.trace := ShardClient.trace e |}) as Hturns.
  destruct (ShardClient._keep_alive_turns (ShardClient.turns e) c _)
    as [[[[]|ex] c1] e1]; cbn [fst snd] in *.
  - rewrite (proj1 (await_client _ _ _)). exact Hturns.
  - exact Hturns.
Qed.

(** The states a client is left in by [close]. *)
Lemma when_task_state (task : bool) (c : ShardClient.Client Activity)
    (e : ShardClient.Env) :
  ShardClient._shard_state c = ShardClient.STOPPING ->
  let c' := snd (fst (ShardClient.when task (@ShardClient.await_own_task Activity) c e)) in
  (ShardClient._shard_state c' = ShardClient.STOPPING
   \/ under_way (ShardClient._shard_state c') = true)
  /\ (task = false \/ ShardClient.turns e = [] ->
      ShardClient._shard_state c' = ShardClient.STOPPING).
Proof.
  intros Hstate. cbv zeta. unfold ShardClient.when.
  destruct task; [|split; [left; exact Hstate | intros _; exact Hstate]].
  pose proof (await_own_task_state c e) as H.
  destruct (ShardClient.turns e).
  - rewrite H. split; [left; exact Hstate | intros _; exact Hstate].
  - split; [right; exact H | intros [Hf|Hf]; discriminate].
Qed.

Lemma close_state (c : ShardClient.Client Activity) (e : ShardClient.Env) :
  let c' := snd (fst (ShardClient.close c e)) in
  (ShardClient._shard_state c' = ShardClient.STOPPING
   \/ under_way (ShardClient._shard_state c') = true)
  /\ (ShardClient._task c = false \/ ShardClient.turns e = [] ->
      ShardClient._shard_state c' = ShardClient.STOPPING).
Proof.
  cbv zeta.
  set (P := fun r : ShardClient.Outcome unit * ShardClient.Client Activity
                    * ShardClient.Env =>
              (ShardClient._shard_state (snd (fst r)) = ShardClient.STOPPING
               \/ under_way (ShardClient._shard_state (snd (fst r))) = true)
              /\ (ShardClient._task c = false \/ ShardClient.turns e = [] ->
                  ShardClient._shard_state (snd (fst r)) = ShardClient.STOPPING)).
  change (P (ShardClient.close c e)).
  assert (forall r (c0 : ShardClient.Client Activity) e0,
             ShardClient._shard_state c0 = ShardClient.STOPPING ->
             P (r, c0, e0)) as Hstopping.
  { intros r c0 e0 Hstate. unfold P. cbn [fst snd].
    split; [left; exact Hstate | intros _; exact Hstate]. }
  assert (forall (c0 : ShardClient.Client Activity) e0,
             ShardClient._shard_state c0 = ShardClient.STOPPING ->
             ShardClient.turns e0 = ShardClient.turns e ->
             P (ShardClient.bind
                  (ShardClient.when (ShardClient._task c)
                     (@ShardClient.await_own_task Activity))
                  (fun _ =>
                     ShardClient.when (ShardClient._dispatcher c)
                       (ShardClient.await
                          (ShardClient.dispatch_event ShardClient.StoppedEvent)))
                  c0 e0)) as Htail.
  { intros c0 e0 Hstate Hturns. unfold ShardClient.bind.
    pose proof (when_task_state (ShardClient._task c) c0 e0 Hstate) as H.
    cbv zeta in H. rewrite Hturns in H.
    destruct (ShardClient.when (ShardClient._task c)
                (@ShardClient.await_own_task Activity) c0 e0)
      as [[[[]|ex] c1] e1]; cbn [fst snd] in H; [|exact H].
    unfold P, ShardClient.when. destruct (ShardClient._dispatcher c);
      [rewrite (proj1 (await_client _ _ _)) | cbn [ShardClient.ret fst snd]];
      exact H. }
  assert (forall (c0 : ShardClient.Client Activity) e0,
             ShardClient._shard_state c0 = ShardClient.STOPPING ->
             ShardClient.turns e0 = ShardClient.turns e ->
             P (ShardClient.bind (ShardClient.await ShardClient.connection_close)
                  (fun _ =>
                     ShardClient.bind
                       (ShardClient.when (ShardClient._task c)
                          (@ShardClient.await_own_task Activity))
                       (fun _ =>
                          ShardClient.when (ShardClient._dispatcher c)
                            (ShardClient.await
                               (ShardClient.dispatch_event ShardClient.StoppedEvent))))
                  c0 e0)) as Hclose.
  { intros c0 e0 Hstate Hturns. unfold ShardClient.bind at 1.
    destruct (await_client ShardClient.connection_close c0 e0) as (Hc & Ht).
    destruct (ShardClient.await ShardClient.connection_close c0 e0)
      as [[[[]|ex] c1] e1]; cbn [fst snd] in Hc, Ht; subst c1.
    - apply Htail; [exact Hstate | congruence].
    - apply Hstopping. exact Hstate. }
  unfold ShardClient.close. unfold ShardClient.bind at 1. unfold ShardClient.self.
  destruct (ShardClient._shard_state c) eqn:Hstate;
    try (apply Hstopping; exact Hstate).
  all: unfold ShardClient.bind at 1; unfold ShardClient.set_shard_state.
  all: unfold ShardClient.bind at 1; unfold ShardClient.when at 1.
  all: destruct (ShardClient._dispatcher c) eqn:Hdispatcher.
  all: try (cbn [ShardClient.ret]; apply Hclose; reflexivity).
  all: match goal with
       | |- context [ShardClient.await (ShardClient.dispatch_event
                                          ShardClient.StoppingEvent) ?c0 ?e0] =>
           destruct (await_client (ShardClient.dispatch_event
                                     ShardClient.StoppingEvent) c0 e0) as (Hc & Ht);
           destruct (ShardClient.await (ShardClient.dispatch_event
                                          ShardClient.StoppingEvent) c0 e0)
             as [[[[]|ex] c1] e1]; cbn [fst snd] in Hc, Ht; subst c1;
           [ apply Hclose; [reflexivity | exact Ht]
           | apply Hstopping; reflexivity ]
       end.
Qed.

(** X25: closing a shard client is final.  However [close] ends, the shard
    state is afterwards STOPPING or, when the keep-alive task that [close]
    waits for went through [_spin_up] once more, one of CONNECTING,
    WAITING_FOR_READY, RESUMING and READY; it is never STOPPED, nor
    NOT_RUNNING.  So a [start] after a [close] raises [RuntimeError] and
    creates no task.  When the client has no task, or the task has no turn
    left, the state is STOPPING and another [close] does nothing. *)
Theorem shard_close_is_final (c : ShardClient.Client Activity) (e : ShardClient.Env) :
  let r := ShardClient.close c e in
  let c' := snd (fst r) in
  let e' := snd r in
  (ShardClient._shard_state c' = ShardClient.STOPPING
   \/ under_way (ShardClient._shard_state c') = true)
  /\ ShardClient._shard_state c' <> ShardClient.STOPPED
  /\ ShardClient._shard_state c' <> ShardClient.NOT_RUNNING
  /\ ShardClient.start c' e'
     = (ShardClient.Raise (ShardClient.RuntimeError "Cannot start a shard twice"),
        c', e')
  /\ (ShardClient._task c = false \/ ShardClient.turns e = [] ->
      ShardClient._shard_state c' = ShardClient.STOPPING
      /\ ShardClient.close c' e' = (ShardClient.Return tt, c', e')).
Proof.
  cbv zeta. destruct (close_state c e) as (Hstate & Hquiet). cbv zeta in Hstate, Hquiet.
  set (c' := snd (fst (ShardClient.close c e))) in *.
  set (e' := snd (ShardClient.close c e)).
  split; [exact Hstate|].
  split; [destruct Hstate as [H|H]; intros E; rewrite E in H; discriminate|].
  split; [destruct Hstate as [H|H]; intros E; rewrite E in H; discriminate|].
  split.
  - unfold ShardClient.start, ShardClient.bind, ShardClient.self.
    destruct Hstate as [H|H]; destruct (ShardClient._shard_state c');
      try discriminate; reflexivity.
  - intros Hno. specialize (Hquiet Hno). split; [exact Hquiet|].
    unfold ShardClient.close, ShardClient.bind, ShardClient.self.
    rewrite Hquiet. reflexivity.
Qed.

(** X26: the states [_spin_up] goes through.  It waits for HELLO and for
    the handshake in state CONNECTING, and then for RESUMED in state
    RESUMING when the connection holds both a [seq] and a [session_id],
    and for READY in state WAITING_FOR_READY otherwise.  When all three
    waits return the state is READY; when one raises, the state is the one
    it was waited in. *)
Theorem spin_up_phases (seq session_id : json)
    (c : ShardClient.Client Activity) (e : ShardClient.Env) :
  let is_resume := negb (is_None seq) && negb (is_None session_id) in
  let r := ShardClient._spin_up seq session_id c e in
  match fst (fst r) with
  | ShardClient.Return _ =>
      ShardClient._shard_state (snd (fst r)) = ShardClient.READY
      /\ ShardClient.trace (snd r)
         = ShardClient.wait_first_completed
             (if is_resume then ShardClient.resumed_event else ShardClient.ready_event)
             :: ShardClient.wait_first_completed ShardClient.handshake_event
             :: ShardClient.wait_first_completed ShardClient.hello_event
             :: ShardClient.create_connect_task :: ShardClient.trace e
  | ShardClient.Raise _ =>
      match ShardClient.trace (snd r) with
      | ShardClient.wait_first_completed ShardClient.hello_event :: _
      | ShardClient.wait_first_completed ShardClient.handshake_event :: _ =>
          ShardClient._shard_state (snd (fst r)) = ShardClient.CONNECTING
      | ShardClient.wait_first_completed ShardClient.resumed_event :: _ =>
          is_resume = true
          /\ ShardClient._shard_state (snd (fst r)) = ShardClient.RESUMING
      | ShardClient.wait_first_completed ShardClient.ready_event :: _ =>
          is_resume = false
          /\ ShardClient._shard_state (snd (fst r)) = ShardClient.WAITING_FOR_READY
      | _ => False
      end
  end.
Proof.
  cbv zeta.
  unfold ShardClient._spin_up, ShardClient.bind, ShardClient.set_shard_state,
    ShardClient.schedule, ShardClient.await.
  destruct (negb (is_None seq) && negb (is_None session_id));
    destruct (ShardClient.awaits e) as [|[x|] [|[y|] [|[z|] l]]]; cbn;
    repeat split.
Qed.

(** X27: the shard client's [update_presence] stores what it sends.  If
    the connection's [update_presence] raises, the client is as it was; if
    it returns, each given argument is stored and each unset one leaves its
    field, the payload handed to the connection is the one built from the
    fields as stored afterwards, with the idle time in milliseconds, and
    the same call again would hand over the same payload. *)
Theorem shard_update_presence_stores (status : Unset PresenceStatus)
    (activity : Unset (option Activity)) (idle_since : Unset (option datetime))
    (is_afk : Unset bool) (c : ShardClient.Client Activity) (e : ShardClient.Env) :
  match ShardClient.update_presence serialize status activity idle_since is_afk c e with
  | (ShardClient.Return _, c', e') =>
      ShardClient._status c' = or_else status (ShardClient._status c)
      /\ ShardClient._activity c' = or_else activity (ShardClient._activity c)
      /\ ShardClient._idle_since c' = or_else idle_since (ShardClient._idle_since c)
      /\ ShardClient._is_afk c' = or_else is_afk (ShardClient._is_afk c)
      /\ ShardClient._shard_state c' = ShardClient._shard_state c
      /\ (exists presence,
             ShardClient.trace e'
             = ShardClient.connection_update_presence presence :: ShardClient.trace e
             /\ presence
                = Shards._create_presence_pl (ShardClient._status c')
                    (option_map serialize (ShardClient._activity c'))
                    (ShardClient._idle_since c') (ShardClient._is_afk c')
             /\ getitem presence "idle_since"
                = Ok match ShardClient._idle_since c' with
                     | Some d => JFloat (PrimFloat.mul (timestamp d) 1000%float)
                     | None => JNull
                     end
             /\ forall e'',
                 ShardClient.trace
                   (snd (ShardClient.update_presence serialize status activity
                           idle_since is_afk c' e''))
                 = ShardClient.connection_update_presence presence
                     :: ShardClient.trace e'')
  | (ShardClient.Raise _, c', _) => c' = c
  end.
Proof.
  unfold ShardClient.update_presence, ShardClient.bind, ShardClient.self,
    ShardClient.await, ShardClient.set_presence.
  destruct (ShardClient.awaits e) as [|[x|] rest]; cbn; try reflexivity;
    (repeat split; eexists; split; [reflexivity|]; split; [reflexivity|];
     split; [reflexivity|]; intros e'';
     destruct status, activity, idle_since, is_afk;
     destruct (ShardClient.awaits e'') as [|[x'|] rest'']; reflexivity).
Qed.

End ShardClientProperties.

(** * The REST client *)

(** X28: with a token type the REST session is always given a token, the
    type and the token separated by a space, and when there is no token
    this is the type followed by the word None; without a token type it is
    given the token as it is, or none. *)
Theorem rest_token_with_type (token token_type : option string) :
  match token_type with
  | Some type =>
      RESTClient_token token token_type
      = Some (type ++ " " ++ match token with Some t => t | None => "None" end)
  | None => RESTClient_token token token_type = token
  end
  /\ (RESTClient_token token token_type = None <-> token = None /\ token_type = None).
Proof.
  destruct token_type as [type|], token as [t|]; cbn; split; try reflexivity;
    split; try discriminate; try (intros (? & ?); discriminate); auto.
Qed.

(** * Two more properties of the gateway *)

Section MoreGatewayProperties.

Context {platform : Platform}.

(** X29: a compressed payload that spans frames is never decoded.  When
    the first binary frame does not end in the zlib suffix,
    [_receive_zlib_message] does not return, whatever the websocket delivers
    next: a further binary frame raises [TypeError], any other message the
    gateway error for a missing binary message. *)
Theorem split_payload_never_decoded (first_packet : bytes) (g : Gateway) (w : World) :
  endswith first_packet ZLIB_SUFFIX = false ->
  (forall a, outcome (_receive_zlib_message first_packet g w) <> Return a)
  /\ (_ws g = true ->
      outcome (_receive_zlib_message first_packet g w)
      = match frames w with
        | BINARY _ :: _ => Raise TypeError
        | _ => Raise (GatewayError Expected_binary_message)
        end).
Proof.
  intros Hend. unfold outcome, _receive_zlib_message.
  rewrite bind_run, receive_zlib_loop_run, Hend, receive_raw_run. split.
  - intros a. destruct (_ws g); cbn; [|discriminate].
    destruct (frames w) as [|m rest]; [|destruct m]; discriminate.
  - intros ->. cbn.
    destruct (frames w) as [|m rest]; [|destruct m]; reflexivity.
Qed.

(** The [try] statement of an attempt ends within its fuel. *)
Lemma run_once_guarded_ends (g : Gateway) (w : World) r g2 w2 :
  (_run_once_throttle ;; try_except _run_once_try _run_once_except) g w = (r, g2, w2) ->
  r <> OutOfFuel.
Proof.
  destruct ((_run_once_throttle ;; _run_once_try) g w) as [[r1 g1] w1] eqn:H.
  destruct (run_once_try_ends _ _ H) as (ex & -> & _).
  rewrite (run_once_handle _ _ H).
  destruct (_run_once_except ex) as [handler|] eqn:Hex.
  - intros Hh. apply (keeps_run_once_except _ Hex) in Hh. apply Hh.
  - intros Hh. inversion Hh. discriminate.
Qed.

(** X30: after a connection attempt the gateway is not alive.  However
    [_run_once] ends, and whatever the object was before, [is_alive] is
    false afterwards: [connected_at] is set for the time of the connection
    only. *)
Theorem not_alive_after_attempt (g : Gateway) (w : World) :
  is_alive (final_self (_run_once g w)) = false.
Proof.
  destruct ((_run_once_throttle ;; try_except _run_once_try _run_once_except) g w)
    as [[r g2] w2] eqn:H.
  rewrite (run_once_finish _ _ H (run_once_guarded_ends _ _ H)).
  reflexivity.
Qed.

End MoreGatewayProperties.

Lemma split_payload_never_decoded_witness :
  (forall a,
      outcome (_receive_zlib_message (firstn 10 ACK_STREAM) open_gateway
                 (world_with [BINARY (skipn 10 ACK_STREAM)]))
      <> Return a)
  /\ (_ws open_gateway = true ->
      outcome (_receive_zlib_message (firstn 10 ACK_STREAM) open_gateway
                 (world_with [BINARY (skipn 10 ACK_STREAM)]))
      = Raise TypeError).
Proof.
  exact (split_payload_never_decoded (firstn 10 ACK_STREAM) open_gateway
           (world_with [BINARY (skipn 10 ACK_STREAM)]) eq_refl).
Defined.
